(** * SuperRelay trusted application: key store, lifecycle and signing

    A shallow embedding of [ta/super_relay_ta/super_relay_ta.c] and of the
    declarations of [ta/super_relay_ta/include/super_relay_ta.h].

    - C integers are [Z] with the wrap-around of their width written out.
    - [char] and [uint8_t] are [Byte.byte]; fixed arrays are lists of the
      declared length.
    - The globals of the translation unit are gathered in [ta_state].
    - The TEE Internal API (clock, key generation, digest, signature) is
      an external collaborator: it is a parameter [prim] of the model that
      answers each call from an abstract world state, and every call is
      logged, with its answer, in a trace. *)

From stdpp Require Import prelude strings sorting.
From Stdlib Require Import Strings.Byte.

Local Open Scope Z_scope.

(** ** Machine integers *)

Definition wrap32 (z : Z) : Z := z mod 2 ^ 32.
Definition wrap64 (z : Z) : Z := z mod 2 ^ 64.

(** ** Constants of [super_relay_ta.h] *)

Definition TA_SUPER_RELAY_CMD_GENERATE_KEY : Z := 0.
Definition TA_SUPER_RELAY_CMD_IMPORT_KEY : Z := 1.
Definition TA_SUPER_RELAY_CMD_SIGN_MESSAGE : Z := 2.
Definition TA_SUPER_RELAY_CMD_GET_PUBLIC_KEY : Z := 3.
Definition TA_SUPER_RELAY_CMD_DELETE_KEY : Z := 4.
Definition TA_SUPER_RELAY_CMD_LIST_KEYS : Z := 5.
Definition TA_SUPER_RELAY_CMD_GET_VERSION : Z := 6.
Definition TA_SUPER_RELAY_CMD_HEALTH_CHECK : Z := 7.

Definition SR_KEY_TYPE_ECDSA_SECP256K1 : Z := 0.
Definition SR_KEY_TYPE_ED25519 : Z := 1.
Definition SR_KEY_TYPE_MAX : Z := 2.

Definition SR_KEY_STATUS_ACTIVE : Z := 0.
Definition SR_KEY_STATUS_INACTIVE : Z := 1.
Definition SR_KEY_STATUS_COMPROMISED : Z := 2.

Definition SR_SUCCESS : Z := 0.
Definition SR_ERROR_KEY_NOT_FOUND : Z := 4.
Definition SR_ERROR_KEY_ALREADY_EXISTS : Z := 5.

Definition SR_MAX_KEY_ID_SIZE : Z := 64.
Definition SR_MAX_KEYS : Z := 16.
Definition SR_SECP256K1_PUBLIC_KEY_SIZE : Z := 64.
Definition SR_SECP256K1_PRIVATE_KEY_SIZE : Z := 32.
Definition SR_SECP256K1_SIGNATURE_SIZE : Z := 64.
Definition SR_MESSAGE_HASH_SIZE : Z := 32.
Definition SR_ETHEREUM_ADDRESS_SIZE : Z := 20.

(** ** Constants of the TEE Internal Core API

    [tee_internal_api.h] is not part of the repository; these are the
    values the GlobalPlatform specification assigns. *)

Definition TEE_Result := Z.

Definition TEE_SUCCESS : TEE_Result := 0.
Definition TEE_ERROR_ACCESS_DENIED : TEE_Result := 0xFFFF0001.
Definition TEE_ERROR_BAD_PARAMETERS : TEE_Result := 0xFFFF0006.
Definition TEE_ERROR_NOT_IMPLEMENTED : TEE_Result := 0xFFFF0009.
Definition TEE_ERROR_NOT_SUPPORTED : TEE_Result := 0xFFFF000A.
Definition TEE_ERROR_SHORT_BUFFER : TEE_Result := 0xFFFF0010.
Definition TEE_ERROR_STORAGE_NO_SPACE : TEE_Result := 0xFFFF3041.

Definition TEE_PARAM_TYPE_NONE : Z := 0.
Definition TEE_PARAM_TYPE_VALUE_INPUT : Z := 1.
Definition TEE_PARAM_TYPE_MEMREF_INPUT : Z := 5.
Definition TEE_PARAM_TYPE_MEMREF_OUTPUT : Z := 6.

Definition TEE_PARAM_TYPES (t0 t1 t2 t3 : Z) : Z :=
  Z.lor (Z.lor t0 (Z.shiftl t1 4)) (Z.lor (Z.shiftl t2 8) (Z.shiftl t3 12)).

Definition TEE_TYPE_ECDSA_KEYPAIR : Z := 0xA1000041.
Definition TEE_ALG_SHA256 : Z := 0x50000004.
Definition TEE_ALG_ECDSA_P256 : Z := 0x70003041.
Definition TEE_MODE_SIGN : Z := 2.
Definition TEE_ATTR_ECC_PUBLIC_VALUE_X : Z := 0xD0000141.
Definition TEE_ATTR_ECC_PUBLIC_VALUE_Y : Z := 0xD0000241.
Definition TEE_ATTR_ECC_PRIVATE_VALUE : Z := 0xC0000341.

(** ** Bytes, arrays and C strings *)

Abbreviation NUL := Byte.x00.

#[global] Instance byte_eq_dec : EqDecision byte := Byte.byte_eq_dec.

(** [memset(a, 0, n)] on a fresh array. *)
Definition zeros (n : nat) : list byte := replicate n NUL.

(** [memcpy(dst + off, src, |src|)]. *)
Definition memcpy_at (dst : list byte) (off : nat) (src : list byte) : list byte :=
  take off dst ++ src ++ drop (off + length src) dst.

(** The byte at offset [i] from a pointer. A pointer is modelled by the
    list of the bytes found from it onwards; beyond the list the memory
    reads as NUL. *)
Definition byte_at (s : list byte) (i : nat) : byte := nth i s NUL.

(** [n] bytes read from a pointer. *)
Definition mem_read (s : list byte) (n : nat) : list byte :=
  byte_at s <$> seq 0 n.

(** [strncmp(s1, s2, n)]: the bytes are compared as [unsigned char]; the
    comparison stops at the first difference, at a NUL, or after [n]
    bytes. *)
Fixpoint strncmp (s1 s2 : list byte) (n : nat) : Z :=
  match n with
  | O => 0
  | S n' =>
      let c1 := byte_at s1 0 in
      let c2 := byte_at s2 0 in
      if Byte.eqb c1 c2
      then if Byte.eqb c1 NUL then 0 else strncmp (tail s1) (tail s2) n'
      else Z.of_N (Byte.to_N c1) - Z.of_N (Byte.to_N c2)
  end.

(** The [n] bytes [strncpy(dst, src, n)] stores: the bytes of [src] up
    to its first NUL, then NUL padding. *)
Fixpoint strncpy_bytes (src : list byte) (n : nat) : list byte :=
  match n with
  | O => []
  | S n' =>
      let c := byte_at src 0 in
      if Byte.eqb c NUL then zeros (S n')
      else c :: strncpy_bytes (tail src) n'
  end.

Definition strncpy (dst src : list byte) (n : nat) : list byte :=
  memcpy_at dst 0 (strncpy_bytes src n).

(** The C string a pointer designates when at most [n] bytes are read:
    the bytes before the first NUL. *)
Fixpoint c_str (s : list byte) (n : nat) : list byte :=
  match n with
  | O => []
  | S n' =>
      let c := byte_at s 0 in
      if Byte.eqb c NUL then [] else c :: c_str (tail s) n'
  end.

(** ** Data model of [super_relay_ta.h] *)

Record sr_key_info_t := mk_key_info {
  info_key_id : list byte;          (* char key_id[SR_MAX_KEY_ID_SIZE] *)
  info_key_type : Z;                (* sr_key_type_t *)
  status : Z;                       (* sr_key_status_t *)
  created_time : Z;                 (* uint64_t *)
  last_used_time : Z;               (* uint64_t *)
  usage_count : Z;                  (* uint32_t *)
  ethereum_address : list byte      (* uint8_t[SR_ETHEREUM_ADDRESS_SIZE] *)
}.

Record sr_signature_result_t := mk_signature_result {
  signature : list byte;            (* uint8_t[SR_SECP256K1_SIGNATURE_SIZE] *)
  signature_len : Z;
  recovery_id : Z;
  sig_reserved : list byte          (* uint8_t[3] *)
}.

Record sr_public_key_result_t := mk_public_key_result {
  pk_public_key : list byte;        (* uint8_t[SR_SECP256K1_PUBLIC_KEY_SIZE] *)
  pk_public_key_len : Z;
  pk_ethereum_address : list byte;  (* uint8_t[SR_ETHEREUM_ADDRESS_SIZE] *)
  pk_reserved : list byte           (* uint8_t[8] *)
}.

Record sr_key_list_result_t := mk_key_list_result {
  key_count : Z;
  keys : list sr_key_info_t         (* sr_key_info_t[SR_MAX_KEYS] *)
}.

Record sr_version_info_t := mk_version_info {
  major : Z;
  minor : Z;
  patch : Z;
  build_info : list byte            (* char[64] *)
}.

Record sr_health_result_t := mk_health_result {
  health_status : Z;
  active_sessions : Z;
  total_operations : Z;
  storage_usage : Z;
  uptime : Z
}.

(** The internal storage structure of [super_relay_ta.c]. *)
Record sr_key_entry_t := mk_key_entry {
  key_id : list byte;               (* char key_id[SR_MAX_KEY_ID_SIZE] *)
  key_type : Z;
  private_key : list byte;          (* uint8_t[SR_SECP256K1_PRIVATE_KEY_SIZE] *)
  public_key : list byte;           (* uint8_t[SR_SECP256K1_PUBLIC_KEY_SIZE] *)
  private_key_len : Z;
  public_key_len : Z;
  info : sr_key_info_t
}.

(** All-zero values: what [memset(p, 0, sizeof *p)] leaves. *)
Definition zero_key_info : sr_key_info_t :=
  mk_key_info (zeros 64) 0 0 0 0 0 (zeros 20).

Definition zero_key_entry : sr_key_entry_t :=
  mk_key_entry (zeros 64) 0 (zeros 32) (zeros 64) 0 0 zero_key_info.

Definition zero_signature_result : sr_signature_result_t :=
  mk_signature_result (zeros 64) 0 0 (zeros 3).

Definition zero_public_key_result : sr_public_key_result_t :=
  mk_public_key_result (zeros 64) 0 (zeros 20) (zeros 8).

(** [sizeof] of the structures under the natural alignment of the ABIs
    OP-TEE targets (4-byte enums, 8-byte aligned [uint64_t]). *)
Definition sizeof_sr_key_info_t : Z := 112.
Definition sizeof_sr_key_entry_t : Z := 288.
Definition sizeof_sr_signature_result_t : Z := 72.
Definition sizeof_sr_public_key_result_t : Z := 96.
Definition sizeof_sr_key_list_result_t : Z := 8 + 16 * sizeof_sr_key_info_t.
Definition sizeof_sr_version_info_t : Z := 76.
Definition sizeof_sr_health_result_t : Z := 24.

(** The globals of the translation unit. *)
Record ta_state := mk_ta_state {
  g_keys : list sr_key_info_t;          (* sr_key_info_t[SR_MAX_KEYS] *)
  g_key_count : Z;                      (* uint32_t *)
  g_session_count : Z;                  (* uint32_t *)
  g_operation_count : Z;                (* uint32_t *)
  g_start_time : Z;                     (* uint64_t *)
  g_key_storage : list sr_key_entry_t   (* sr_key_entry_t[SR_MAX_KEYS] *)
}.

Definition zero_ta_state : ta_state :=
  mk_ta_state (replicate 16 zero_key_info) 0 0 0 0 (replicate 16 zero_key_entry).

(** Field updates, written as the assignments of the source. *)
Definition set_key_id (e : sr_key_entry_t) (v : list byte) : sr_key_entry_t :=
  mk_key_entry v (key_type e) (private_key e) (public_key e)
    (private_key_len e) (public_key_len e) (info e).
Definition set_key_type (e : sr_key_entry_t) (v : Z) : sr_key_entry_t :=
  mk_key_entry (key_id e) v (private_key e) (public_key e)
    (private_key_len e) (public_key_len e) (info e).
Definition set_private_key (e : sr_key_entry_t) (v : list byte) (len : Z) : sr_key_entry_t :=
  mk_key_entry (key_id e) (key_type e) v (public_key e) len (public_key_len e) (info e).
Definition set_public_key (e : sr_key_entry_t) (v : list byte) : sr_key_entry_t :=
  mk_key_entry (key_id e) (key_type e) (private_key e) v
    (private_key_len e) (public_key_len e) (info e).
Definition set_public_key_len (e : sr_key_entry_t) (len : Z) : sr_key_entry_t :=
  mk_key_entry (key_id e) (key_type e) (private_key e) (public_key e)
    (private_key_len e) len (info e).
Definition set_info (e : sr_key_entry_t) (i : sr_key_info_t) : sr_key_entry_t :=
  mk_key_entry (key_id e) (key_type e) (private_key e) (public_key e)
    (private_key_len e) (public_key_len e) i.
Definition set_ethereum_address (i : sr_key_info_t) (a : list byte) : sr_key_info_t :=
  mk_key_info (info_key_id i) (info_key_type i) (status i) (created_time i)
    (last_used_time i) (usage_count i) a.
Definition set_usage (i : sr_key_info_t) (t : Z) (n : Z) : sr_key_info_t :=
  mk_key_info (info_key_id i) (info_key_type i) (status i) (created_time i)
    t n (ethereum_address i).

Definition set_g_key_storage (s : ta_state) (v : list sr_key_entry_t) : ta_state :=
  mk_ta_state (g_keys s) (g_key_count s) (g_session_count s)
    (g_operation_count s) (g_start_time s) v.
Definition set_g_keys (s : ta_state) (v : list sr_key_info_t) : ta_state :=
  mk_ta_state v (g_key_count s) (g_session_count s)
    (g_operation_count s) (g_start_time s) (g_key_storage s).
Definition set_g_key_count (s : ta_state) (v : Z) : ta_state :=
  mk_ta_state (g_keys s) v (g_session_count s)
    (g_operation_count s) (g_start_time s) (g_key_storage s).
Definition set_g_session_count (s : ta_state) (v : Z) : ta_state :=
  mk_ta_state (g_keys s) (g_key_count s) v
    (g_operation_count s) (g_start_time s) (g_key_storage s).
Definition set_g_operation_count (s : ta_state) (v : Z) : ta_state :=
  mk_ta_state (g_keys s) (g_key_count s) (g_session_count s)
    v (g_start_time s) (g_key_storage s).

(** [g_key_storage[i]] and [g_keys[i]]. *)
Definition entry_at (s : ta_state) (i : Z) : sr_key_entry_t :=
  default zero_key_entry (g_key_storage s !! Z.to_nat i).
Definition info_at (s : ta_state) (i : Z) : sr_key_info_t :=
  default zero_key_info (g_keys s !! Z.to_nat i).

(** ** Command parameters

    A [TEE_Param] is a union; [param_types] tells which view is live and
    every command compares it with the expected shape before reading.
    A memory reference carries the bytes found at its buffer pointer and
    its declared size. What a command writes to its output buffer is
    returned as an [output]. *)

Inductive TEE_Param :=
  | Memref (buffer : list byte) (size : Z)
  | Value (a b : Z).

Definition memref_buffer (p : TEE_Param) : list byte :=
  match p with Memref b _ => b | Value _ _ => [] end.
Definition memref_size (p : TEE_Param) : Z :=
  match p with Memref _ n => n | Value _ _ => 0 end.
Definition value_a (p : TEE_Param) : Z :=
  match p with Memref _ _ => 0 | Value a _ => a end.

Definition param (params : list TEE_Param) (i : nat) : TEE_Param :=
  default (Value 0 0) (params !! i).

Inductive output :=
  | OutNone
  | OutAddress (address : list byte)
  | OutSignature (r : sr_signature_result_t)
  | OutPublicKey (r : sr_public_key_result_t)
  | OutKeyList (r : sr_key_list_result_t)
  | OutVersion (r : sr_version_info_t)
  | OutHealth (r : sr_health_result_t).

(** ** The primitive provider

    The calls the trusted application makes to the TEE Internal API, with
    the arguments that matter to the caller. Object and operation handles
    live in the provider's world. *)

Inductive prim_call :=
  | TEE_GetSystemTime
  | TEE_AllocateTransientObject (object_type max_size : Z)
  | TEE_GenerateKey (key_size : Z)
  | TEE_GetObjectBufferAttribute (attribute capacity : Z)
  | TEE_DigestDoFinal (algorithm : Z) (chunk : list byte) (capacity : Z)
  | TEE_FreeTransientObject
  | TEE_PopulateTransientObject (attribute : Z) (value : list byte)
  | TEE_AllocateOperation (algorithm mode max_key_size : Z)
  | TEE_SetOperationKey
  | TEE_AsymmetricSignDigest (digest : list byte) (capacity : Z)
  | TEE_FreeOperation.

(** The answer to a call: a result code, the bytes written to the output
    buffer (if any) and the seconds of a [TEE_Time] (if any). *)
Record prim_ret := mk_ret {
  ret_code : TEE_Result;
  ret_bytes : list byte;
  ret_time : Z
}.

(** The bytes a successful call leaves in an output buffer of the given
    capacity: the API never writes more than the capacity. *)
Definition out_bytes (capacity : nat) (r : prim_ret) : list byte :=
  take capacity (ret_bytes r).

Definition event_log := list (prim_call * prim_ret).

(** A logged answer is one the provider [prim] gives in some world. *)
Definition answered {W} (prim : prim_call -> W -> prim_ret * W)
    (cr : prim_call * prim_ret) : Prop :=
  exists w, cr.2 = (prim cr.1 w).1.

(** ** The trusted application *)

(** The globals, the provider's world, and the log of the calls made. *)
Record machine (W : Type) := mk_machine {
  ta : ta_state;
  world : W;
  trace : event_log
}.
Arguments mk_machine {W} _ _ _.
Arguments ta {W} _.
Arguments world {W} _.
Arguments trace {W} _.

Definition with_ta {W} (m : machine W) (s : ta_state) : machine W :=
  mk_machine s (world m) (trace m).

(** What the caller of the trusted application can do. *)
Inductive event :=
  | OpenSession
  | CloseSession
  | InvokeCommand (cmd_id param_types : Z) (params : list TEE_Param).

Section TA.

Context {W : Type} (prim : prim_call -> W -> prim_ret * W).

Abbreviation machine := (machine W).

Definition call (c : prim_call) (m : machine) : prim_ret * machine :=
  let rw := prim c (world m) in
  (rw.1, mk_machine (ta m) rw.2 (trace m ++ [(c, rw.1)])).

(** *** Utility functions *)

Definition get_current_time (m : machine) : Z * machine :=
  let '(r, m1) := call TEE_GetSystemTime m in
  (wrap32 (ret_time r), m1).

Fixpoint find_from (i : Z) (entries : list sr_key_entry_t) (kid : list byte) : Z :=
  match entries with
  | [] => -1
  | e :: rest =>
      if strncmp (key_id e) kid (Z.to_nat SR_MAX_KEY_ID_SIZE) =? 0 then i
      else find_from (i + 1) rest kid
  end.

(** The loop runs over the first [g_key_count] entries of the table. *)
Definition find_key_index (kid : list byte) (s : ta_state) : Z :=
  find_from 0 (take (Z.to_nat (g_key_count s)) (g_key_storage s)) kid.

(** The local [hash] is uninitialised before the digest call; it is taken
    as zeros, which shows only if the provider writes fewer than 32 bytes. *)
Definition derive_ethereum_address (pubkey : list byte) (m : machine)
  : list byte * machine :=
  let '(r, m1) := call (TEE_DigestDoFinal TEE_ALG_SHA256 (mem_read pubkey 64) 32) m in
  if negb (ret_code r =? TEE_SUCCESS) then
    (zeros (Z.to_nat SR_ETHEREUM_ADDRESS_SIZE), m1)
  else
    let hash := memcpy_at (zeros 32) 0 (out_bytes 32 r) in
    (take (Z.to_nat SR_ETHEREUM_ADDRESS_SIZE) (drop 12 hash), m1).

(** *** Cryptographic functions *)

Definition free_keypair (res : TEE_Result) (e : sr_key_entry_t) (m : machine)
  : TEE_Result * sr_key_entry_t * machine :=
  (res, e, (call TEE_FreeTransientObject m).2).

Definition generate_secp256k1_keypair (key_entry : sr_key_entry_t) (m : machine)
  : TEE_Result * sr_key_entry_t * machine :=
  let key_size := 256 in
  let '(r1, m1) := call (TEE_AllocateTransientObject TEE_TYPE_ECDSA_KEYPAIR key_size) m in
  if negb (ret_code r1 =? TEE_SUCCESS) then (ret_code r1, key_entry, m1) else
  let '(r2, m2) := call (TEE_GenerateKey key_size) m1 in
  if negb (ret_code r2 =? TEE_SUCCESS) then free_keypair (ret_code r2) key_entry m2 else
  let '(r3, m3) :=
    call (TEE_GetObjectBufferAttribute TEE_ATTR_ECC_PRIVATE_VALUE
            SR_SECP256K1_PRIVATE_KEY_SIZE) m2 in
  if negb (ret_code r3 =? TEE_SUCCESS) then free_keypair (ret_code r3) key_entry m3 else
  let priv := out_bytes 32 r3 in
  let e3 := set_private_key key_entry (memcpy_at (private_key key_entry) 0 priv)
              (Z.of_nat (length priv)) in
  let '(r4, m4) := call (TEE_GetObjectBufferAttribute TEE_ATTR_ECC_PUBLIC_VALUE_X 32) m3 in
  if negb (ret_code r4 =? TEE_SUCCESS) then free_keypair (ret_code r4) e3 m4 else
  let pub_x := out_bytes 32 r4 in
  let e4 := set_public_key e3 (memcpy_at (public_key e3) 0 pub_x) in
  let '(r5, m5) := call (TEE_GetObjectBufferAttribute TEE_ATTR_ECC_PUBLIC_VALUE_Y 32) m4 in
  if negb (ret_code r5 =? TEE_SUCCESS) then free_keypair (ret_code r5) e4 m5 else
  let pub_y := out_bytes 32 r5 in
  let e5 := set_public_key e4 (memcpy_at (public_key e4) 32 pub_y) in
  let e6 := set_public_key_len e5
              (wrap32 (Z.of_nat (length pub_x) + Z.of_nat (length pub_y))) in
  let '(address, m6) := derive_ethereum_address (public_key e6) m5 in
  let e7 := set_info e6 (set_ethereum_address (info e6) address) in
  free_keypair (ret_code r5) e7 m6.

Definition free_sign (operation : bool) (res : TEE_Result)
    (result : sr_signature_result_t) (m : machine)
  : TEE_Result * sr_signature_result_t * machine :=
  let m1 := if operation then (call TEE_FreeOperation m).2 else m in
  (res, result, (call TEE_FreeTransientObject m1).2).

Definition sign_message_ecdsa (key_entry : sr_key_entry_t) (message_hash : list byte)
    (result : sr_signature_result_t) (m : machine)
  : TEE_Result * sr_signature_result_t * machine :=
  let key_size := 256 in
  let '(r1, m1) := call (TEE_AllocateTransientObject TEE_TYPE_ECDSA_KEYPAIR key_size) m in
  if negb (ret_code r1 =? TEE_SUCCESS) then (ret_code r1, result, m1) else
  let '(r2, m2) :=
    call (TEE_PopulateTransientObject TEE_ATTR_ECC_PRIVATE_VALUE
            (mem_read (private_key key_entry) (Z.to_nat (private_key_len key_entry)))) m1 in
  if negb (ret_code r2 =? TEE_SUCCESS) then free_sign false (ret_code r2) result m2 else
  let '(r3, m3) := call (TEE_AllocateOperation TEE_ALG_ECDSA_P256 TEE_MODE_SIGN key_size) m2 in
  if negb (ret_code r3 =? TEE_SUCCESS) then free_sign false (ret_code r3) result m3 else
  let '(r4, m4) := call TEE_SetOperationKey m3 in
  if negb (ret_code r4 =? TEE_SUCCESS) then free_sign true (ret_code r4) result m4 else
  let '(r5, m5) :=
    call (TEE_AsymmetricSignDigest (mem_read message_hash (Z.to_nat SR_MESSAGE_HASH_SIZE))
            SR_SECP256K1_SIGNATURE_SIZE) m4 in
  if negb (ret_code r5 =? TEE_SUCCESS) then free_sign true (ret_code r5) result m5 else
  let sig := out_bytes 64 r5 in
  let result' :=
    mk_signature_result (memcpy_at (signature result) 0 sig)
      (Z.of_nat (length sig)) 0 (sig_reserved result) in
  free_sign true (ret_code r5) result' m5.

(** *** Commands *)

Definition valid_key_id_len (key_id_len : Z) : bool :=
  negb ((key_id_len =? 0) || (key_id_len >=? SR_MAX_KEY_ID_SIZE)).

(** The contents of [key_entry->key_id] after the [strncpy] and the
    terminating assignment of [cmd_generate_key]. *)
Definition stored_key_id (kid : list byte) (key_id_len : Z) : list byte :=
  <[Z.to_nat key_id_len := NUL]> (strncpy (zeros 64) kid (Z.to_nat key_id_len)).

Definition cmd_generate_key (param_types : Z) (params : list TEE_Param) (m : machine)
  : TEE_Result * output * machine :=
  let exp_param_types :=
    TEE_PARAM_TYPES TEE_PARAM_TYPE_MEMREF_INPUT TEE_PARAM_TYPE_VALUE_INPUT
                    TEE_PARAM_TYPE_MEMREF_OUTPUT TEE_PARAM_TYPE_NONE in
  if negb (param_types =? exp_param_types) then (TEE_ERROR_BAD_PARAMETERS, OutNone, m) else
  if g_key_count (ta m) >=? SR_MAX_KEYS then (TEE_ERROR_STORAGE_NO_SPACE, OutNone, m) else
  let kid := memref_buffer (param params 0) in
  let key_id_len := memref_size (param params 0) in
  let ktype := value_a (param params 1) in
  if negb (valid_key_id_len key_id_len) then (TEE_ERROR_BAD_PARAMETERS, OutNone, m) else
  if ktype >=? SR_KEY_TYPE_MAX then (TEE_ERROR_BAD_PARAMETERS, OutNone, m) else
  if find_key_index kid (ta m) >=? 0 then (SR_ERROR_KEY_ALREADY_EXISTS, OutNone, m) else
  let slot := Z.to_nat (g_key_count (ta m)) in
  let e1 := set_key_type (set_key_id zero_key_entry (stored_key_id kid key_id_len)) ktype in
  let '(now, m1) := get_current_time m in
  let e2 :=
    set_info e1
      (mk_key_info (strncpy (info_key_id (info e1)) (key_id e1)
                      (Z.to_nat (SR_MAX_KEY_ID_SIZE - 1)))
         ktype SR_KEY_STATUS_ACTIVE now now 0 (ethereum_address (info e1))) in
  let '(res, e3, m2) :=
    if ktype =? SR_KEY_TYPE_ECDSA_SECP256K1 then generate_secp256k1_keypair e2 m1
    else if ktype =? SR_KEY_TYPE_ED25519 then (TEE_ERROR_NOT_IMPLEMENTED, e2, m1)
    else (TEE_ERROR_NOT_SUPPORTED, e2, m1) in
  (* the entry was built in place, in g_key_storage[g_key_count] *)
  let m3 := with_ta m2 (set_g_key_storage (ta m2) (<[slot := e3]> (g_key_storage (ta m2)))) in
  if negb (res =? TEE_SUCCESS) then (res, OutNone, m3) else
  if memref_size (param params 2) <? SR_ETHEREUM_ADDRESS_SIZE
  then (TEE_ERROR_SHORT_BUFFER, OutNone, m3) else
  let s3 := ta m3 in
  let s4 :=
    mk_ta_state (<[slot := info e3]> (g_keys s3)) (wrap32 (g_key_count s3 + 1))
      (g_session_count s3) (wrap32 (g_operation_count s3 + 1)) (g_start_time s3)
      (g_key_storage s3) in
  (TEE_SUCCESS, OutAddress (ethereum_address (info e3)), with_ta m3 s4).

Definition cmd_sign_message (param_types : Z) (params : list TEE_Param) (m : machine)
  : TEE_Result * output * machine :=
  let exp_param_types :=
    TEE_PARAM_TYPES TEE_PARAM_TYPE_MEMREF_INPUT TEE_PARAM_TYPE_MEMREF_INPUT
                    TEE_PARAM_TYPE_MEMREF_OUTPUT TEE_PARAM_TYPE_NONE in
  if negb (param_types =? exp_param_types) then (TEE_ERROR_BAD_PARAMETERS, OutNone, m) else
  let kid := memref_buffer (param params 0) in
  let key_id_len := memref_size (param params 0) in
  let message_hash := memref_buffer (param params 1) in
  let hash_len := memref_size (param params 1) in
  if negb (valid_key_id_len key_id_len) then (TEE_ERROR_BAD_PARAMETERS, OutNone, m) else
  if negb (hash_len =? SR_MESSAGE_HASH_SIZE) then (TEE_ERROR_BAD_PARAMETERS, OutNone, m) else
  if memref_size (param params 2) <? sizeof_sr_signature_result_t
  then (TEE_ERROR_SHORT_BUFFER, OutNone, m) else
  let key_index := find_key_index kid (ta m) in
  if key_index <? 0 then (SR_ERROR_KEY_NOT_FOUND, OutNone, m) else
  let key_entry := entry_at (ta m) key_index in
  if negb (status (info key_entry) =? SR_KEY_STATUS_ACTIVE)
  then (TEE_ERROR_ACCESS_DENIED, OutNone, m) else
  let result := zero_signature_result in
  let '(res, result1, m1) :=
    if key_type key_entry =? SR_KEY_TYPE_ECDSA_SECP256K1
    then sign_message_ecdsa key_entry message_hash result m
    else if key_type key_entry =? SR_KEY_TYPE_ED25519
    then (TEE_ERROR_NOT_IMPLEMENTED, result, m)
    else (TEE_ERROR_NOT_SUPPORTED, result, m) in
  if res =? TEE_SUCCESS then
    let '(now, m2) := get_current_time m1 in
    let info' := set_usage (info key_entry) now (wrap32 (usage_count (info key_entry) + 1)) in
    let s2 := ta m2 in
    let s3 :=
      mk_ta_state (<[Z.to_nat key_index := info']> (g_keys s2)) (g_key_count s2)
        (g_session_count s2) (wrap32 (g_operation_count s2 + 1)) (g_start_time s2)
        (<[Z.to_nat key_index := set_info key_entry info']> (g_key_storage s2)) in
    (res, OutSignature result1, with_ta m2 s3)
  else (res, OutSignature result1, m1).

Definition cmd_get_public_key (param_types : Z) (params : list TEE_Param) (m : machine)
  : TEE_Result * output * machine :=
  let exp_param_types :=
    TEE_PARAM_TYPES TEE_PARAM_TYPE_MEMREF_INPUT TEE_PARAM_TYPE_MEMREF_OUTPUT
                    TEE_PARAM_TYPE_NONE TEE_PARAM_TYPE_NONE in
  if negb (param_types =? exp_param_types) then (TEE_ERROR_BAD_PARAMETERS, OutNone, m) else
  let kid := memref_buffer (param params 0) in
  let key_id_len := memref_size (param params 0) in
  if negb (valid_key_id_len key_id_len) then (TEE_ERROR_BAD_PARAMETERS, OutNone, m) else
  if memref_size (param params 1) <? sizeof_sr_public_key_result_t
  then (TEE_ERROR_SHORT_BUFFER, OutNone, m) else
  let key_index := find_key_index kid (ta m) in
  if key_index <? 0 then (SR_ERROR_KEY_NOT_FOUND, OutNone, m) else
  let key_entry := entry_at (ta m) key_index in
  let result :=
    mk_public_key_result
      (memcpy_at (pk_public_key zero_public_key_result) 0
         (mem_read (public_key key_entry) (Z.to_nat (public_key_len key_entry))))
      (public_key_len key_entry)
      (mem_read (ethereum_address (info key_entry)) (Z.to_nat SR_ETHEREUM_ADDRESS_SIZE))
      (pk_reserved zero_public_key_result) in
  (TEE_SUCCESS, OutPublicKey result,
   with_ta m (set_g_operation_count (ta m) (wrap32 (g_operation_count (ta m) + 1)))).

Definition cmd_list_keys (param_types : Z) (params : list TEE_Param) (m : machine)
  : TEE_Result * output * machine :=
  let exp_param_types :=
    TEE_PARAM_TYPES TEE_PARAM_TYPE_MEMREF_OUTPUT TEE_PARAM_TYPE_NONE
                    TEE_PARAM_TYPE_NONE TEE_PARAM_TYPE_NONE in
  if negb (param_types =? exp_param_types) then (TEE_ERROR_BAD_PARAMETERS, OutNone, m) else
  if memref_size (param params 0) <? sizeof_sr_key_list_result_t
  then (TEE_ERROR_SHORT_BUFFER, OutNone, m) else
  let n := Z.to_nat (g_key_count (ta m)) in
  let result :=
    mk_key_list_result (g_key_count (ta m))
      (take n (g_keys (ta m)) ++ drop n (replicate (Z.to_nat SR_MAX_KEYS) zero_key_info)) in
  (TEE_SUCCESS, OutKeyList result,
   with_ta m (set_g_operation_count (ta m) (wrap32 (g_operation_count (ta m) + 1)))).

Definition cmd_get_version (param_types : Z) (params : list TEE_Param) (m : machine)
  : TEE_Result * output * machine :=
  let exp_param_types :=
    TEE_PARAM_TYPES TEE_PARAM_TYPE_MEMREF_OUTPUT TEE_PARAM_TYPE_NONE
                    TEE_PARAM_TYPE_NONE TEE_PARAM_TYPE_NONE in
  if negb (param_types =? exp_param_types) then (TEE_ERROR_BAD_PARAMETERS, OutNone, m) else
  if memref_size (param params 0) <? sizeof_sr_version_info_t
  then (TEE_ERROR_SHORT_BUFFER, OutNone, m) else
  let result :=
    mk_version_info 1 0 0
      (strncpy (zeros 64) (String.list_byte_of_string "SuperRelay TA v1.0.0"%string) 63) in
  (TEE_SUCCESS, OutVersion result, m).

Definition cmd_health_check (param_types : Z) (params : list TEE_Param) (m : machine)
  : TEE_Result * output * machine :=
  let exp_param_types :=
    TEE_PARAM_TYPES TEE_PARAM_TYPE_MEMREF_OUTPUT TEE_PARAM_TYPE_NONE
                    TEE_PARAM_TYPE_NONE TEE_PARAM_TYPE_NONE in
  if negb (param_types =? exp_param_types) then (TEE_ERROR_BAD_PARAMETERS, OutNone, m) else
  if memref_size (param params 0) <? sizeof_sr_health_result_t
  then (TEE_ERROR_SHORT_BUFFER, OutNone, m) else
  let '(now, m1) := get_current_time m in
  let result :=
    mk_health_result SR_SUCCESS (g_session_count (ta m)) (g_operation_count (ta m))
      (wrap32 (g_key_count (ta m) * sizeof_sr_key_entry_t))
      (wrap64 (now - g_start_time (ta m))) in
  (TEE_SUCCESS, OutHealth result, m1).

(** *** Entry points *)

Definition TA_CreateEntryPoint (m : machine) : TEE_Result * machine :=
  let '(now, m1) := get_current_time m in
  (TEE_SUCCESS,
   with_ta m1
     (mk_ta_state (replicate 16 zero_key_info) 0 0 0 now (replicate 16 zero_key_entry))).

Definition TA_DestroyEntryPoint (m : machine) : machine :=
  with_ta m
    (set_g_keys (set_g_key_storage (ta m) (replicate 16 zero_key_entry))
       (replicate 16 zero_key_info)).

Definition TA_OpenSessionEntryPoint (m : machine) : TEE_Result * machine :=
  (TEE_SUCCESS,
   with_ta m (set_g_session_count (ta m) (wrap32 (g_session_count (ta m) + 1)))).

Definition TA_CloseSessionEntryPoint (m : machine) : machine :=
  if g_session_count (ta m) >? 0
  then with_ta m (set_g_session_count (ta m) (g_session_count (ta m) - 1))
  else m.

Definition TA_InvokeCommandEntryPoint (cmd_id param_types : Z)
    (params : list TEE_Param) (m : machine) : TEE_Result * output * machine :=
  if cmd_id =? TA_SUPER_RELAY_CMD_GENERATE_KEY then cmd_generate_key param_types params m
  else if cmd_id =? TA_SUPER_RELAY_CMD_SIGN_MESSAGE then cmd_sign_message param_types params m
  else if cmd_id =? TA_SUPER_RELAY_CMD_GET_PUBLIC_KEY
  then cmd_get_public_key param_types params m
  else if cmd_id =? TA_SUPER_RELAY_CMD_LIST_KEYS then cmd_list_keys param_types params m
  else if cmd_id =? TA_SUPER_RELAY_CMD_GET_VERSION then cmd_get_version param_types params m
  else if cmd_id =? TA_SUPER_RELAY_CMD_HEALTH_CHECK then cmd_health_check param_types params m
  else if (cmd_id =? TA_SUPER_RELAY_CMD_IMPORT_KEY) || (cmd_id =? TA_SUPER_RELAY_CMD_DELETE_KEY)
  then (TEE_ERROR_NOT_IMPLEMENTED, OutNone, m)
  else (TEE_ERROR_BAD_PARAMETERS, OutNone, m).

(** *** Runs

    The framework serialises the entry points; a run is a sequence of
    them, started after [TA_CreateEntryPoint]. *)

Definition step (ev : event) (m : machine) : TEE_Result * output * machine :=
  match ev with
  | OpenSession =>
      let '(res, m1) := TA_OpenSessionEntryPoint m in (res, OutNone, m1)
  | CloseSession => (TEE_SUCCESS, OutNone, TA_CloseSessionEntryPoint m)
  | InvokeCommand cmd_id param_types params =>
      TA_InvokeCommandEntryPoint cmd_id param_types params m
  end.

Fixpoint run (evs : list event) (m : machine) : machine :=
  match evs with
  | [] => m
  | ev :: rest => run rest (step ev m).2
  end.

Definition boot (m : machine) : machine := (TA_CreateEntryPoint m).2.

End TA.

(** ** SHA-256 (FIPS 180-4)

    The digest the trusted application asks the provider for. It is not
    part of the repository; it is written out here so that the model can be
    run with a provider that answers as a real one does. *)

Module SHA256.

Definition add32 (a b : Z) : Z := (a + b) mod 2 ^ 32.
Definition rotr (n x : Z) : Z :=
  Z.lor (Z.shiftr x n) (Z.shiftl x (32 - n) mod 2 ^ 32).
Definition not32 (x : Z) : Z := Z.lxor x (2 ^ 32 - 1).

Definition Ch (x y z : Z) : Z := Z.lxor (Z.land x y) (Z.land (not32 x) z).
Definition Maj (x y z : Z) : Z :=
  Z.lxor (Z.lxor (Z.land x y) (Z.land x z)) (Z.land y z).
Definition Sigma0 (x : Z) : Z := Z.lxor (Z.lxor (rotr 2 x) (rotr 13 x)) (rotr 22 x).
Definition Sigma1 (x : Z) : Z := Z.lxor (Z.lxor (rotr 6 x) (rotr 11 x)) (rotr 25 x).
Definition sigma0 (x : Z) : Z := Z.lxor (Z.lxor (rotr 7 x) (rotr 18 x)) (Z.shiftr x 3).
Definition sigma1 (x : Z) : Z := Z.lxor (Z.lxor (rotr 17 x) (rotr 19 x)) (Z.shiftr x 10).

(** The round constants are the first 32 bits of the fractional parts of
    the cube roots of the first 64 primes, the initial hash value those of
    the square roots of the first 8. *)
Definition primes : list Z :=
  [2; 3; 5; 7; 11; 13; 17; 19; 23; 29; 31; 37; 41; 43; 47; 53; 59; 61; 67; 71;
   73; 79; 83; 89; 97; 101; 103; 107; 109; 113; 127; 131; 137; 139; 149; 151;
   157; 163; 167; 173; 179; 181; 191; 193; 197; 199; 211; 223; 227; 229; 233;
   239; 241; 251; 257; 263; 269; 271; 277; 281; 283; 293; 307; 311].

Definition cube_root (n : Z) : Z :=
  fold_left (fun r b => let c := r + 2 ^ b in if c * c * c <=? n then c else r)
    (Z.of_nat <$> reverse (seq 0 40)) 0.

Definition K : list Z := (fun p => cube_root (p * 2 ^ 96) mod 2 ^ 32) <$> primes.
Definition H0 : list Z := (fun p => Z.sqrt (p * 2 ^ 64) mod 2 ^ 32) <$> take 8 primes.

Definition byte_of_Z (z : Z) : byte :=
  default Byte.x00 (Byte.of_N (Z.to_N (z mod 256))).
Definition Z_of_byte (b : byte) : Z := Z.of_N (Byte.to_N b).

(** Big-endian words. *)
Definition word_of_bytes (bs : list Z) : Z :=
  fold_left (fun acc b => acc * 256 + b) bs 0.
Definition bytes_of_word (n : nat) (w : Z) : list Z :=
  (fun i => Z.shiftr w (8 * Z.of_nat (n - 1 - i)) mod 256) <$> seq 0 n.

Fixpoint chunks (n : nat) (fuel : nat) (l : list Z) : list (list Z) :=
  match fuel with
  | O => []
  | S fuel' =>
      match l with
      | [] => []
      | _ => take n l :: chunks n fuel' (drop n l)
      end
  end.

(** The message, a 1 bit, zeros up to 56 modulo 64, and the bit length. *)
Definition pad (msg : list Z) : list Z :=
  let len := Z.of_nat (length msg) in
  let k := Z.to_nat ((55 - len) mod 64) in
  msg ++ [0x80] ++ replicate k 0 ++ bytes_of_word 8 (8 * len).

(** The message schedule, newest word first. *)
Fixpoint schedule (n : nat) (w : list Z) : list Z :=
  match n with
  | O => w
  | S n' =>
      let x := add32 (add32 (sigma1 (nth 1 w 0)) (nth 6 w 0))
                     (add32 (sigma0 (nth 14 w 0)) (nth 15 w 0)) in
      schedule n' (x :: w)
  end.

Definition round (s : list Z) (kw : Z * Z) : list Z :=
  match s with
  | [a; b; c; d; e; f; g; h] =>
      let t1 := add32 (add32 (add32 h (Sigma1 e)) (Ch e f g)) (add32 kw.1 kw.2) in
      let t2 := add32 (Sigma0 a) (Maj a b c) in
      [add32 t1 t2; a; b; c; add32 d t1; e; f; g]
  | _ => s
  end.

Definition compress (h : list Z) (block : list Z) : list Z :=
  let w16 := word_of_bytes <$> chunks 4 16 block in
  let w := reverse (schedule 48 (reverse w16)) in
  zip_with add32 h (fold_left round (zip K w) h).

Definition digest (msg : list byte) : list byte :=
  let padded := pad (Z_of_byte <$> msg) in
  let h := fold_left compress (chunks 64 (length padded) padded) H0 in
  byte_of_Z <$> (h ≫= bytes_of_word 4).

End SHA256.

(** ** A small provider to run the model on

    The world counts the calls; key material and the clock are derived from
    the counter, every call succeeds, and the digest is SHA-256. *)

Definition byte_of_nat (n : nat) : byte := default NUL (Byte.of_nat (n mod 256)).

Definition toy_prim (c : prim_call) (w : nat) : prim_ret * nat :=
  match c with
  | TEE_GetSystemTime => (mk_ret TEE_SUCCESS [] (Z.of_nat w), S w)
  | TEE_GetObjectBufferAttribute _ _ =>
      (mk_ret TEE_SUCCESS (replicate 32 (byte_of_nat (S w))) 0, S w)
  | TEE_DigestDoFinal _ data _ => (mk_ret TEE_SUCCESS (SHA256.digest data) 0, S w)
  | TEE_AsymmetricSignDigest d _ => (mk_ret TEE_SUCCESS (d ++ d) 0, S w)
  | _ => (mk_ret TEE_SUCCESS [] 0, S w)
  end.

(** The same provider with a digest operation that reports an error. *)
Definition toy_prim_no_digest (c : prim_call) (w : nat) : prim_ret * nat :=
  match c with
  | TEE_DigestDoFinal _ _ _ => (mk_ret TEE_ERROR_NOT_SUPPORTED [] 0, S w)
  | _ => toy_prim c w
  end.

Definition toy_machine : machine nat := mk_machine zero_ta_state 0%nat [].

Definition bytes_of (s : string) : list byte := String.list_byte_of_string s.

Definition generate_key_types : Z :=
  TEE_PARAM_TYPES TEE_PARAM_TYPE_MEMREF_INPUT TEE_PARAM_TYPE_VALUE_INPUT
                  TEE_PARAM_TYPE_MEMREF_OUTPUT TEE_PARAM_TYPE_NONE.
Definition sign_message_types : Z :=
  TEE_PARAM_TYPES TEE_PARAM_TYPE_MEMREF_INPUT TEE_PARAM_TYPE_MEMREF_INPUT
                  TEE_PARAM_TYPE_MEMREF_OUTPUT TEE_PARAM_TYPE_NONE.
Definition get_public_key_types : Z :=
  TEE_PARAM_TYPES TEE_PARAM_TYPE_MEMREF_INPUT TEE_PARAM_TYPE_MEMREF_OUTPUT
                  TEE_PARAM_TYPE_NONE TEE_PARAM_TYPE_NONE.
Definition output_only_types : Z :=
  TEE_PARAM_TYPES TEE_PARAM_TYPE_MEMREF_OUTPUT TEE_PARAM_TYPE_NONE
                  TEE_PARAM_TYPE_NONE TEE_PARAM_TYPE_NONE.

(** Requests built as a client would: the identifier as a C string, its
    length as the declared size, and output buffers of the exact size. *)
Definition generate_request (id : string) (ktype : Z) : event :=
  InvokeCommand TA_SUPER_RELAY_CMD_GENERATE_KEY generate_key_types
    [Memref (bytes_of id) (Z.of_nat (length (bytes_of id))); Value ktype 0;
     Memref [] SR_ETHEREUM_ADDRESS_SIZE].

Definition sign_request (id : string) (hash : list byte) : event :=
  InvokeCommand TA_SUPER_RELAY_CMD_SIGN_MESSAGE sign_message_types
    [Memref (bytes_of id) (Z.of_nat (length (bytes_of id)));
     Memref hash (Z.of_nat (length hash));
     Memref [] sizeof_sr_signature_result_t].

Definition get_public_key_request (id : string) : event :=
  InvokeCommand TA_SUPER_RELAY_CMD_GET_PUBLIC_KEY get_public_key_types
    [Memref (bytes_of id) (Z.of_nat (length (bytes_of id)));
     Memref [] sizeof_sr_public_key_result_t].

Definition list_keys_request : event :=
  InvokeCommand TA_SUPER_RELAY_CMD_LIST_KEYS output_only_types
    [Memref [] sizeof_sr_key_list_result_t].

Definition health_check_request : event :=
  InvokeCommand TA_SUPER_RELAY_CMD_HEALTH_CHECK output_only_types
    [Memref [] sizeof_sr_health_result_t].

(** ** Observations on states and runs *)

(** The live records: the first [g_key_count] entries of the table. *)
Definition live_entries (s : ta_state) : list sr_key_entry_t :=
  take (Z.to_nat (g_key_count s)) (g_key_storage s).

(** The public metadata kept for the live records. *)
Definition live_infos (s : ta_state) : list sr_key_info_t :=
  take (Z.to_nat (g_key_count s)) (g_keys s).

(** A record without its usage statistics: what creation fixes. *)
Definition frozen (e : sr_key_entry_t) : sr_key_entry_t :=
  set_info e (set_usage (info e) 0 0).

Definition frozen_store (s : ta_state) : list sr_key_entry_t :=
  frozen <$> live_entries s.

(** A state with the secret material of every table entry blanked: two
    states with the same [public_view] differ in private keys only. *)
Definition erase_secret (e : sr_key_entry_t) : sr_key_entry_t :=
  set_private_key e [] 0.

Definition public_view (s : ta_state) : ta_state :=
  set_g_key_storage s (erase_secret <$> g_key_storage s).

(** The readings of the system clock found in a log, oldest first. *)
Definition clock_reading (cr : prim_call * prim_ret) : option Z :=
  match cr.1 with
  | TEE_GetSystemTime => Some (wrap32 (ret_time cr.2))
  | _ => None
  end.

Definition clock_readings (tr : event_log) : list Z := omap clock_reading tr.

(** The session counter as the entry points maintain it. *)
Definition session_step (n : Z) (ev : event) : Z :=
  match ev with
  | OpenSession => wrap32 (n + 1)
  | CloseSession => if n >? 0 then n - 1 else n
  | InvokeCommand _ _ _ => n
  end.

Definition is_open (ev : event) : bool :=
  match ev with OpenSession => true | _ => false end.
Definition is_close (ev : event) : bool :=
  match ev with CloseSession => true | _ => false end.

Definition count_opens (evs : list event) : Z :=
  Z.of_nat (length (List.filter is_open evs)).
Definition count_closes (evs : list event) : Z :=
  Z.of_nat (length (List.filter is_close evs)).

(** No prefix of the sequence closes more sessions than it has opened. *)
Fixpoint balanced_from (n : Z) (evs : list event) : Prop :=
  match evs with
  | [] => True
  | OpenSession :: rest => balanced_from (n + 1) rest
  | CloseSession :: rest => 0 < n /\ balanced_from (n - 1) rest
  | InvokeCommand _ _ _ :: rest => balanced_from n rest
  end.

(** A key identifier passed as a C string: no NUL among the declared
    bytes, and a terminator right after them. *)
Definition c_string_id (p : TEE_Param) : Prop :=
  length (c_str (memref_buffer p) (Z.to_nat SR_MAX_KEY_ID_SIZE))
    = Z.to_nat (memref_size p).

(** The declared bytes of a memory reference. *)
Definition declared_bytes (p : TEE_Param) : list byte :=
  mem_read (memref_buffer p) (Z.to_nat (memref_size p)).

(** Two states with the same live records: the keys' metadata and the
    count are equal, and the table differs at most in the free slot that
    a failed [cmd_generate_key] has scribbled on. *)
Definition untouched (s s' : ta_state) : Prop :=
  g_keys s' = g_keys s /\
  g_key_count s' = g_key_count s /\
  (g_key_storage s' = g_key_storage s \/
   exists e, g_key_storage s' = <[Z.to_nat (g_key_count s) := e]> (g_key_storage s)).

(** The provider calls that [generate_secp256k1_keypair] needs to succeed. *)
Definition keygen_call (c : prim_call) : bool :=
  match c with
  | TEE_AllocateTransientObject _ _ | TEE_GenerateKey _
  | TEE_GetObjectBufferAttribute _ _ => true
  | _ => false
  end.

(** A key identifier whose buffer holds a NUL no later than right after
    its declared bytes. *)
Definition terminated_id (p : TEE_Param) : Prop :=
  (length (c_str (memref_buffer p) (Z.to_nat SR_MAX_KEY_ID_SIZE))
   <= Z.to_nat (memref_size p))%nat.

(** The key identifier a request names: its declared bytes, cut at their
    first NUL. *)
Definition named_id (p : TEE_Param) : list byte :=
  c_str (declared_bytes p) (Z.to_nat (memref_size p)).

(** A [generate_key] request for the supported key type, with a
    terminated key_id of valid length and room for the address. *)
Definition generate_ok_request (ps : list TEE_Param) : Prop :=
  terminated_id (param ps 0)
  /\ valid_key_id_len (memref_size (param ps 0)) = true
  /\ value_a (param ps 1) = SR_KEY_TYPE_ECDSA_SECP256K1
  /\ SR_ETHEREUM_ADDRESS_SIZE <= memref_size (param ps 2).

(** The key_id that [cmd_generate_key] stores for a request. *)
Definition stored_id_of (ps : list TEE_Param) : list byte :=
  stored_key_id (memref_buffer (param ps 0)) (memref_size (param ps 0)).

(** A record matches a key identifier when [find_key_index]'s comparison
    says so. *)
Definition matches (kid : list byte) (e : sr_key_entry_t) : Prop :=
  strncmp (key_id e) kid (Z.to_nat SR_MAX_KEY_ID_SIZE) = 0.

Section Observations.

Context {W : Type} (prim : prim_call -> W -> prim_ret * W).

(** A provider whose key generation never fails. *)
Definition keygen_succeeds : Prop :=
  forall c w, keygen_call c = true -> ret_code (prim c w).1 = TEE_SUCCESS.

(** The result codes of the steps of a run. *)
Fixpoint run_codes (evs : list event) (m : machine W) : list TEE_Result :=
  match evs with
  | [] => []
  | ev :: rest => (step prim ev m).1.1 :: run_codes rest (step prim ev m).2
  end.

(** A provider none of whose operations ever fails. *)
Definition always_succeeds : Prop :=
  forall c w, ret_code (prim c w).1 = TEE_SUCCESS.

(** The machines a run goes through, the starting one included. *)
Fixpoint states (evs : list event) (m : machine W) : list (machine W) :=
  m :: match evs with
       | [] => []
       | ev :: rest => states rest (step prim ev m).2
       end.

(** Whether an event is a [sign_message] command that succeeds on the
    record of index [k]. *)
Definition signs_key (k : Z) (ev : event) (m : machine W) : bool :=
  match ev with
  | InvokeCommand cmd_id _ params =>
      (cmd_id =? TA_SUPER_RELAY_CMD_SIGN_MESSAGE)
      && ((step prim ev m).1.1 =? TEE_SUCCESS)
      && (find_key_index (memref_buffer (param params 0)) (ta m) =? k)
  | _ => false
  end.

(** The number of successful signatures with the record of index [k]
    along a run. *)
Fixpoint successful_signs (k : Z) (evs : list event) (m : machine W) : Z :=
  match evs with
  | [] => 0
  | ev :: rest =>
      (if signs_key k ev m then 1 else 0)
      + successful_signs k rest (step prim ev m).2
  end.

(** The identifiers stored by the successful [generate_key] commands of
    a run, in the order of the commands. *)
Fixpoint created_ids (evs : list event) (m : machine W) : list (list byte) :=
  match evs with
  | [] => []
  | ev :: rest =>
      match ev with
      | InvokeCommand cmd_id _ params =>
          if (cmd_id =? TA_SUPER_RELAY_CMD_GENERATE_KEY)
             && ((step prim ev m).1.1 =? TEE_SUCCESS)
          then [stored_key_id (memref_buffer (param params 0))
                  (memref_size (param params 0))]
          else []
      | _ => []
      end ++ created_ids rest (step prim ev m).2
  end.

(** Every step either creates a record, signs with one, or leaves the
    live records alone. *)
Inductive step_kind (m : machine W) (ev : event) : Prop :=
  | sk_generated pt ps :
      ev = InvokeCommand TA_SUPER_RELAY_CMD_GENERATE_KEY pt ps ->
      (step prim ev m).1.1 = TEE_SUCCESS -> step_kind m ev
  | sk_signed pt ps :
      ev = InvokeCommand TA_SUPER_RELAY_CMD_SIGN_MESSAGE pt ps ->
      (step prim ev m).1.1 = TEE_SUCCESS -> step_kind m ev
  | sk_other :
      untouched (ta m) (ta (step prim ev m).2) ->
      (forall pt ps, ev = InvokeCommand TA_SUPER_RELAY_CMD_GENERATE_KEY pt ps ->
                     (step prim ev m).1.1 <> TEE_SUCCESS) ->
      (forall pt ps, ev = InvokeCommand TA_SUPER_RELAY_CMD_SIGN_MESSAGE pt ps ->
                     (step prim ev m).1.1 <> TEE_SUCCESS) ->
      step_kind m ev.

End Observations.

(** The record [cmd_generate_key] builds from the answers of the
    provider, and the globals after it has been inserted. *)
Definition generated_entry (kid : list byte) (key_id_len now : Z)
    (r_priv r_x r_y r_digest : prim_ret) : sr_key_entry_t :=
  let id := stored_key_id kid key_id_len in
  mk_key_entry id SR_KEY_TYPE_ECDSA_SECP256K1
    (memcpy_at (zeros 32) 0 (out_bytes 32 r_priv))
    (memcpy_at (memcpy_at (zeros 64) 0 (out_bytes 32 r_x)) 32 (out_bytes 32 r_y))
    (Z.of_nat (length (out_bytes 32 r_priv)))
    (wrap32 (Z.of_nat (length (out_bytes 32 r_x)) + Z.of_nat (length (out_bytes 32 r_y))))
    (mk_key_info (strncpy (zeros 64) id 63) SR_KEY_TYPE_ECDSA_SECP256K1
       SR_KEY_STATUS_ACTIVE now now 0
       (if ret_code r_digest =? TEE_SUCCESS
        then take 20 (drop 12 (memcpy_at (zeros 32) 0 (out_bytes 32 r_digest)))
        else zeros 20)).

Definition generated_state (s : ta_state) (e : sr_key_entry_t) : ta_state :=
  let slot := Z.to_nat (g_key_count s) in
  mk_ta_state (<[slot := info e]> (g_keys s)) (wrap32 (g_key_count s + 1))
    (g_session_count s) (wrap32 (g_operation_count s + 1)) (g_start_time s)
    (<[slot := e]> (g_key_storage s)).

(** The globals after a successful signature with the record of index
    [k] at time [now]. *)
Definition signed_state (s : ta_state) (k now : Z) : ta_state :=
  let e := entry_at s k in
  let info' := set_usage (info e) now (wrap32 (usage_count (info e) + 1)) in
  mk_ta_state (<[Z.to_nat k := info']> (g_keys s)) (g_key_count s)
    (g_session_count s) (wrap32 (g_operation_count s + 1)) (g_start_time s)
    (<[Z.to_nat k := set_info e info']> (g_key_storage s)).

(** ** Invariants of the key store *)

(** What holds of every live record, given the log of provider calls. *)
Record entry_ok (tr : event_log) (e : sr_key_entry_t) : Prop := {
  ok_type : key_type e = SR_KEY_TYPE_ECDSA_SECP256K1;
  ok_status : status (info e) = SR_KEY_STATUS_ACTIVE;
  ok_info_id : info_key_id (info e) = key_id e;
  ok_info_type : info_key_type (info e) = key_type e;
  ok_usage : 0 <= usage_count (info e) < 2 ^ 32;
  ok_last_used : last_used_time (info e) ∈ clock_readings tr
}.

Record inv {W} (m : machine W) : Prop := {
  inv_count : 0 <= g_key_count (ta m) <= SR_MAX_KEYS;
  inv_keys_len : length (g_keys (ta m)) = 16%nat;
  inv_storage_len : length (g_key_storage (ta m)) = 16%nat;
  inv_lockstep : live_infos (ta m) = info <$> live_entries (ta m);
  inv_live : Forall (entry_ok (trace m)) (live_entries (ta m))
}.

(** The usage statistics of the record of index [k]. *)
Definition usage_of {W} (k : Z) (m : machine W) : Z :=
  usage_count (info (entry_at (ta m) k)).
Definition last_used_of {W} (k : Z) (m : machine W) : Z :=
  last_used_time (info (entry_at (ta m) k)).


(** ** Machines to run the model on *)

Definition toy_key_names : list string :=
  ["key00"; "key01"; "key02"; "key03"; "key04"; "key05"; "key06"; "key07";
   "key08"; "key09"; "key10"; "key11"; "key12"; "key13"; "key14"; "key15"].

(** The machine after sixteen keys have been generated. *)
Definition toy_full_machine : machine nat :=
  run toy_prim ((fun id => generate_request id 0) <$> toy_key_names)
    (boot toy_prim toy_machine).

(** A machine whose only record has been marked inactive. *)
Definition toy_inactive_machine : machine nat :=
  let m := run toy_prim [generate_request "alice" 0] (boot toy_prim toy_machine) in
  let e := entry_at (ta m) 0 in
  let i := mk_key_info (info_key_id (info e)) (info_key_type (info e))
             SR_KEY_STATUS_INACTIVE (created_time (info e)) (last_used_time (info e))
             (usage_count (info e)) (ethereum_address (info e)) in
  with_ta m
    (set_g_keys
       (set_g_key_storage (ta m) (<[0%nat := set_info e i]> (g_key_storage (ta m))))
       (<[0%nat := i]> (g_keys (ta m)))).

(** ** Further observations *)

(** The parameter shape each implemented command expects. *)
Definition expected_param_types (cmd_id : Z) : option Z :=
  if cmd_id =? TA_SUPER_RELAY_CMD_GENERATE_KEY then Some generate_key_types
  else if cmd_id =? TA_SUPER_RELAY_CMD_SIGN_MESSAGE then Some sign_message_types
  else if cmd_id =? TA_SUPER_RELAY_CMD_GET_PUBLIC_KEY then Some get_public_key_types
  else if (cmd_id =? TA_SUPER_RELAY_CMD_LIST_KEYS)
          || (cmd_id =? TA_SUPER_RELAY_CMD_GET_VERSION)
          || (cmd_id =? TA_SUPER_RELAY_CMD_HEALTH_CHECK) then Some output_only_types
  else None.

(** Two machines that differ at most in the private keys they hold (and in
    the logs kept of their provider calls). *)
Definition same_public {W} (m1 m2 : machine W) : Prop :=
  public_view (ta m1) = public_view (ta m2) /\ world m1 = world m2.

Definition is_sign (ev : event) : bool :=
  match ev with
  | InvokeCommand cmd_id _ _ => cmd_id =? TA_SUPER_RELAY_CMD_SIGN_MESSAGE
  | _ => false
  end.

Section Results.

Context {W : Type} (prim : prim_call -> W -> prim_ret * W).

(** What the caller sees of a run: the result code and the output of
    each step. *)
Fixpoint run_results (evs : list event) (m : machine W) : list (TEE_Result * output) :=
  match evs with
  | [] => []
  | ev :: rest => (step prim ev m).1 :: run_results rest (step prim ev m).2
  end.

End Results.

Section Accounting.

Context {W : Type} (prim : prim_call -> W -> prim_ret * W).

(** Whether a step is one that [g_operation_count] counts: a
    [generate_key], [sign_message], [get_public_key] or [list_keys] command
    that succeeds. *)
Definition counted_operation (ev : event) (m : machine W) : bool :=
  match ev with
  | InvokeCommand cmd_id _ _ =>
      ((cmd_id =? TA_SUPER_RELAY_CMD_GENERATE_KEY)
       || (cmd_id =? TA_SUPER_RELAY_CMD_SIGN_MESSAGE)
       || (cmd_id =? TA_SUPER_RELAY_CMD_GET_PUBLIC_KEY)
       || (cmd_id =? TA_SUPER_RELAY_CMD_LIST_KEYS))
      && ((step prim ev m).1.1 =? TEE_SUCCESS)
  | _ => false
  end.

(** The number of counted operations along a run. *)
Fixpoint counted_operations (evs : list event) (m : machine W) : Z :=
  match evs with
  | [] => 0
  | ev :: rest =>
      (if counted_operation ev m then 1 else 0)
      + counted_operations rest (step prim ev m).2
  end.

End Accounting.

(** A run whose [generate_key] commands pass terminated key identifiers
    only. *)
Definition terminated_ids (evs : list event) : Prop :=
  Forall (fun ev =>
            match ev with
            | InvokeCommand cmd_id _ ps =>
                cmd_id = TA_SUPER_RELAY_CMD_GENERATE_KEY -> terminated_id (param ps 0)
            | _ => True
            end) evs.

(** The identifiers of the live records, read as C strings. *)
Definition live_ids (s : ta_state) : list (list byte) :=
  (fun e => c_str (key_id e) (Z.to_nat SR_MAX_KEY_ID_SIZE)) <$> live_entries s.

(** The handles a log of provider calls leaves allocated: successful
    allocations minus frees, for transient objects and for operations. *)
Definition object_delta (cr : prim_call * prim_ret) : Z :=
  match cr.1 with
  | TEE_AllocateTransientObject _ _ => if ret_code cr.2 =? TEE_SUCCESS then 1 else 0
  | TEE_FreeTransientObject => -1
  | _ => 0
  end.

Definition operation_delta (cr : prim_call * prim_ret) : Z :=
  match cr.1 with
  | TEE_AllocateOperation _ _ _ => if ret_code cr.2 =? TEE_SUCCESS then 1 else 0
  | TEE_FreeOperation => -1
  | _ => 0
  end.

Definition open_objects (tr : event_log) : Z :=
  foldr (fun cr n => object_delta cr + n) 0 tr.

Definition open_operations (tr : event_log) : Z :=
  foldr (fun cr n => operation_delta cr + n) 0 tr.

(** Two logs that leave the same handles allocated. *)
Definition balanced_with (tr tr' : event_log) : Prop :=
  open_objects tr' = open_objects tr /\ open_operations tr' = open_operations tr.

(** The sizes of the fields of a table entry, and the lengths recorded
    in it, as the declarations of the source bound them. *)
Record entry_bounds (e : sr_key_entry_t) : Prop := {
  bound_key_id : length (key_id e) = 64%nat;
  bound_terminated : (length (c_str (key_id e) 64) < 64)%nat;
  bound_private_key : length (private_key e) = 32%nat;
  bound_public_key : length (public_key e) = 64%nat;
  bound_private_key_len : 0 <= private_key_len e <= 32;
  bound_public_key_len : 0 <= public_key_len e <= 64;
  bound_info_key_id : length (info_key_id (info e)) = 64%nat;
  bound_address : length (ethereum_address (info e)) = 20%nat
}.

(** The toy provider with a signing operation that reports an error. *)
Definition toy_prim_no_sign (c : prim_call) (w : nat) : prim_ret * nat :=
  match c with
  | TEE_AsymmetricSignDigest _ _ => (mk_ret TEE_ERROR_NOT_SUPPORTED [] 0, S w)
  | _ => toy_prim c w
  end.

(** * Properties *)

Lemma byte_eqb_true (c d : byte) : Byte.eqb c d = true <-> c = d.
Proof. split; [apply Byte.byte_dec_bl | apply Byte.byte_dec_lb]. Qed.

Lemma byte_eqb_false (c d : byte) : Byte.eqb c d = false <-> c <> d.
Proof.
  rewrite <- byte_eqb_true. destruct (Byte.eqb c d); split; congruence.
Qed.

Lemma byte_to_N_inj (c d : byte) : Byte.to_N c = Byte.to_N d -> c = d.
Proof.
  intros H. pose proof (Byte.of_to_N c) as Hc. rewrite H, Byte.of_to_N in Hc.
  congruence.
Qed.

Lemma strncmp_c_str (n : nat) : forall s1 s2,
  strncmp s1 s2 n = 0 <-> c_str s1 n = c_str s2 n.
Proof.
  induction n as [|n IH]; intros s1 s2; simpl; [done|].
  destruct (Byte.eqb (byte_at s1 0) (byte_at s2 0)) eqn:E12.
  - apply byte_eqb_true in E12. rewrite <- E12.
    destruct (Byte.eqb (byte_at s1 0) NUL); [done|].
    rewrite IH. split; [congruence | by intros [= ->]].
  - apply byte_eqb_false in E12. split.
    + intros H. exfalso. apply E12, byte_to_N_inj. lia.
    + destruct (Byte.eqb (byte_at s1 0) NUL) eqn:E1,
               (Byte.eqb (byte_at s2 0) NUL) eqn:E2; try done.
      * apply byte_eqb_true in E1, E2. congruence.
      * intros [= H _]. done.
Qed.

Lemma c_str_length (n : nat) : forall s, (length (c_str s n) <= n)%nat.
Proof.
  induction n as [|n IH]; intros s; simpl; [lia|].
  destruct (Byte.eqb _ _); simpl; [lia|]. specialize (IH (tail s)). lia.
Qed.

Lemma c_str_no_NUL (n : nat) : forall s, Forall (fun c => c <> NUL) (c_str s n).
Proof.
  induction n as [|n IH]; intros s; simpl; [constructor|].
  destruct (Byte.eqb _ _) eqn:E; [constructor|].
  constructor; [by apply byte_eqb_false | apply IH].
Qed.

Lemma strncpy_bytes_length (n : nat) : forall s, length (strncpy_bytes s n) = n.
Proof.
  induction n as [|n IH]; intros s; simpl; [done|].
  destruct (Byte.eqb _ _); simpl; [by rewrite length_replicate | by rewrite IH].
Qed.

Lemma strncpy_bytes_c_str (n : nat) : forall s,
  strncpy_bytes s n = c_str s n ++ zeros (n - length (c_str s n)).
Proof.
  induction n as [|n IH]; intros s; simpl; [done|].
  destruct (Byte.eqb _ _); simpl; [done|]. by rewrite IH.
Qed.

(** Reading a NUL-free string followed by NULs gives the string back. *)
Lemma c_str_padded (c : list byte) : forall k n,
  Forall (fun b => b <> NUL) c -> (length c <= n)%nat ->
  c_str (c ++ zeros k) n = c.
Proof.
  induction c as [|b c IH]; intros k n Hc Hn; simpl in *.
  - destruct n; simpl; [done|]. unfold byte_at. by destruct k.
  - destruct n; [lia|]. inversion Hc; subst.
    change (c_str (b :: c ++ zeros k) (S n))
      with (if Byte.eqb b NUL then [] else b :: c_str (c ++ zeros k) n).
    assert (Byte.eqb b NUL = false) as -> by by apply byte_eqb_false.
    f_equal. apply IH; [done | lia].
Qed.

Lemma c_str_shorter (n : nat) : forall s k,
  (length (c_str s n) <= k)%nat -> (k <= n)%nat -> c_str s k = c_str s n.
Proof.
  induction n as [|n IH]; intros s k Hl Hk.
  - by replace k with 0%nat by lia.
  - destruct k as [|k].
    + simpl in *. destruct (Byte.eqb _ _); [done|]. simpl in Hl. lia.
    + simpl in *. destruct (Byte.eqb _ _); [done|]. simpl in Hl.
      f_equal. apply IH; lia.
Qed.

Lemma byte_at_tail (s : list byte) (i : nat) : byte_at (tail s) i = byte_at s (S i).
Proof. unfold byte_at. destruct s; [by destruct i | done]. Qed.

Lemma c_str_ext (n : nat) : forall s1 s2,
  (forall i, (i < n)%nat -> byte_at s1 i = byte_at s2 i) ->
  c_str s1 n = c_str s2 n.
Proof.
  induction n as [|n IH]; intros s1 s2 H; simpl; [done|].
  rewrite (H 0%nat) by lia. destruct (Byte.eqb _ _); [done|]. f_equal.
  apply IH. intros i Hi. rewrite !byte_at_tail. apply H. lia.
Qed.

Lemma byte_at_mem_read (s : list byte) (n i : nat) :
  (i < n)%nat -> byte_at (mem_read s n) i = byte_at s i.
Proof.
  intros Hi. unfold byte_at at 1, mem_read.
  rewrite nth_lookup, list_lookup_fmap, lookup_seq_lt by done. done.
Qed.

Lemma c_str_mem_read (n : nat) (s : list byte) : c_str (mem_read s n) n = c_str s n.
Proof. apply c_str_ext. intros i Hi. by apply byte_at_mem_read. Qed.

Lemma mem_read_length (s : list byte) (n : nat) : length (mem_read s n) = n.
Proof. unfold mem_read. by rewrite length_fmap, length_seq. Qed.

Lemma mem_read_full (s : list byte) : mem_read s (length s) = s.
Proof.
  apply list_eq. intros i. unfold mem_read. rewrite list_lookup_fmap.
  destruct (decide (i < length s)%nat) as [Hi|Hi].
  - rewrite lookup_seq_lt by done. simpl. unfold byte_at.
    rewrite nth_lookup. destruct (lookup_lt_is_Some_2 s i Hi) as [x Hx].
    by rewrite Hx.
  - rewrite lookup_seq_ge by lia. simpl. symmetry. apply lookup_ge_None. lia.
Qed.

Lemma mem_read_exact (s : list byte) (n : nat) : length s = n -> mem_read s n = s.
Proof. intros <-. apply mem_read_full. Qed.

Lemma stored_key_id_eq (kid : list byte) (len : Z) :
  len < SR_MAX_KEY_ID_SIZE ->
  stored_key_id kid len =
    c_str kid (Z.to_nat len) ++ zeros (64 - length (c_str kid (Z.to_nat len))).
Proof.
  intros Hlen. unfold stored_key_id, strncpy, memcpy_at, SR_MAX_KEY_ID_SIZE in *.
  pose proof (c_str_length (Z.to_nat len) kid) as Hc.
  rewrite take_0, app_nil_l, strncpy_bytes_length, strncpy_bytes_c_str.
  unfold zeros. rewrite drop_replicate.
  rewrite <- app_assoc, <- replicate_add.
  replace (Z.to_nat len - length (c_str kid (Z.to_nat len)) + (64 - (0 + Z.to_nat len)))%nat
    with (64 - length (c_str kid (Z.to_nat len)))%nat by lia.
  apply list_eq. intros i.
  destruct (decide (i = Z.to_nat len)) as [->|Hne].
  - rewrite list_lookup_insert_eq.
    + rewrite lookup_app_r by lia. symmetry. apply lookup_replicate_2. lia.
    + rewrite length_app, length_replicate. lia.
  - by rewrite list_lookup_insert_ne.
Qed.

Lemma stored_key_id_length (kid : list byte) (len : Z) :
  len < SR_MAX_KEY_ID_SIZE -> length (stored_key_id kid len) = 64%nat.
Proof.
  intros Hlen. rewrite stored_key_id_eq by done.
  pose proof (c_str_length (Z.to_nat len) kid). unfold SR_MAX_KEY_ID_SIZE in *.
  rewrite length_app. unfold zeros. rewrite length_replicate. lia.
Qed.

Lemma stored_key_id_c_str (kid : list byte) (len : Z) :
  len < SR_MAX_KEY_ID_SIZE ->
  c_str (stored_key_id kid len) 64 = c_str kid (Z.to_nat len).
Proof.
  intros Hlen. rewrite stored_key_id_eq by done.
  pose proof (c_str_length (Z.to_nat len) kid). unfold SR_MAX_KEY_ID_SIZE in *.
  apply c_str_padded; [apply c_str_no_NUL | lia].
Qed.
(** ** The digest is 32 bytes long *)

Example sha256_abc :
  SHA256.Z_of_byte <$> SHA256.digest (bytes_of "abc") =
  [0xba; 0x78; 0x16; 0xbf; 0x8f; 0x01; 0xcf; 0xea; 0x41; 0x41; 0x40; 0xde;
   0x5d; 0xae; 0x22; 0x23; 0xb0; 0x03; 0x61; 0xa3; 0x96; 0x17; 0x7a; 0x9c;
   0xb4; 0x10; 0xff; 0x61; 0xf2; 0x00; 0x15; 0xad].
Proof. vm_compute. reflexivity. Qed.




(** ** Buffers *)

Section Buffers.

Lemma memcpy_at_length (dst src : list byte) (off : nat) :
  (off + length src <= length dst)%nat ->
  length (memcpy_at dst off src) = length dst.
Proof.
  intros H. unfold memcpy_at. rewrite !length_app, length_take, length_drop. lia.
Qed.

Lemma memcpy_at_full (dst src : list byte) :
  length src = length dst -> memcpy_at dst 0 src = src.
Proof.
  intros H. unfold memcpy_at. rewrite take_0, app_nil_l.
  rewrite drop_ge by (cbn; lia). apply app_nil_r.
Qed.

Lemma out_bytes_length n r : (length (out_bytes n r) <= n)%nat.
Proof. unfold out_bytes. rewrite length_take. lia. Qed.

Lemma out_bytes_full n r : length (ret_bytes r) = n -> out_bytes n r = ret_bytes r.
Proof. intros H. unfold out_bytes. apply take_ge. lia. Qed.

Lemma zeros_length n : length (zeros n) = n.
Proof. apply length_replicate. Qed.

(** The two coordinates written into the zeroed [public_key] array. *)
Lemma public_key_length (x y : list byte) :
  (length x <= 32)%nat -> (length y <= 32)%nat ->
  length (memcpy_at (memcpy_at (zeros 64) 0 x) 32 y) = 64%nat.
Proof.
  intros Hx Hy. rewrite !memcpy_at_length; rewrite ?memcpy_at_length;
    rewrite ?zeros_length; lia.
Qed.

Lemma public_key_concat (x y : list byte) :
  length x = 32%nat -> length y = 32%nat ->
  memcpy_at (memcpy_at (zeros 64) 0 x) 32 y = x ++ y.
Proof.
  intros Hx Hy. unfold memcpy_at at 2.
  rewrite take_0, app_nil_l, Hx. unfold memcpy_at.
  rewrite take_app_length' by done.
  rewrite drop_ge; [by rewrite app_nil_r|].
  rewrite length_app, length_drop, zeros_length. lia.
Qed.

Lemma address_length (r : prim_ret) :
  length (take 20 (drop 12 (memcpy_at (zeros 32) 0 (out_bytes 32 r)))) = 20%nat.
Proof.
  rewrite length_take, length_drop, memcpy_at_length, zeros_length; [lia|].
  pose proof (out_bytes_length 32 r). rewrite zeros_length. lia.
Qed.

End Buffers.

Section Props.
Context {W : Type} (prim : prim_call -> W -> prim_ret * W).

Lemma call_ta c (m : machine W) : ta (call prim c m).2 = ta m.
Proof. done. Qed.

Lemma call_trace c (m : machine W) :
  trace (call prim c m).2 = trace m ++ [(c, (call prim c m).1)].
Proof. done. Qed.

Lemma generate_secp256k1_keypair_success e (m : machine W) e' m' :
  generate_secp256k1_keypair prim e m = (TEE_SUCCESS, e', m') ->
  exists r1 r2 r3 rx ry rd rf,
    trace m' = trace m ++
      [(TEE_AllocateTransientObject TEE_TYPE_ECDSA_KEYPAIR 256, r1);
       (TEE_GenerateKey 256, r2);
       (TEE_GetObjectBufferAttribute TEE_ATTR_ECC_PRIVATE_VALUE 32, r3);
       (TEE_GetObjectBufferAttribute TEE_ATTR_ECC_PUBLIC_VALUE_X 32, rx);
       (TEE_GetObjectBufferAttribute TEE_ATTR_ECC_PUBLIC_VALUE_Y 32, ry);
       (TEE_DigestDoFinal TEE_ALG_SHA256 (mem_read (public_key e') 64) 32, rd);
       (TEE_FreeTransientObject, rf)]
    /\ Forall (answered prim) (drop (length (trace m)) (trace m'))
    /\ ret_code rx = TEE_SUCCESS /\ ret_code ry = TEE_SUCCESS
    /\ ta m' = ta m
    /\ e' = mk_key_entry (key_id e) (key_type e)
              (memcpy_at (private_key e) 0 (out_bytes 32 r3))
              (memcpy_at (memcpy_at (public_key e) 0 (out_bytes 32 rx)) 32 (out_bytes 32 ry))
              (Z.of_nat (length (out_bytes 32 r3)))
              (wrap32 (Z.of_nat (length (out_bytes 32 rx)) + Z.of_nat (length (out_bytes 32 ry))))
              (set_ethereum_address (info e)
                 (if ret_code rd =? TEE_SUCCESS
                  then take 20 (drop 12 (memcpy_at (zeros 32) 0 (out_bytes 32 rd)))
                  else zeros 20)).
Proof.
  unfold generate_secp256k1_keypair, derive_ethereum_address, free_keypair, call.
  cbn [fst snd ta world trace].
  repeat lazymatch goal with
  | |- (if negb (ret_code ?r =? TEE_SUCCESS) then _ else _) = _ -> _ =>
      let R := fresh "R" in
      destruct (ret_code r =? TEE_SUCCESS) eqn:R; cbn [negb];
      [| intros [= H _ _]; rewrite H in R; discriminate R]
  end.
  set (rd := (prim (TEE_DigestDoFinal _ _ _) _).1).
  apply Z.eqb_eq in R2, R3.
  destruct (ret_code rd =? TEE_SUCCESS) eqn:Rd; cbn [negb];
    intros [= _ <- <-]; cbn [ta trace];
    eexists _, _, _, _, _, rd, _;
    (split; [rewrite <- !app_assoc; cbn [app]; reflexivity|]);
    (split; [rewrite <- !app_assoc, drop_app_length;
             repeat (constructor; [eexists; reflexivity|]); constructor|]);
    (split; [exact R2|]); (split; [exact R3|]);
    (split; [reflexivity|]); rewrite Rd; reflexivity.
Qed.

Lemma generate_secp256k1_keypair_frame e (m : machine W) :
  ta (generate_secp256k1_keypair prim e m).2 = ta m /\
  exists extra,
    trace (generate_secp256k1_keypair prim e m).2 = trace m ++ extra.
Proof.
  unfold generate_secp256k1_keypair, derive_ethereum_address, free_keypair, call.
  cbn [fst snd ta world trace].
  repeat lazymatch goal with
  | |- context [if negb (ret_code ?r =? TEE_SUCCESS) then _ else _] =>
      destruct (ret_code r =? TEE_SUCCESS); cbn [negb fst snd ta trace]
  end; (split; [reflexivity|]); rewrite <- ?app_assoc; eexists; reflexivity.
Qed.
Lemma cmd_generate_key_success pt ps (m : machine W) out m' :
  cmd_generate_key prim pt ps m = (TEE_SUCCESS, out, m') ->
  let kid := memref_buffer (param ps 0) in
  let len := memref_size (param ps 0) in
  pt = generate_key_types /\
  g_key_count (ta m) < SR_MAX_KEYS /\
  valid_key_id_len len = true /\
  value_a (param ps 1) = SR_KEY_TYPE_ECDSA_SECP256K1 /\
  find_key_index kid (ta m) < 0 /\
  SR_ETHEREUM_ADDRESS_SIZE <= memref_size (param ps 2) /\
  exists r0 r1 r2 r3 rx ry rd rf,
    let e := generated_entry kid len (wrap32 (ret_time r0)) r3 rx ry rd in
    trace m' = trace m ++
      [(TEE_GetSystemTime, r0);
       (TEE_AllocateTransientObject TEE_TYPE_ECDSA_KEYPAIR 256, r1);
       (TEE_GenerateKey 256, r2);
       (TEE_GetObjectBufferAttribute TEE_ATTR_ECC_PRIVATE_VALUE 32, r3);
       (TEE_GetObjectBufferAttribute TEE_ATTR_ECC_PUBLIC_VALUE_X 32, rx);
       (TEE_GetObjectBufferAttribute TEE_ATTR_ECC_PUBLIC_VALUE_Y 32, ry);
       (TEE_DigestDoFinal TEE_ALG_SHA256 (mem_read (public_key e) 64) 32, rd);
       (TEE_FreeTransientObject, rf)]
    /\ Forall (answered prim) (drop (length (trace m)) (trace m'))
    /\ ret_code rx = TEE_SUCCESS /\ ret_code ry = TEE_SUCCESS
    /\ ta m' = generated_state (ta m) e
    /\ out = OutAddress (ethereum_address (info e)).
Proof.
  unfold cmd_generate_key. fold generate_key_types.
  destruct (pt =? generate_key_types) eqn:Hpt; cbn [negb]; [|done].
  destruct (g_key_count (ta m) >=? SR_MAX_KEYS) eqn:Hfull; [done|].
  destruct (valid_key_id_len _) eqn:Hlen; cbn [negb]; [|done].
  destruct (value_a (param ps 1) >=? SR_KEY_TYPE_MAX) eqn:Hty; [done|].
  destruct (find_key_index _ (ta m) >=? 0) eqn:Hfind; [done|].
  unfold get_current_time.
  destruct (call prim TEE_GetSystemTime m) as [r0 m1] eqn:E0.
  destruct (value_a (param ps 1) =? SR_KEY_TYPE_ECDSA_SECP256K1) eqn:Hecdsa.
  2:{ destruct (value_a (param ps 1) =? SR_KEY_TYPE_ED25519); cbn; done. }
  match goal with |- context [generate_secp256k1_keypair prim ?e ?m] =>
    destruct (generate_secp256k1_keypair prim e m) as [[res e3] m2] eqn:G end.
  destruct (res =? TEE_SUCCESS) eqn:Hres; cbn [negb]; [|intros [= -> _ _]; done].
  apply Z.eqb_eq in Hres. subst res.
  destruct (memref_size (param ps 2) <? SR_ETHEREUM_ADDRESS_SIZE) eqn:Hout; [done|].
  intros [= <- <-].
  apply generate_secp256k1_keypair_success in G
    as (r1 & r2 & r3 & rx & ry & rd & rf & Htr & Hans & Hrx & Hry & Hta & He3).
  apply (f_equal snd) in E0 as E0m. apply (f_equal fst) in E0. simpl in E0, E0m.
  subst m1 r0.
  apply Z.eqb_eq in Hpt, Hecdsa.
  split; [done|]. split; [lia|]. split; [done|]. split; [done|].
  split; [lia|]. split; [lia|].
  eexists _, r1, r2, r3, rx, ry, rd, rf. cbn zeta.
  split; [|split; [|split; [exact Hrx|split; [exact Hry|split]]]].
  - cbn [with_ta trace]. rewrite Htr. cbn [call snd fst trace]. rewrite <- app_assoc. cbn [app].
    rewrite He3. reflexivity.
  - cbn [with_ta trace]. rewrite Htr in Hans |- *. cbn [call snd fst trace] in Hans |- *.
    rewrite drop_app_length in Hans. rewrite <- app_assoc, drop_app_length.
    constructor; [eexists; reflexivity | exact Hans].
  - cbn [with_ta ta]. rewrite Hta. cbn [call snd ta]. rewrite He3.
    rewrite Hecdsa. reflexivity.
  - rewrite He3, Hecdsa. reflexivity.
Qed.
Lemma cmd_generate_key_failure pt ps (m : machine W) res out m' :
  cmd_generate_key prim pt ps m = (res, out, m') -> res <> TEE_SUCCESS ->
  out = OutNone /\
  (m' = m \/
   exists e extra,
     ta m' = set_g_key_storage (ta m)
               (<[Z.to_nat (g_key_count (ta m)) := e]> (g_key_storage (ta m)))
     /\ trace m' = trace m ++ extra).
Proof.
  unfold cmd_generate_key.
  destruct (negb (pt =? _)); [intros [= <- <- <-]; auto|].
  destruct (g_key_count (ta m) >=? SR_MAX_KEYS); [intros [= <- <- <-]; auto|].
  destruct (negb (valid_key_id_len _)); [intros [= <- <- <-]; auto|].
  destruct (value_a (param ps 1) >=? SR_KEY_TYPE_MAX); [intros [= <- <- <-]; auto|].
  destruct (find_key_index _ (ta m) >=? 0); [intros [= <- <- <-]; auto|].
  unfold get_current_time.
  destruct (call prim TEE_GetSystemTime m) as [r0 m1] eqn:E0.
  apply (f_equal snd) in E0. cbn [snd] in E0.
  assert (ta m1 = ta m /\ trace m1 = trace m ++ [(TEE_GetSystemTime, (call prim TEE_GetSystemTime m).1)])
    as [Hta1 Htr1] by (by subst m1).
  clear E0.
  match goal with |- context [generate_secp256k1_keypair prim ?e ?m] =>
    pose proof (generate_secp256k1_keypair_frame e m) as [Hta (extra & Htr)];
    destruct (generate_secp256k1_keypair prim e m) as [[res2 e3] m2] end.
  cbn [snd] in Hta, Htr.
  destruct (value_a (param ps 1) =? SR_KEY_TYPE_ECDSA_SECP256K1);
    [|destruct (value_a (param ps 1) =? SR_KEY_TYPE_ED25519)];
    cbn beta iota zeta;
    (match goal with
     | |- context [negb (?r =? TEE_SUCCESS)] => destruct (r =? TEE_SUCCESS) eqn:Hr
     end; cbn [negb];
     [destruct (memref_size (param ps 2) <? SR_ETHEREUM_ADDRESS_SIZE)|]);
    intros [= <- <- <-] Hne; try done;
    (split; [done|]); right; eexists _, _; cbn [with_ta ta trace];
    rewrite ?Hta, ?Hta1, ?Htr, ?Htr1, <- ?app_assoc; split; reflexivity.
Qed.
Lemma sign_message_ecdsa_frame e h r (m : machine W) :
  ta (sign_message_ecdsa prim e h r m).2 = ta m /\
  exists extra,
    trace (sign_message_ecdsa prim e h r m).2 = trace m ++ extra
    /\ clock_readings extra = [].
Proof.
  unfold sign_message_ecdsa, free_sign, call.
  cbn [fst snd ta world trace].
  repeat lazymatch goal with
  | |- context [if negb (ret_code ?r =? TEE_SUCCESS) then _ else _] =>
      destruct (ret_code r =? TEE_SUCCESS); cbn [negb fst snd ta world trace]
  end; (split; [reflexivity|]); rewrite <- ?app_assoc; eexists;
    (split; [reflexivity|reflexivity]).
Qed.

Lemma sign_message_ecdsa_success e h r (m : machine W) r' m' :
  sign_message_ecdsa prim e h r m = (TEE_SUCCESS, r', m') ->
  exists r5,
    (TEE_AsymmetricSignDigest (mem_read h 32) 64, r5) ∈ drop (length (trace m)) (trace m')
    /\ ret_code r5 = TEE_SUCCESS
    /\ r' = mk_signature_result (memcpy_at (signature r) 0 (out_bytes 64 r5))
              (Z.of_nat (length (out_bytes 64 r5))) 0 (sig_reserved r).
Proof.
  unfold sign_message_ecdsa, free_sign, call.
  cbn [fst snd ta world trace].
  repeat lazymatch goal with
  | |- (if negb (ret_code ?r =? TEE_SUCCESS) then _ else _) = _ -> _ =>
      let R := fresh "R" in
      destruct (ret_code r =? TEE_SUCCESS) eqn:R; cbn [negb];
      [| intros [= H _ _]; rewrite H in R; discriminate R]
  end.
  intros [= Hr <- <-]. cbn [trace]. eexists. split; [|split; [exact Hr|reflexivity]].
  rewrite <- !app_assoc, drop_app_length. cbn [app].
  do 4 apply list_elem_of_further. apply list_elem_of_here.
Qed.

Lemma cmd_sign_message_failure pt ps (m : machine W) res out m' :
  cmd_sign_message prim pt ps m = (res, out, m') -> res <> TEE_SUCCESS ->
  ta m' = ta m /\ exists extra, trace m' = trace m ++ extra.
Proof.
  unfold cmd_sign_message.
  assert (ta m = ta m /\ exists extra, trace m = trace m ++ extra) as Hm.
  { split; [done|]. exists []. by rewrite app_nil_r. }
  repeat lazymatch goal with
  | |- (if ?c then (_, OutNone, m) else _) = _ -> _ =>
      destruct c; [by intros [= <- <- <-]|]
  end.
  set (e := entry_at _ _).
  pose proof (sign_message_ecdsa_frame e (memref_buffer (param ps 1))
                zero_signature_result m) as [Hta (extra & Htr & _)].
  destruct (sign_message_ecdsa prim e _ zero_signature_result m) as [[res1 r1] m1].
  cbn [snd] in Hta, Htr.
  destruct (key_type e =? SR_KEY_TYPE_ECDSA_SECP256K1);
    [|destruct (key_type e =? SR_KEY_TYPE_ED25519)];
    cbn beta iota zeta;
    (match goal with
     | |- context [if ?r =? TEE_SUCCESS then _ else _] =>
         destruct (r =? TEE_SUCCESS) eqn:Hr
     end; [apply Z.eqb_eq in Hr|]);
    unfold get_current_time, call; cbn [fst snd];
    intros [= <- <- <-] Hne; try done; eauto.
Qed.
Lemma cmd_sign_message_success pt ps (m : machine W) out m' :
  cmd_sign_message prim pt ps m = (TEE_SUCCESS, out, m') ->
  let k := find_key_index (memref_buffer (param ps 0)) (ta m) in
  let e := entry_at (ta m) k in
  pt = sign_message_types /\
  valid_key_id_len (memref_size (param ps 0)) = true /\
  memref_size (param ps 1) = SR_MESSAGE_HASH_SIZE /\
  0 <= k /\
  status (info e) = SR_KEY_STATUS_ACTIVE /\
  key_type e = SR_KEY_TYPE_ECDSA_SECP256K1 /\
  exists extra r0 r5,
    trace m' = trace m ++ extra ++ [(TEE_GetSystemTime, r0)]
    /\ clock_readings extra = []
    /\ (TEE_AsymmetricSignDigest (mem_read (memref_buffer (param ps 1)) 32) 64, r5) ∈ extra
    /\ ret_code r5 = TEE_SUCCESS
    /\ ta m' = signed_state (ta m) k (wrap32 (ret_time r0))
    /\ out = OutSignature
               (mk_signature_result (memcpy_at (zeros 64) 0 (out_bytes 64 r5))
                  (Z.of_nat (length (out_bytes 64 r5))) 0 (zeros 3)).
Proof.
  unfold cmd_sign_message. fold sign_message_types.
  destruct (pt =? sign_message_types) eqn:Hpt; cbn [negb]; [|done].
  destruct (valid_key_id_len _) eqn:Hlen; cbn [negb]; [|done].
  destruct (memref_size (param ps 1) =? SR_MESSAGE_HASH_SIZE) eqn:Hh; cbn [negb]; [|done].
  destruct (memref_size (param ps 2) <? _); [done|].
  destruct (find_key_index _ (ta m) <? 0) eqn:Hk; [done|].
  set (k := find_key_index _ _). fold k in Hk.
  set (e := entry_at _ _).
  destruct (status (info e) =? SR_KEY_STATUS_ACTIVE) eqn:Hst; cbn [negb]; [|done].
  apply Z.eqb_eq in Hpt, Hh, Hst.
  destruct (key_type e =? SR_KEY_TYPE_ECDSA_SECP256K1) eqn:Hty.
  2:{ destruct (key_type e =? SR_KEY_TYPE_ED25519); cbn; done. }
  apply Z.eqb_eq in Hty.
  pose proof (sign_message_ecdsa_frame e (memref_buffer (param ps 1))
                zero_signature_result m) as [Hta (extra & Htr & Hclk)].
  destruct (sign_message_ecdsa prim e _ zero_signature_result m)
    as [[res1 r1] m1] eqn:S.
  cbn [snd] in Hta, Htr.
  destruct (res1 =? TEE_SUCCESS) eqn:Hr; [|intros [= -> _ _]; done].
  apply Z.eqb_eq in Hr. subst res1.
  apply sign_message_ecdsa_success in S as (r5 & Hin & Hr5 & Hr1).
  rewrite Htr, drop_app_length in Hin.
  unfold get_current_time, call. cbn [fst snd].
  intros [= <- <-]. cbn zeta.
  split; [done|]. split; [done|]. split; [done|]. split; [lia|].
  split; [done|]. split; [done|].
  eexists extra, _, r5. cbn [with_ta trace ta].
  split; [by rewrite Htr, app_assoc|]. split; [done|]. split; [done|].
  split; [done|]. split; [by rewrite Hta|]. by rewrite Hr1.
Qed.
Lemma untouched_refl s : untouched s s.
Proof. repeat split; auto. Qed.

Ltac solve_untouched :=
  unfold untouched;
  cbn [fst snd ta with_ta set_g_session_count set_g_operation_count
       g_keys g_key_count g_key_storage];
  auto.

Lemma step_generate pt ps (m : machine W) :
  step prim (InvokeCommand TA_SUPER_RELAY_CMD_GENERATE_KEY pt ps) m
  = cmd_generate_key prim pt ps m.
Proof. reflexivity. Qed.

Lemma step_sign pt ps (m : machine W) :
  step prim (InvokeCommand TA_SUPER_RELAY_CMD_SIGN_MESSAGE pt ps) m
  = cmd_sign_message prim pt ps m.
Proof. reflexivity. Qed.

Lemma step_cases (m : machine W) (ev : event) : step_kind prim m ev.
Proof.
  destruct ev as [| |c pt ps].
  - apply sk_other; [|done|done]. cbn. solve_untouched.
  - apply sk_other; [|done|done]. cbn. unfold TA_CloseSessionEntryPoint.
    destruct (_ >? 0); solve_untouched.
  - destruct (decide (c = TA_SUPER_RELAY_CMD_GENERATE_KEY)) as [->|Hg].
    { destruct (decide ((step prim (InvokeCommand TA_SUPER_RELAY_CMD_GENERATE_KEY pt ps) m).1.1
                        = TEE_SUCCESS)) as [Hs|Hs].
      - by eapply sk_generated.
      - apply sk_other; [| by intros ? ? [= <- <-] | done].
        rewrite step_generate in *.
        destruct (cmd_generate_key prim pt ps m) as [[res out] m'] eqn:E.
        cbn [fst snd] in *.
        destruct (cmd_generate_key_failure _ _ _ _ _ _ E Hs) as [_ [-> | (e & x & -> & _)]].
        + apply untouched_refl.
        + repeat split; eauto. }
    destruct (decide (c = TA_SUPER_RELAY_CMD_SIGN_MESSAGE)) as [->|Hs].
    { destruct (decide ((step prim (InvokeCommand TA_SUPER_RELAY_CMD_SIGN_MESSAGE pt ps) m).1.1
                        = TEE_SUCCESS)) as [Hs|Hs].
      - by eapply sk_signed.
      - apply sk_other; [| done | by intros ? ? [= <- <-]].
        rewrite step_sign in *.
        destruct (cmd_sign_message prim pt ps m) as [[res out] m'] eqn:E.
        cbn [fst snd] in *.
        destruct (cmd_sign_message_failure _ _ _ _ _ _ E Hs) as [-> _].
        apply untouched_refl. }
    apply sk_other; [|by intros ? ? [= -> _ _]|by intros ? ? [= -> _ _]].
    cbn [step]. unfold TA_InvokeCommandEntryPoint.
    destruct (c =? TA_SUPER_RELAY_CMD_GENERATE_KEY) eqn:E1; [apply Z.eqb_eq in E1; done|].
    destruct (c =? TA_SUPER_RELAY_CMD_SIGN_MESSAGE) eqn:E2; [apply Z.eqb_eq in E2; done|].
    unfold cmd_get_public_key, cmd_list_keys, cmd_get_version, cmd_health_check,
      get_current_time, call.
    repeat lazymatch goal with
    | |- context [if ?c then _ else _] => destruct c
    end; solve_untouched.
Qed.
(** *** The lookup loop *)

Lemma find_from_spec (es : list sr_key_entry_t) : forall i kid,
  (find_from i es kid = -1 /\ Forall (fun e => ~ matches kid e) es)
  \/ (exists j e, find_from i es kid = i + Z.of_nat j /\ es !! j = Some e
                  /\ matches kid e /\ Forall (fun e => ~ matches kid e) (take j es)).
Proof.
  induction es as [|e es IH]; intros i kid; cbn [find_from].
  - left. split; [done | constructor].
  - destruct (strncmp (key_id e) kid _ =? 0) eqn:E.
    + right. exists 0%nat, e. apply Z.eqb_eq in E.
      repeat split; [lia | done | constructor].
    + apply Z.eqb_neq in E. destruct (IH (i + 1) kid) as [[H1 H2] | (j & e' & H1 & H2 & H3 & H4)].
      * left. split; [done|]. by constructor.
      * right. exists (S j), e'. repeat split; [lia | done | done |].
        cbn [take]. by constructor.
Qed.

Lemma find_from_first (es : list sr_key_entry_t) : forall i kid j e,
  es !! j = Some e -> matches kid e -> Forall (fun e => ~ matches kid e) (take j es) ->
  find_from i es kid = i + Z.of_nat j.
Proof.
  induction es as [|e0 es IH]; intros i kid j e Hj Hm Hn; [done|].
  cbn [find_from]. destruct j as [|j].
  - injection Hj as ->. unfold matches in Hm. rewrite Hm. cbn. lia.
  - cbn [take] in Hn. inversion Hn as [|? ? Hn0 Hn']; subst.
    destruct (strncmp (key_id e0) kid _ =? 0) eqn:E.
    + apply Z.eqb_eq in E. done.
    + rewrite (IH (i + 1) kid j e); [lia | done | done | done].
Qed.

Lemma find_from_none (es : list sr_key_entry_t) i kid :
  0 <= i -> (find_from i es kid < 0 <-> Forall (fun e => ~ matches kid e) es).
Proof.
  intros Hi. destruct (find_from_spec es i kid) as [[H1 H2] | (j & e & H1 & H2 & H3 & H4)].
  - split; [done | lia].
  - split; [lia|]. intros HF. exfalso.
    rewrite Forall_lookup in HF. by apply (HF j e).
Qed.

Lemma find_key_index_bounds kid s :
  0 <= g_key_count s ->
  length (g_key_storage s) = 16%nat -> g_key_count s <= SR_MAX_KEYS ->
  -1 <= find_key_index kid s < g_key_count s.
Proof.
  intros H0 Hlen Hcount. unfold find_key_index, SR_MAX_KEYS in *.
  destruct (find_from_spec (take (Z.to_nat (g_key_count s)) (g_key_storage s)) 0 kid)
    as [[H1 H2] | (j & e & H1 & H2 & H3 & H4)]; [lia|].
  apply lookup_lt_Some in H2. rewrite length_take in H2. lia.
Qed.

Lemma find_key_index_entry kid s :
  0 <= find_key_index kid s ->
  live_entries s !! Z.to_nat (find_key_index kid s) = Some (entry_at s (find_key_index kid s))
  /\ matches kid (entry_at s (find_key_index kid s)).
Proof.
  intros Hk. unfold find_key_index in *. fold (live_entries s) in *.
  destruct (find_from_spec (live_entries s) 0 kid)
    as [[H1 H2] | (j & e & H1 & H2 & H3 & H4)]; [lia|].
  rewrite H1. replace (Z.to_nat (0 + Z.of_nat j)) with j by lia.
  pose proof H2 as H2'. unfold live_entries in H2'.
  apply lookup_take_Some in H2' as [H2' _].
  unfold entry_at. replace (Z.to_nat (0 + Z.of_nat j)) with j by lia.
  rewrite H2'. done.
Qed.

Lemma find_from_ids (es es' : list sr_key_entry_t) i kid :
  key_id <$> es = key_id <$> es' -> find_from i es kid = find_from i es' kid.
Proof.
  revert es' i. induction es as [|e es IH]; intros [|e' es'] i H; try done.
  injection H as He H. cbn [find_from]. rewrite He.
  destruct (_ =? 0); [done|]. by apply IH.
Qed.

Lemma find_from_app (es es' : list sr_key_entry_t) i kid :
  0 <= i ->
  find_from i (es ++ es') kid =
    if find_from i es kid <? 0 then find_from (i + Z.of_nat (length es)) es' kid
    else find_from i es kid.
Proof.
  revert i. induction es as [|e es IH]; intros i Hi.
  - cbn [app find_from length]. replace (i + Z.of_nat 0) with i by lia. done.
  - cbn [app find_from length]. destruct (_ =? 0).
    + destruct (i <? 0) eqn:E; [lia | done].
    + rewrite IH by lia. replace (i + 1 + Z.of_nat (length es)) with (i + Z.of_nat (S (length es))) by lia.
      done.
Qed.
(** *** Traces only grow *)

Lemma trace_same (m : machine W) : exists extra, trace m = trace m ++ extra.
Proof. exists []. by rewrite app_nil_r. Qed.

Lemma step_trace ev (m : machine W) :
  exists extra, trace (step prim ev m).2 = trace m ++ extra.
Proof.
  destruct ev as [| |c pt ps]; cbn [step].
  - cbn. apply trace_same.
  - unfold TA_CloseSessionEntryPoint. destruct (_ >? 0); cbn; apply trace_same.
  - unfold TA_InvokeCommandEntryPoint.
    destruct (c =? TA_SUPER_RELAY_CMD_GENERATE_KEY).
    { destruct (cmd_generate_key prim pt ps m) as [[res out] m'] eqn:E.
      destruct (decide (res = TEE_SUCCESS)) as [->|Hne].
      - apply cmd_generate_key_success in E. cbn zeta in E.
        destruct E as (_ & _ & _ & _ & _ & _ & ? & ? & ? & ? & ? & ? & ? & ? & Htr & _).
        eauto.
      - destruct (cmd_generate_key_failure _ _ _ _ _ _ E Hne)
          as [_ [-> | (e & x & _ & Htr)]]; [apply trace_same | eauto]. }
    destruct (c =? TA_SUPER_RELAY_CMD_SIGN_MESSAGE).
    { destruct (cmd_sign_message prim pt ps m) as [[res out] m'] eqn:E.
      destruct (decide (res = TEE_SUCCESS)) as [->|Hne].
      - apply cmd_sign_message_success in E. cbn zeta in E.
        destruct E as (_ & _ & _ & _ & _ & _ & ? & ? & ? & Htr & _). eauto.
      - by destruct (cmd_sign_message_failure _ _ _ _ _ _ E Hne) as [_ ?]. }
    unfold cmd_get_public_key, cmd_list_keys, cmd_get_version, cmd_health_check,
      get_current_time, call.
    repeat lazymatch goal with
    | |- context [if ?c then _ else _] => destruct c
    end; cbn [snd trace with_ta]; first [apply trace_same | eauto].
Qed.

Lemma run_app evs1 evs2 (m : machine W) :
  run prim (evs1 ++ evs2) m = run prim evs2 (run prim evs1 m).
Proof. revert m. induction evs1 as [|ev evs1 IH]; intros m; [done|]. apply IH. Qed.

Lemma run_trace evs (m : machine W) :
  exists extra, trace (run prim evs m) = trace m ++ extra.
Proof.
  revert m. induction evs as [|ev evs IH]; intros m; [apply trace_same|].
  cbn [run]. destruct (IH (step prim ev m).2) as [x1 H1].
  destruct (step_trace ev m) as [x2 H2]. exists (x2 ++ x1).
  by rewrite H1, H2, app_assoc.
Qed.

(** *** The invariant *)

Lemma wrap32_small z : 0 <= z < 2 ^ 32 -> wrap32 z = z.
Proof. intros H. unfold wrap32. by apply Z.mod_small. Qed.

Lemma wrap32_range z : 0 <= wrap32 z < 2 ^ 32.
Proof. unfold wrap32. apply Z.mod_pos_bound. lia. Qed.

Lemma clock_readings_app tr1 tr2 :
  clock_readings (tr1 ++ tr2) = clock_readings tr1 ++ clock_readings tr2.
Proof. apply omap_app. Qed.

Lemma entry_ok_mono tr extra e : entry_ok tr e -> entry_ok (tr ++ extra) e.
Proof.
  intros [? ? ? ? ? ?]. split; try done.
  rewrite clock_readings_app. apply elem_of_app. by left.
Qed.

Lemma info_key_id_copy kid len :
  len < SR_MAX_KEY_ID_SIZE ->
  strncpy (zeros 64) (stored_key_id kid len) 63 = stored_key_id kid len.
Proof.
  intros Hlen. rewrite stored_key_id_eq by done.
  set (c := c_str kid (Z.to_nat len)).
  assert (length c <= 63)%nat as Hc.
  { pose proof (c_str_length (Z.to_nat len) kid). unfold SR_MAX_KEY_ID_SIZE in *.
    subst c. lia. }
  unfold strncpy, memcpy_at. rewrite take_0, app_nil_l, strncpy_bytes_length.
  rewrite strncpy_bytes_c_str, c_str_padded by (done || apply c_str_no_NUL).
  unfold zeros. rewrite drop_replicate, <- app_assoc, <- replicate_add.
  do 2 f_equal. lia.
Qed.

Lemma live_untouched s s' :
  untouched s s' -> live_entries s' = live_entries s /\ live_infos s' = live_infos s.
Proof.
  intros (Hk & Hc & Hs). unfold live_entries, live_infos. rewrite Hk, Hc.
  split; [|done]. destruct Hs as [-> | [e ->]]; [done|].
  by apply take_insert_ge.
Qed.

Lemma live_generated s e :
  0 <= g_key_count s < SR_MAX_KEYS ->
  length (g_keys s) = 16%nat -> length (g_key_storage s) = 16%nat ->
  g_key_count (generated_state s e) = g_key_count s + 1 /\
  live_entries (generated_state s e) = live_entries s ++ [e] /\
  live_infos (generated_state s e) = live_infos s ++ [info e].
Proof.
  intros Hc Hk Hs. unfold SR_MAX_KEYS in *.
  unfold live_entries, live_infos, generated_state.
  cbn [g_key_count g_key_storage g_keys].
  rewrite wrap32_small by lia. split; [done|].
  replace (Z.to_nat (g_key_count s + 1)) with (S (Z.to_nat (g_key_count s))) by lia.
  split.
  - rewrite (take_S_r _ _ e) by (apply list_lookup_insert_eq; lia).
    by rewrite take_insert_ge.
  - rewrite (take_S_r _ _ (info e)) by (apply list_lookup_insert_eq; lia).
    by rewrite take_insert_ge.
Qed.

Lemma live_signed s k now :
  0 <= k < g_key_count s ->
  g_key_count (signed_state s k now) = g_key_count s /\
  live_entries (signed_state s k now) =
    <[Z.to_nat k :=
        set_info (entry_at s k)
          (set_usage (info (entry_at s k)) now
             (wrap32 (usage_count (info (entry_at s k)) + 1)))]> (live_entries s) /\
  live_infos (signed_state s k now) =
    <[Z.to_nat k :=
        set_usage (info (entry_at s k)) now
          (wrap32 (usage_count (info (entry_at s k)) + 1))]> (live_infos s).
Proof.
  intros Hk. unfold live_entries, live_infos, signed_state.
  cbn [g_key_count g_key_storage g_keys]. split; [done|].
  split; apply take_insert_lt; lia.
Qed.

Lemma inv_boot (m0 : machine W) : inv (boot prim m0).
Proof.
  unfold boot, TA_CreateEntryPoint, get_current_time, call. cbn [snd fst].
  split; cbn [ta trace with_ta g_key_count g_keys g_key_storage]; done.
Qed.

Lemma inv_step ev (m : machine W) : inv m -> inv (step prim ev m).2.
Proof.
  intros [Hc Hkl Hsl Hlock Hlive].
  pose proof (step_cases m ev) as [pt ps -> Hres | pt ps -> Hres | Hun _ _].
  - rewrite step_generate in *.
    destruct (cmd_generate_key prim pt ps m) as [[res out] m'] eqn:E.
    cbn [fst snd] in *. subst res.
    apply cmd_generate_key_success in E. cbn zeta in E.
    destruct E as (_ & Hfull & Hlen & _ & _ & _ & r0 & r1 & r2 & r3 & rx & ry & rd & rf
                   & Htr & _ & _ & _ & Hta & _).
    destruct (live_generated (ta m) (generated_entry (memref_buffer (param ps 0))
                (memref_size (param ps 0)) (wrap32 (ret_time r0)) r3 rx ry rd))
      as (Hc' & He' & Hi'); [unfold SR_MAX_KEYS in *; lia | done | done |].
    split; rewrite Hta.
    + rewrite Hc'. unfold SR_MAX_KEYS in *. lia.
    + cbn. by rewrite length_insert.
    + cbn. by rewrite length_insert.
    + rewrite He', Hi', fmap_app, Hlock. done.
    + rewrite He', Htr. apply Forall_app. split.
      * eapply Forall_impl; [exact Hlive|]. intros e. apply entry_ok_mono.
      * constructor; [|constructor].
        unfold valid_key_id_len in Hlen. apply negb_true_iff, orb_false_iff in Hlen.
        destruct Hlen as [Hl1 Hl2]. unfold SR_MAX_KEY_ID_SIZE in *.
        split; cbn [generated_entry key_type info status info_key_id key_id
                    info_key_type usage_count last_used_time]; try done.
        -- apply info_key_id_copy. unfold SR_MAX_KEY_ID_SIZE. lia.
        -- rewrite clock_readings_app. apply elem_of_app. right.
           cbn. apply list_elem_of_here.
  - rewrite step_sign in *.
    destruct (cmd_sign_message prim pt ps m) as [[res out] m'] eqn:E.
    cbn [fst snd] in *. subst res.
    apply cmd_sign_message_success in E. cbn zeta in E.
    set (k := find_key_index _ _) in E. set (e := entry_at _ k) in E.
    destruct E as (_ & _ & _ & Hk & Hst & Hty & extra & r0 & r5 & Htr & _ & _ & _ & Hta & _).
    assert (k < g_key_count (ta m)) as Hk'
      by (pose proof (find_key_index_bounds (memref_buffer (param ps 0)) (ta m)); lia).
    destruct (find_key_index_entry (memref_buffer (param ps 0)) (ta m) Hk) as [Hek _].
    fold k e in Hek.
    destruct (live_signed (ta m) k (wrap32 (ret_time r0))) as (Hc' & He' & Hi'); [lia|].
    fold e in He', Hi'.
    split; rewrite Hta.
    + by rewrite Hc'.
    + cbn. by rewrite length_insert.
    + cbn. by rewrite length_insert.
    + by rewrite He', Hi', list_fmap_insert, Hlock.
    + rewrite He', Htr.
      rewrite Forall_lookup in Hlive. pose proof (Hlive _ _ Hek) as [? ? ? ? ? ?].
      apply Forall_insert.
      * apply Forall_lookup. intros i x Hx. by apply entry_ok_mono, (Hlive i).
      * split; cbn [set_info set_usage key_type info status info_key_id key_id
                    info_key_type usage_count last_used_time]; try done.
        -- apply wrap32_range.
        -- rewrite !clock_readings_app. apply elem_of_app. right.
           apply elem_of_app. right. cbn. apply list_elem_of_here.
  - destruct (live_untouched _ _ Hun) as [He Hi]. destruct Hun as (Hk & Hcount & Hs).
    destruct (step_trace ev m) as [x Htr].
    split.
    + by rewrite Hcount.
    + by rewrite Hk.
    + destruct Hs as [-> | [e ->]]; [done | by rewrite length_insert].
    + by rewrite He, Hi.
    + rewrite He, Htr. eapply Forall_impl; [exact Hlive|]. intros e. apply entry_ok_mono.
Qed.
Lemma inv_run evs (m : machine W) : inv m -> inv (run prim evs m).
Proof.
  revert m. induction evs as [|ev evs IH]; intros m Hm; [done|].
  cbn [run]. by apply IH, inv_step.
Qed.

(** *** The session counter *)

Lemma step_session ev (m : machine W) :
  g_session_count (ta (step prim ev m).2) = session_step (g_session_count (ta m)) ev.
Proof.
  destruct (step_cases m ev) as [pt ps -> Hres | pt ps -> Hres | Hun Hg Hs].
  - rewrite step_generate in *.
    destruct (cmd_generate_key prim pt ps m) as [[res out] m'] eqn:E.
    cbn [fst snd] in *. subst res.
    apply cmd_generate_key_success in E. cbn zeta in E.
    destruct E as (_ & _ & _ & _ & _ & _ & ? & ? & ? & ? & ? & ? & ? & ? & _ & _ & _ & _ & -> & _).
    done.
  - rewrite step_sign in *.
    destruct (cmd_sign_message prim pt ps m) as [[res out] m'] eqn:E.
    cbn [fst snd] in *. subst res.
    apply cmd_sign_message_success in E. cbn zeta in E.
    destruct E as (_ & _ & _ & _ & _ & _ & ? & ? & ? & _ & _ & _ & _ & -> & _).
    done.
  - destruct ev as [| |c pt ps]; cbn [step session_step].
    + done.
    + unfold TA_CloseSessionEntryPoint. by destruct (_ >? 0).
    + unfold TA_InvokeCommandEntryPoint.
      destruct (c =? TA_SUPER_RELAY_CMD_GENERATE_KEY) eqn:E1.
      { apply Z.eqb_eq in E1. subst c. specialize (Hg _ _ eq_refl).
        rewrite step_generate in Hg.
        destruct (cmd_generate_key prim pt ps m) as [[res out] m'] eqn:E.
        destruct (cmd_generate_key_failure _ _ _ _ _ _ E Hg)
          as [_ [-> | (e & x & Hta & _)]]; [done|].
        cbn [snd]. by rewrite Hta. }
      destruct (c =? TA_SUPER_RELAY_CMD_SIGN_MESSAGE) eqn:E2.
      { apply Z.eqb_eq in E2. subst c. specialize (Hs _ _ eq_refl).
        rewrite step_sign in Hs.
        destruct (cmd_sign_message prim pt ps m) as [[res out] m'] eqn:E.
        destruct (cmd_sign_message_failure _ _ _ _ _ _ E Hs) as [Hta _].
        cbn [snd]. by rewrite Hta. }
      unfold cmd_get_public_key, cmd_list_keys, cmd_get_version, cmd_health_check,
        get_current_time, call.
      repeat lazymatch goal with
      | |- context [if ?c then _ else _] => destruct c
      end; done.
Qed.

Lemma run_session evs (m : machine W) :
  g_session_count (ta (run prim evs m)) = fold_left session_step evs (g_session_count (ta m)).
Proof.
  revert m. induction evs as [|ev evs IH]; intros m; [done|].
  cbn [run fold_left]. by rewrite IH, step_session.
Qed.

Lemma session_step_range n ev : 0 <= n < 2 ^ 32 -> 0 <= session_step n ev < 2 ^ 32.
Proof.
  intros Hn. destruct ev; cbn [session_step]; [apply wrap32_range | | done].
  destruct (n >? 0) eqn:E; lia.
Qed.

Lemma session_fold_range evs : forall n,
  0 <= n < 2 ^ 32 -> 0 <= fold_left session_step evs n < 2 ^ 32.
Proof.
  induction evs as [|ev evs IH]; intros n Hn; [done|].
  cbn [fold_left]. by apply IH, session_step_range.
Qed.

Lemma session_fold_balanced evs : forall n,
  0 <= n -> balanced_from n evs -> n + count_opens evs < 2 ^ 32 ->
  fold_left session_step evs n = n + count_opens evs - count_closes evs.
Proof.
  unfold count_opens, count_closes.
  induction evs as [|ev evs IH]; intros n Hn Hb Hlt; [cbn; lia|].
  destruct ev as [| |c pt ps]; cbn [fold_left session_step balanced_from List.filter
                                   is_open is_close length] in *.
  - rewrite wrap32_small by lia. rewrite IH; [lia.. | done | lia].
  - destruct Hb as [Hpos Hb]. destruct (n >? 0) eqn:E; [|lia].
    rewrite IH; [lia | lia | done | lia].
  - by apply IH.
Qed.
(** *** What creation fixes *)

Lemma frozen_signed e now n :
  frozen (set_info e (set_usage (info e) now n)) = frozen e.
Proof. done. Qed.

Lemma key_id_frozen (l : list sr_key_entry_t) : key_id <$> (frozen <$> l) = key_id <$> l.
Proof. rewrite <- list_fmap_compose. done. Qed.

Lemma step_frozen ev (m : machine W) :
  inv m -> frozen_store (ta m) `prefix_of` frozen_store (ta (step prim ev m).2).
Proof.
  intros [Hc Hkl Hsl Hlock Hlive]. unfold frozen_store.
  pose proof (step_cases m ev) as [pt ps -> Hres | pt ps -> Hres | Hun _ _].
  - rewrite step_generate in *.
    destruct (cmd_generate_key prim pt ps m) as [[res out] m'] eqn:E.
    cbn [fst snd] in *. subst res.
    apply cmd_generate_key_success in E. cbn zeta in E.
    destruct E as (_ & Hfull & _ & _ & _ & _ & r0 & r1 & r2 & r3 & rx & ry & rd & rf
                   & _ & _ & _ & _ & Hta & _).
    rewrite Hta.
    edestruct live_generated as (_ & -> & _); [| done | done |].
    + unfold SR_MAX_KEYS in *. lia.
    + rewrite fmap_app. by apply prefix_app_r.
  - rewrite step_sign in *.
    destruct (cmd_sign_message prim pt ps m) as [[res out] m'] eqn:E.
    cbn [fst snd] in *. subst res.
    apply cmd_sign_message_success in E. cbn zeta in E.
    set (k := find_key_index _ _) in E. set (e := entry_at _ k) in E.
    destruct E as (_ & _ & _ & Hk & _ & _ & extra & r0 & r5 & _ & _ & _ & _ & Hta & _).
    assert (k < g_key_count (ta m)) as Hk'
      by (pose proof (find_key_index_bounds (memref_buffer (param ps 0)) (ta m)); lia).
    destruct (find_key_index_entry (memref_buffer (param ps 0)) (ta m) Hk) as [Hek _].
    fold k e in Hek. rewrite Hta.
    edestruct live_signed as (_ & -> & _); [split; [exact Hk | exact Hk']|].
    fold e. rewrite list_fmap_insert, frozen_signed, list_insert_id; [done|].
    by rewrite list_lookup_fmap, Hek.
  - destruct (live_untouched _ _ Hun) as [-> _]. done.
Qed.

Lemma run_frozen evs (m : machine W) :
  inv m -> frozen_store (ta m) `prefix_of` frozen_store (ta (run prim evs m)).
Proof.
  revert m. induction evs as [|ev evs IH]; intros m Hm; [done|].
  cbn [run]. etrans; [by apply step_frozen|]. by apply IH, inv_step.
Qed.

Lemma frozen_prefix_lookup s s' i e :
  frozen_store s `prefix_of` frozen_store s' ->
  live_entries s !! i = Some e ->
  exists e', live_entries s' !! i = Some e' /\ frozen e' = frozen e.
Proof.
  intros Hp He. unfold frozen_store in Hp.
  assert ((frozen <$> live_entries s) !! i = Some (frozen e)) as H1
    by (by rewrite list_lookup_fmap, He).
  pose proof (prefix_lookup_Some _ _ _ _ H1 Hp) as H2.
  rewrite list_lookup_fmap in H2.
  destruct (live_entries s' !! i) as [e'|] eqn:E; simpl in H2; [|done].
  exists e'. split; [done | congruence].
Qed.

Lemma find_key_index_ids s s' kid :
  key_id <$> live_entries s = key_id <$> live_entries s' ->
  find_key_index kid s = find_key_index kid s'.
Proof. intros H. by apply find_from_ids. Qed.

Lemma find_key_index_stable s s' kid :
  frozen_store s `prefix_of` frozen_store s' ->
  0 <= find_key_index kid s ->
  find_key_index kid s' = find_key_index kid s.
Proof.
  intros [k Hk] Hf. unfold frozen_store in Hk.
  unfold find_key_index in *. fold (live_entries s) in *. fold (live_entries s').
  rewrite (find_from_ids (live_entries s') (frozen <$> live_entries s'))
    by (by rewrite key_id_frozen).
  rewrite Hk, find_from_app by done.
  rewrite (find_from_ids (frozen <$> live_entries s) (live_entries s))
    by (by rewrite key_id_frozen).
  destruct (Z.ltb_spec (find_from 0 (live_entries s) kid) 0); [lia | done].
Qed.

(** A key identifier passed as a C string matches the identifier stored
    for it, and nothing that differs from it. *)
Lemma c_string_id_matches p e :
  memref_size p < SR_MAX_KEY_ID_SIZE ->
  c_string_id p ->
  key_id e = stored_key_id (memref_buffer p) (memref_size p) ->
  matches (memref_buffer p) e.
Proof.
  intros Hlen Hs He. unfold matches. apply strncmp_c_str.
  rewrite He. change (Z.to_nat SR_MAX_KEY_ID_SIZE) with 64%nat.
  rewrite stored_key_id_c_str by done.
  apply c_str_shorter; unfold c_string_id in Hs;
    change (Z.to_nat SR_MAX_KEY_ID_SIZE) with 64%nat in Hs; unfold SR_MAX_KEY_ID_SIZE in *; lia.
Qed.

(** The record a successful [cmd_generate_key] has created is the one
    later lookups of the same C string find. *)
Lemma find_generated ps (m : machine W) e :
  inv m ->
  g_key_count (ta m) < SR_MAX_KEYS ->
  find_key_index (memref_buffer (param ps 0)) (ta m) < 0 ->
  memref_size (param ps 0) < SR_MAX_KEY_ID_SIZE ->
  c_string_id (param ps 0) ->
  key_id e = stored_key_id (memref_buffer (param ps 0)) (memref_size (param ps 0)) ->
  find_key_index (memref_buffer (param ps 0)) (generated_state (ta m) e)
    = g_key_count (ta m)
  /\ live_entries (generated_state (ta m) e) !! Z.to_nat (g_key_count (ta m)) = Some e.
Proof.
  intros [Hc Hkl Hsl _ _] Hfull Hfind Hlen Hs He.
  destruct (live_generated (ta m) e) as (_ & Hl & _); [lia | done | done |].
  assert (length (live_entries (ta m)) = Z.to_nat (g_key_count (ta m))) as Hll.
  { unfold live_entries. rewrite length_take. unfold SR_MAX_KEYS in *. lia. }
  assert (live_entries (generated_state (ta m) e) !! Z.to_nat (g_key_count (ta m)) = Some e)
    as Hlook.
  { rewrite Hl, lookup_app_r by lia. by rewrite Hll, Nat.sub_diag. }
  split; [|done].
  unfold find_key_index. fold (live_entries (generated_state (ta m) e)).
  rewrite (find_from_first _ 0 _ _ e Hlook).
  - lia.
  - by apply c_string_id_matches.
  - rewrite Hl, <- Hll, take_app_length. by apply find_from_none in Hfind.
Qed.
Lemma c_str_full_length (n : nat) : forall s,
  length (c_str s n) = n -> c_str s n = mem_read s n.
Proof.
  induction n as [|n IH]; intros s H; [done|].
  cbn [c_str] in *. destruct (Byte.eqb (byte_at s 0) NUL); [done|].
  cbn [length] in H. injection H as H. rewrite IH by done.
  unfold mem_read. cbn [seq fmap list_fmap]. f_equal.
  rewrite <- seq_shift, <- list_fmap_compose.
  apply list_fmap_ext. intros i x _. cbn. apply byte_at_tail.
Qed.

Lemma c_string_id_declared p :
  memref_size p < SR_MAX_KEY_ID_SIZE ->
  c_string_id p ->
  c_str (memref_buffer p) 64 = declared_bytes p.
Proof.
  intros Hlen Hs. unfold c_string_id, declared_bytes, SR_MAX_KEY_ID_SIZE in *.
  change (Z.to_nat 64) with 64%nat in Hs.
  rewrite <- (c_str_shorter 64 _ (Z.to_nat (memref_size p))) by lia.
  apply c_str_full_length.
  rewrite (c_str_shorter 64 _ (Z.to_nat (memref_size p))) by lia. done.
Qed.
(** *** Usage statistics *)

Lemma live_length (m : machine W) :
  inv m -> length (live_entries (ta m)) = Z.to_nat (g_key_count (ta m)).
Proof.
  intros [Hc _ Hsl _ _]. unfold live_entries, SR_MAX_KEYS in *.
  rewrite length_take. lia.
Qed.

Lemma step_count ev (m : machine W) :
  inv m -> g_key_count (ta m) <= g_key_count (ta (step prim ev m).2).
Proof.
  intros Hm. pose proof (step_frozen ev m Hm) as Hp.
  apply prefix_length in Hp. unfold frozen_store in Hp.
  rewrite !length_fmap, !live_length in Hp by (try apply inv_step; done).
  pose proof (inv_step ev m Hm) as [Hc' _ _ _ _].
  destruct Hm as [Hc _ _ _ _]. lia.
Qed.

Lemma entry_at_live (m : machine W) k :
  inv m -> 0 <= k < g_key_count (ta m) ->
  live_entries (ta m) !! Z.to_nat k = Some (entry_at (ta m) k).
Proof.
  intros Hm Hk. pose proof (live_length m Hm) as Hl.
  destruct (lookup_lt_is_Some_2 (live_entries (ta m)) (Z.to_nat k)) as [e He]; [lia|].
  rewrite He. unfold live_entries in He. apply lookup_take_Some in He as [He _].
  unfold entry_at. by rewrite He.
Qed.

Lemma step_entry k ev (m : machine W) :
  inv m -> 0 <= k < g_key_count (ta m) ->
  (signs_key prim k ev m = false
   /\ entry_at (ta (step prim ev m).2) k = entry_at (ta m) k)
  \/ (signs_key prim k ev m = true
      /\ exists now,
           entry_at (ta (step prim ev m).2) k =
             set_info (entry_at (ta m) k)
               (set_usage (info (entry_at (ta m) k)) now
                  (wrap32 (usage_count (info (entry_at (ta m) k)) + 1)))
           /\ clock_readings (trace (step prim ev m).2)
              = clock_readings (trace m) ++ [now]).
Proof.
  intros Hm Hk. pose proof Hm as [Hc Hkl Hsl Hlock Hlive].
  unfold SR_MAX_KEYS in Hc.
  pose proof (step_cases m ev) as [pt ps -> Hres | pt ps -> Hres | Hun Hg Hs].
  - left. split; [done|]. rewrite step_generate in *.
    destruct (cmd_generate_key prim pt ps m) as [[res out] m'] eqn:E.
    cbn [fst snd] in *. subst res.
    apply cmd_generate_key_success in E. cbn zeta in E.
    destruct E as (_ & _ & _ & _ & _ & _ & ? & ? & ? & ? & ? & ? & ? & ? & _ & _ & _ & _ & -> & _).
    unfold entry_at, generated_state. cbn [g_key_storage].
    rewrite list_lookup_insert_ne by lia. done.
  - assert (step prim (InvokeCommand TA_SUPER_RELAY_CMD_SIGN_MESSAGE pt ps) m
            = cmd_sign_message prim pt ps m) as Hstep by done.
    destruct (cmd_sign_message prim pt ps m) as [[res out] m'] eqn:E.
    rewrite Hstep in Hres. cbn [fst snd] in Hres. subst res.
    apply cmd_sign_message_success in E. cbn zeta in E.
    set (j := find_key_index _ _) in E.
    destruct E as (_ & _ & _ & Hj & _ & _ & extra & r0 & r5 & Htr & Hclk & _ & _ & Hta & _).
    assert (j < g_key_count (ta m)) as Hj'
      by (pose proof (find_key_index_bounds (memref_buffer (param ps 0)) (ta m));
          unfold SR_MAX_KEYS in *; lia).
    assert (signs_key prim k (InvokeCommand TA_SUPER_RELAY_CMD_SIGN_MESSAGE pt ps) m
            = (j =? k)) as Hsk.
    { unfold signs_key. rewrite Hstep. cbn [fst snd]. by rewrite Z.eqb_refl. }
    rewrite Hsk, Hstep. cbn [snd]. rewrite Hta, Htr.
    unfold entry_at at 1 3. unfold signed_state. cbn [g_key_storage].
    destruct (Z.eqb_spec j k) as [->|Hne].
    + right. split; [done|]. exists (wrap32 (ret_time r0)). split.
      * rewrite list_lookup_insert_eq by lia. done.
      * rewrite !clock_readings_app, Hclk. done.
    + left. split; [done|]. rewrite list_lookup_insert_ne by lia. done.
  - left. split.
    + destruct ev as [| |c pt ps]; [done | done |]. unfold signs_key.
      destruct (Z.eqb_spec c TA_SUPER_RELAY_CMD_SIGN_MESSAGE) as [->|]; [|done].
      specialize (Hs _ _ eq_refl). apply Z.eqb_neq in Hs. by rewrite Hs.
    + destruct Hun as (_ & _ & [Hst | [e Hst]]); unfold entry_at; rewrite Hst; [done|].
      rewrite list_lookup_insert_ne by lia. done.
Qed.

Lemma step_usage k ev (m : machine W) :
  inv m -> 0 <= k < g_key_count (ta m) ->
  usage_of k (step prim ev m).2
  = wrap32 (usage_of k m + (if signs_key prim k ev m then 1 else 0)).
Proof.
  intros Hm Hk. unfold usage_of.
  destruct (step_entry k ev m Hm Hk) as [[-> ->] | [-> (now & -> & _)]].
  - rewrite Z.add_0_r, wrap32_small; [done|].
    pose proof Hm as [_ _ _ _ Hlive]. rewrite Forall_lookup in Hlive.
    apply (Hlive _ _ (entry_at_live m k Hm Hk)).
  - done.
Qed.

Lemma run_usage k evs : forall m : machine W,
  inv m -> 0 <= k < g_key_count (ta m) ->
  usage_of k (run prim evs m) = wrap32 (usage_of k m + successful_signs prim k evs m).
Proof.
  induction evs as [|ev evs IH]; intros m Hm Hk.
  - cbn [run successful_signs]. rewrite Z.add_0_r, wrap32_small; [done|].
    pose proof Hm as [_ _ _ _ Hlive]. rewrite Forall_lookup in Hlive.
    apply (Hlive _ _ (entry_at_live m k Hm Hk)).
  - cbn [run successful_signs].
    rewrite IH; [| by apply inv_step | pose proof (step_count ev m Hm); lia].
    rewrite step_usage by done. unfold wrap32.
    rewrite Zplus_mod_idemp_l. f_equal. lia.
Qed.

Lemma step_last_used k ev (m : machine W) :
  inv m -> 0 <= k < g_key_count (ta m) ->
  StronglySorted Z.le (clock_readings (trace (step prim ev m).2)) ->
  last_used_of k m <= last_used_of k (step prim ev m).2.
Proof.
  intros Hm Hk Hsorted. unfold last_used_of.
  destruct (step_entry k ev m Hm Hk) as [[_ ->] | [_ (now & -> & Hclk)]]; [done|].
  cbn [set_info set_usage info last_used_time].
  rewrite Hclk in Hsorted.
  eapply StronglySorted_app_1_elem_of; [exact Hsorted | | apply list_elem_of_here].
  pose proof Hm as [_ _ _ _ Hlive]. rewrite Forall_lookup in Hlive.
  apply (Hlive _ _ (entry_at_live m k Hm Hk)).
Qed.

Lemma run_last_used k evs : forall m : machine W,
  inv m -> 0 <= k < g_key_count (ta m) ->
  StronglySorted Z.le (clock_readings (trace (run prim evs m))) ->
  Sorted Z.le (last_used_of k <$> states prim evs m).
Proof.
  induction evs as [|ev evs IH]; intros m Hm Hk Hsorted.
  - cbn. by repeat constructor.
  - cbn [run states fmap list_fmap] in *.
    assert (StronglySorted Z.le (clock_readings (trace (step prim ev m).2))) as Hs1.
    { destruct (run_trace evs (step prim ev m).2) as [x Hx].
      rewrite Hx, clock_readings_app in Hsorted.
      by apply StronglySorted_app_1_l in Hsorted. }
    constructor.
    + apply IH; [by apply inv_step | pose proof (step_count ev m Hm); lia | done].
    + destruct evs; cbn; constructor; by apply step_last_used.
Qed.
(** *** A provider that always succeeds *)

Lemma sign_message_ecdsa_ok e h r (m : machine W) :
  always_succeeds prim -> (sign_message_ecdsa prim e h r m).1.1 = TEE_SUCCESS.
Proof.
  intros Hok. unfold sign_message_ecdsa, free_sign, call.
  cbn [fst snd world]. rewrite !Hok. reflexivity.
Qed.

Lemma generate_secp256k1_keypair_ok e (m : machine W) :
  keygen_succeeds prim ->
  (generate_secp256k1_keypair prim e m).1.1 = TEE_SUCCESS.
Proof.
  intros Hok. unfold keygen_succeeds in Hok.
  unfold generate_secp256k1_keypair, free_keypair, derive_ethereum_address, call.
  cbn [fst snd world]. rewrite !Hok by done. cbn [negb Z.eqb TEE_SUCCESS].
  by destruct (negb _).
Qed.

Lemma sign_succeeds pt ps (m : machine W) :
  always_succeeds prim -> inv m ->
  pt = sign_message_types ->
  valid_key_id_len (memref_size (param ps 0)) = true ->
  memref_size (param ps 1) = SR_MESSAGE_HASH_SIZE ->
  sizeof_sr_signature_result_t <= memref_size (param ps 2) ->
  0 <= find_key_index (memref_buffer (param ps 0)) (ta m) ->
  (cmd_sign_message prim pt ps m).1.1 = TEE_SUCCESS.
Proof.
  intros Hok Hm -> Hlen Hh Hout Hk.
  destruct (find_key_index_entry _ _ Hk) as [He _].
  pose proof Hm as [_ _ _ _ Hlive]. rewrite Forall_lookup in Hlive.
  destruct (Hlive _ _ He) as [Hty Hst _ _ _ _].
  unfold cmd_sign_message. fold sign_message_types.
  rewrite Z.eqb_refl, Hlen, Hh, Z.eqb_refl. cbn [negb].
  destruct (Z.ltb_spec (memref_size (param ps 2)) sizeof_sr_signature_result_t); [lia|].
  destruct (Z.ltb_spec (find_key_index (memref_buffer (param ps 0)) (ta m)) 0); [lia|].
  rewrite Hst, Hty, !Z.eqb_refl. cbn [negb].
  pose proof (sign_message_ecdsa_ok
                (entry_at (ta m) (find_key_index (memref_buffer (param ps 0)) (ta m)))
                (memref_buffer (param ps 1)) zero_signature_result m Hok) as Hs.
  destruct (sign_message_ecdsa prim _ _ _ m) as [[res r1] m1]. cbn [fst snd] in Hs.
  subst res. rewrite Z.eqb_refl. unfold get_current_time, call. reflexivity.
Qed.

Lemma repeated_signs pt ps k (n : nat) : forall m : machine W,
  always_succeeds prim -> inv m ->
  pt = sign_message_types ->
  valid_key_id_len (memref_size (param ps 0)) = true ->
  memref_size (param ps 1) = SR_MESSAGE_HASH_SIZE ->
  sizeof_sr_signature_result_t <= memref_size (param ps 2) ->
  0 <= k -> find_key_index (memref_buffer (param ps 0)) (ta m) = k ->
  successful_signs prim k
    (replicate n (InvokeCommand TA_SUPER_RELAY_CMD_SIGN_MESSAGE pt ps)) m = Z.of_nat n.
Proof.
  induction n as [|n IH]; intros m Hok Hm Hpt Hlen Hh Hout Hk Hfind; [done|].
  cbn [replicate successful_signs].
  assert (signs_key prim k (InvokeCommand TA_SUPER_RELAY_CMD_SIGN_MESSAGE pt ps) m = true)
    as ->.
  { unfold signs_key. rewrite step_sign, sign_succeeds, Hfind, !Z.eqb_refl by (done || lia).
    done. }
  rewrite IH; try done; [lia | by apply inv_step |].
  rewrite <- Hfind. apply find_key_index_stable; [by apply step_frozen | lia].
Qed.
(** *** Creation order *)

Lemma step_created_ids ev (m : machine W) :
  inv m ->
  key_id <$> live_entries (ta (step prim ev m).2)
  = (key_id <$> live_entries (ta m)) ++ created_ids prim [ev] m.
Proof.
  intros Hm. pose proof Hm as [Hc Hkl Hsl Hlock Hlive]. unfold SR_MAX_KEYS in Hc.
  pose proof (step_cases m ev) as [pt ps -> Hres | pt ps -> Hres | Hun Hg Hs].
  - cbn [created_ids]. rewrite Hres, !Z.eqb_refl. cbn [andb]. rewrite app_nil_r.
    rewrite step_generate in *.
    destruct (cmd_generate_key prim pt ps m) as [[res out] m'] eqn:E.
    cbn [fst snd] in *. subst res.
    apply cmd_generate_key_success in E. cbn zeta in E.
    destruct E as (_ & Hfull & _ & _ & _ & _ & r0 & r1 & r2 & r3 & rx & ry & rd & rf
                   & _ & _ & _ & _ & Hta & _).
    rewrite Hta.
    edestruct live_generated as (_ & -> & _); [| done | done |].
    + unfold SR_MAX_KEYS in *. lia.
    + by rewrite fmap_app.
  - cbn [created_ids]. cbn [Z.eqb TA_SUPER_RELAY_CMD_SIGN_MESSAGE
                              TA_SUPER_RELAY_CMD_GENERATE_KEY andb app].
    rewrite app_nil_r. rewrite step_sign in *.
    destruct (cmd_sign_message prim pt ps m) as [[res out] m'] eqn:E.
    cbn [fst snd] in *. subst res.
    apply cmd_sign_message_success in E. cbn zeta in E.
    set (j := find_key_index _ _) in E.
    destruct E as (_ & _ & _ & Hj & _ & _ & extra & r0 & r5 & _ & _ & _ & _ & Hta & _).
    assert (j < g_key_count (ta m)) as Hj'
      by (pose proof (find_key_index_bounds (memref_buffer (param ps 0)) (ta m));
          unfold SR_MAX_KEYS in *; lia).
    rewrite Hta.
    edestruct live_signed as (_ & -> & _); [split; [exact Hj | exact Hj']|].
    rewrite list_fmap_insert. apply list_insert_id.
    rewrite list_lookup_fmap, (entry_at_live m j Hm) by lia. done.
  - destruct (live_untouched _ _ Hun) as [-> _].
    destruct ev as [| |c pt ps]; cbn [created_ids]; rewrite ?app_nil_r; [done | done |].
    destruct (Z.eqb_spec c TA_SUPER_RELAY_CMD_GENERATE_KEY) as [->|]; [|by rewrite app_nil_r].
    specialize (Hg _ _ eq_refl). apply Z.eqb_neq in Hg. rewrite Hg. by rewrite app_nil_r.
Qed.

Lemma created_ids_cons ev evs (m : machine W) :
  created_ids prim (ev :: evs) m
  = created_ids prim [ev] m ++ created_ids prim evs (step prim ev m).2.
Proof. cbn [created_ids]. by rewrite app_nil_r. Qed.

Lemma run_created_ids evs : forall m : machine W,
  inv m ->
  key_id <$> live_entries (ta (run prim evs m))
  = (key_id <$> live_entries (ta m)) ++ created_ids prim evs m.
Proof.
  induction evs as [|ev evs IH]; intros m Hm.
  - cbn. by rewrite app_nil_r.
  - cbn [run]. rewrite IH by (by apply inv_step).
    rewrite step_created_ids by done.
    by rewrite (created_ids_cons ev evs), <- app_assoc.
Qed.

Lemma info_key_ids (m : machine W) :
  inv m -> info_key_id <$> live_infos (ta m) = key_id <$> live_entries (ta m).
Proof.
  intros [_ _ _ Hlock Hlive]. rewrite Hlock, <- list_fmap_compose.
  apply Forall_fmap_ext_1. eapply Forall_impl; [exact Hlive|].
  intros e He. apply He.
Qed.
(** *** Filling the store *)

Lemma cmd_generate_key_ok ps (m : machine W) :
  keygen_succeeds prim ->
  g_key_count (ta m) < SR_MAX_KEYS ->
  generate_ok_request ps ->
  find_key_index (memref_buffer (param ps 0)) (ta m) < 0 ->
  (cmd_generate_key prim generate_key_types ps m).1.1 = TEE_SUCCESS.
Proof.
  intros Hok Hfull (_ & Hlen & Hty & Hout) Hfind.
  unfold cmd_generate_key. fold generate_key_types. rewrite Z.eqb_refl, Hlen, Hty. cbn [negb].
  destruct (Z.geb_spec (g_key_count (ta m)) SR_MAX_KEYS); [lia|].
  destruct (Z.geb_spec SR_KEY_TYPE_ECDSA_SECP256K1 SR_KEY_TYPE_MAX); [done|].
  destruct (Z.geb_spec (find_key_index (memref_buffer (param ps 0)) (ta m)) 0); [lia|].
  rewrite Z.eqb_refl. unfold get_current_time.
  destruct (call prim TEE_GetSystemTime m) as [r0 m1].
  match goal with |- context [generate_secp256k1_keypair prim ?e ?m] =>
    pose proof (generate_secp256k1_keypair_ok e m Hok) as Hg;
    destruct (generate_secp256k1_keypair prim e m) as [[res e3] m2] end.
  cbn [fst snd] in Hg. subst res. cbn [Z.eqb TEE_SUCCESS negb].
  by destruct (Z.ltb_spec (memref_size (param ps 2)) SR_ETHEREUM_ADDRESS_SIZE); [lia|].
Qed.

Lemma valid_key_id_len_lt n : valid_key_id_len n = true -> n < SR_MAX_KEY_ID_SIZE.
Proof.
  unfold valid_key_id_len. intros H. apply negb_true_iff, orb_false_iff in H.
  destruct H as [_ H]. by destruct (Z.geb_spec n SR_MAX_KEY_ID_SIZE).
Qed.

(** *** Key identifiers as the lookup reads them *)

Lemma named_id_c_str p :
  memref_size p < SR_MAX_KEY_ID_SIZE -> terminated_id p ->
  c_str (memref_buffer p) 64 = named_id p.
Proof.
  intros Hlt Hterm. unfold named_id, declared_bytes. rewrite c_str_mem_read.
  unfold terminated_id in Hterm. change (Z.to_nat SR_MAX_KEY_ID_SIZE) with 64%nat in Hterm.
  symmetry. apply c_str_shorter; unfold SR_MAX_KEY_ID_SIZE in *; lia.
Qed.

Lemma stored_id_named p :
  memref_size p < SR_MAX_KEY_ID_SIZE ->
  c_str (stored_key_id (memref_buffer p) (memref_size p)) 64 = named_id p.
Proof.
  intros Hlt. rewrite stored_key_id_c_str by done.
  unfold named_id, declared_bytes. by rewrite c_str_mem_read.
Qed.

Lemma matches_named_id p e :
  memref_size p < SR_MAX_KEY_ID_SIZE -> terminated_id p ->
  matches (memref_buffer p) e <-> c_str (key_id e) 64 = named_id p.
Proof. intros Hlt Hterm. rewrite <- named_id_c_str by done. apply strncmp_c_str. Qed.

Lemma find_key_index_named p s :
  memref_size p < SR_MAX_KEY_ID_SIZE -> terminated_id p ->
  find_key_index (memref_buffer p) s < 0 <->
  Forall (fun e => c_str (key_id e) 64 <> named_id p) (live_entries s).
Proof.
  intros Hlt Hterm. unfold find_key_index. fold (live_entries s).
  rewrite find_from_none by done. apply Forall_iff. intros e.
  apply not_iff_compat. by apply matches_named_id.
Qed.

(** The identifier stored for a request does not match a request that
    names another identifier. *)
Lemma stored_id_no_match ps ps' e :
  generate_ok_request ps -> generate_ok_request ps' ->
  named_id (param ps 0) <> named_id (param ps' 0) ->
  key_id e = stored_id_of ps ->
  ~ matches (memref_buffer (param ps' 0)) e.
Proof.
  intros (_ & Hlen & _) (Hs' & Hlen' & _) Hne He Hm.
  apply valid_key_id_len_lt in Hlen, Hlen'.
  apply matches_named_id in Hm; [|done|done].
  rewrite He in Hm. unfold stored_id_of in Hm. rewrite stored_id_named in Hm by done.
  done.
Qed.

Lemma generate_all (reqs : list (list TEE_Param)) : forall (m : machine W) done,
  keygen_succeeds prim -> inv m ->
  Forall generate_ok_request done -> Forall generate_ok_request reqs ->
  key_id <$> live_entries (ta m) = stored_id_of <$> done ->
  NoDup ((fun ps => named_id (param ps 0)) <$> (done ++ reqs)) ->
  g_key_count (ta m) + Z.of_nat (length reqs) <= SR_MAX_KEYS ->
  let evs := InvokeCommand TA_SUPER_RELAY_CMD_GENERATE_KEY generate_key_types <$> reqs in
  run_codes prim evs m = replicate (length reqs) TEE_SUCCESS
  /\ g_key_count (ta (run prim evs m)) = g_key_count (ta m) + Z.of_nat (length reqs)
  /\ exists es,
       live_entries (ta (run prim evs m)) = live_entries (ta m) ++ es
       /\ key_id <$> es = stored_id_of <$> reqs
       /\ run_results prim evs m
          = (fun e => (TEE_SUCCESS, OutAddress (ethereum_address (info e)))) <$> es.
Proof.
  induction reqs as [|ps reqs IH]; intros m done0 Hok Hm Hdone Hreqs Hids Hnd Hroom; cbn zeta.
  - cbn. split; [done | split; [lia|]]. exists []. by rewrite app_nil_r.
  - cbn [fmap list_fmap run_codes run_results run length replicate].
    inversion Hreqs as [|? ? Hps Hreqs']; subst.
    assert (g_key_count (ta m) < SR_MAX_KEYS) as Hfull by (cbn [length] in Hroom; lia).
    assert (find_key_index (memref_buffer (param ps 0)) (ta m) < 0) as Hfind.
    { apply find_from_none; [done|]. fold (live_entries (ta m)).
      apply Forall_lookup. intros i e He.
      assert ((stored_id_of <$> done0) !! i = Some (key_id e)) as Hi
        by (by rewrite <- Hids, list_lookup_fmap, He).
      rewrite list_lookup_fmap in Hi.
      destruct (done0 !! i) as [ps0|] eqn:Hps0; [|done]. injection Hi as Hi.
      apply (stored_id_no_match ps0 ps); [| done | | done].
      - rewrite Forall_lookup in Hdone. by apply (Hdone i).
      - rewrite fmap_app in Hnd. apply NoDup_app in Hnd as (_ & Hdisj & _).
        intros Heq. apply (Hdisj (named_id (param ps0 0))).
        + apply list_elem_of_fmap. exists ps0. split; [done|].
          by apply list_elem_of_lookup_2 with i.
        + rewrite Heq. cbn. apply list_elem_of_here. }
    pose proof (cmd_generate_key_ok ps m Hok Hfull Hps Hfind) as Hres.
    rewrite step_generate.
    destruct (cmd_generate_key prim generate_key_types ps m) as [[res out] m'] eqn:E.
    cbn [fst snd] in *. subst res.
    pose proof (inv_step (InvokeCommand TA_SUPER_RELAY_CMD_GENERATE_KEY generate_key_types ps)
                  m Hm) as Hm'.
    rewrite step_generate, E in Hm'. cbn [snd] in Hm'.
    apply cmd_generate_key_success in E. cbn zeta in E.
    destruct E as (_ & _ & _ & _ & _ & _ & r0 & r1 & r2 & r3 & rx & ry & rd & rf
                   & _ & _ & _ & _ & Hta & ->).
    set (e := generated_entry _ _ _ _ _ _ _) in *.
    destruct Hm as [Hc Hkl Hsl _ _].
    destruct (live_generated (ta m) e) as (Hc' & Hlive' & _); [lia | done | done |].
    rewrite <- Hta in Hc', Hlive'.
    destruct (IH m' (done0 ++ [ps])) as (Hcodes & Hfinal & es & Hlive & Hes & Hout); try done.
    + apply Forall_app. split; [done | by constructor].
    + by rewrite Hlive', !fmap_app, Hids.
    + by rewrite <- app_assoc.
    + cbn [length] in Hroom. lia.
    + split; [by rewrite Hcodes|]. split; [rewrite Hfinal, Hc'; cbn [length]; lia|].
      exists (e :: es). split; [by rewrite Hlive, Hlive', <- app_assoc|].
      split; [by rewrite fmap_cons, Hes|]. by rewrite fmap_cons, Hout.
Qed.
End Props.

(** * Further lemmas *)

Section Lookup.

Context {W : Type} (prim : prim_call -> W -> prim_ret * W).

(** *** Lookup and the identifiers created so far *)

Lemma live_boot (m0 : machine W) : live_entries (ta (boot prim m0)) = [].
Proof. reflexivity. Qed.

Lemma live_ids_created evs (m0 : machine W) :
  key_id <$> live_entries (ta (run prim evs (boot prim m0)))
  = created_ids prim evs (boot prim m0).
Proof. rewrite run_created_ids by apply inv_boot. by rewrite live_boot. Qed.

Lemma find_key_index_missing kid s :
  find_key_index kid s < 0 <->
  c_str kid 64 ∉ (fun id => c_str id 64) <$> (key_id <$> live_entries s).
Proof.
  unfold find_key_index. fold (live_entries s).
  rewrite find_from_none by done. rewrite Forall_forall. split.
  - intros H Hin. apply list_elem_of_fmap in Hin as (id & Hid & Hin).
    apply list_elem_of_fmap in Hin as (e & -> & He).
    apply (H e He). by apply strncmp_c_str.
  - intros H e He Hm. apply H. apply list_elem_of_fmap.
    exists (key_id e). split; [symmetry; by apply strncmp_c_str|].
    apply list_elem_of_fmap. by exists e.
Qed.

End Lookup.

Section Privacy.

Context {W : Type} (prim : prim_call -> W -> prim_ret * W).

(** *** What does not depend on private keys *)

Lemma public_view_eq s1 s2 :
  public_view s1 = public_view s2 <->
  g_keys s1 = g_keys s2 /\ g_key_count s1 = g_key_count s2
  /\ g_session_count s1 = g_session_count s2
  /\ g_operation_count s1 = g_operation_count s2
  /\ g_start_time s1 = g_start_time s2
  /\ erase_secret <$> g_key_storage s1 = erase_secret <$> g_key_storage s2.
Proof.
  destruct s1, s2. unfold public_view, set_g_key_storage. cbn. split.
  - intros [= -> -> -> -> -> ->]. done.
  - intros (-> & -> & -> & -> & -> & ->). done.
Qed.

Lemma key_id_erase_secret (l : list sr_key_entry_t) :
  key_id <$> (erase_secret <$> l) = key_id <$> l.
Proof. rewrite <- list_fmap_compose. done. Qed.

Lemma find_key_index_public kid s1 s2 :
  g_key_count s1 = g_key_count s2 ->
  erase_secret <$> g_key_storage s1 = erase_secret <$> g_key_storage s2 ->
  find_key_index kid s1 = find_key_index kid s2.
Proof.
  intros Hc Hst. apply find_key_index_ids. unfold live_entries. rewrite Hc.
  rewrite <- (key_id_erase_secret (take _ (g_key_storage s1))).
  rewrite <- (key_id_erase_secret (take _ (g_key_storage s2))).
  by rewrite !fmap_take, Hst.
Qed.

Lemma entry_at_public s1 s2 k :
  erase_secret <$> g_key_storage s1 = erase_secret <$> g_key_storage s2 ->
  erase_secret (entry_at s1 k) = erase_secret (entry_at s2 k).
Proof.
  intros Hst. unfold entry_at.
  assert ((erase_secret <$> g_key_storage s1) !! Z.to_nat k
          = (erase_secret <$> g_key_storage s2) !! Z.to_nat k) as H by (by rewrite Hst).
  rewrite !list_lookup_fmap in H.
  destruct (g_key_storage s1 !! Z.to_nat k), (g_key_storage s2 !! Z.to_nat k);
    cbn in *; congruence.
Qed.

Lemma call_world c (m1 m2 : machine W) :
  world m1 = world m2 ->
  (call prim c m1).1 = (call prim c m2).1
  /\ world (call prim c m1).2 = world (call prim c m2).2.
Proof. unfold call. cbn [fst snd world]. by intros ->. Qed.

(** Runs the next provider call on both sides of a goal that compares a
    function on two machines with the same world. *)
Ltac pair_call :=
  match goal with
  | |- context [call prim ?c ?ma] =>
      match goal with
      | Hw : world ma = world ?mb |- _ =>
          let Hr := fresh "Hr" in
          let Hw2 := fresh "Hw" in
          let Ha := fresh "Hta" in
          let Hb := fresh "Hta" in
          destruct (call_world c ma mb Hw) as [Hr Hw2];
          pose proof (call_ta prim c ma) as Ha;
          pose proof (call_ta prim c mb) as Hb;
          destruct (call prim c ma) as [? ?], (call prim c mb) as [? ?];
          cbn [fst snd] in Hr, Hw2, Ha, Hb; subst; cbv beta iota zeta
      end
  end.

(** The result of key generation depends on the provider's world only. *)
Lemma generate_secp256k1_keypair_world e (m1 m2 : machine W) :
  world m1 = world m2 ->
  (generate_secp256k1_keypair prim e m1).1 = (generate_secp256k1_keypair prim e m2).1
  /\ world (generate_secp256k1_keypair prim e m1).2
     = world (generate_secp256k1_keypair prim e m2).2.
Proof.
  intros Hw. unfold generate_secp256k1_keypair, derive_ethereum_address, free_keypair.
  cbv beta iota zeta.
  pair_call. destruct (negb _); [done|].
  pair_call. destruct (negb _); [cbn [fst snd]; split; [done|]; by apply call_world|].
  pair_call. destruct (negb _); [cbn [fst snd]; split; [done|]; by apply call_world|].
  pair_call. destruct (negb _); [cbn [fst snd]; split; [done|]; by apply call_world|].
  pair_call. destruct (negb _); [cbn [fst snd]; split; [done|]; by apply call_world|].
  pair_call. destruct (negb _); cbn [fst snd]; (split; [done|]; by apply call_world).
Qed.

Lemma cmd_generate_key_public pt ps (m1 m2 : machine W) :
  same_public m1 m2 ->
  (cmd_generate_key prim pt ps m1).1 = (cmd_generate_key prim pt ps m2).1
  /\ same_public (cmd_generate_key prim pt ps m1).2 (cmd_generate_key prim pt ps m2).2.
Proof.
  intros [Hpv Hw]. pose proof Hpv as Hpv'.
  apply public_view_eq in Hpv' as (Hk & Hc & Hs & Ho & Ht & Hst).
  pose proof (find_key_index_public (memref_buffer (param ps 0)) _ _ Hc Hst) as Hf.
  unfold cmd_generate_key. cbv beta iota zeta. rewrite Hc, Hf.
  destruct (negb (pt =? _)); [done|].
  destruct (_ >=? SR_MAX_KEYS); [done|].
  destruct (negb (valid_key_id_len _)); [done|].
  destruct (_ >=? SR_KEY_TYPE_MAX); [done|].
  destruct (_ >=? 0); [done|].
  unfold get_current_time. pair_call.
  match goal with
  | |- context [generate_secp256k1_keypair prim ?e ?ma] =>
      match goal with
      | Hw' : world ma = world ?mb |- _ =>
          destruct (generate_secp256k1_keypair_world e ma mb Hw') as [Hres Hw2];
          destruct (generate_secp256k1_keypair_frame prim e ma) as [Hta1 _];
          destruct (generate_secp256k1_keypair_frame prim e mb) as [Hta2 _];
          destruct (generate_secp256k1_keypair prim e ma) as [[res1 e1] ma'];
          destruct (generate_secp256k1_keypair prim e mb) as [[res2 e2] mb']
      end
  end.
  cbn [fst snd] in Hres, Hw2, Hta1, Hta2. injection Hres as -> ->.
  assert (forall (ma mb : machine W) (e : sr_key_entry_t),
            ta ma = ta m1 -> ta mb = ta m2 -> world ma = world mb ->
            same_public
              (with_ta ma (set_g_key_storage (ta ma)
                 (<[Z.to_nat (g_key_count (ta m2)) := e]> (g_key_storage (ta ma)))))
              (with_ta mb (set_g_key_storage (ta mb)
                 (<[Z.to_nat (g_key_count (ta m2)) := e]> (g_key_storage (ta mb)))))) as Hslot.
  { intros ma mb e Ha Hb Hwab. split; [|done]. apply public_view_eq.
    cbn. rewrite Ha, Hb, !list_fmap_insert, Hst. by repeat split. }
  destruct (value_a (param ps 1) =? SR_KEY_TYPE_ECDSA_SECP256K1).
  - destruct (negb (res2 =? TEE_SUCCESS)).
    { split; [done|]. apply Hslot; congruence. }
    destruct (_ <? SR_ETHEREUM_ADDRESS_SIZE).
    { split; [done|]. apply Hslot; congruence. }
    split; [done|]. split; [|done]. apply public_view_eq. cbn.
    rewrite Hta1, Hta2, Hta, Hta0, !list_fmap_insert, Hst, Hk, Hc, Hs, Ho, Ht. by repeat split.
  - destruct (value_a (param ps 1) =? SR_KEY_TYPE_ED25519).
    + cbn [negb Z.eqb TEE_ERROR_NOT_IMPLEMENTED TEE_SUCCESS]. split; [done|]. by apply Hslot.
    + cbn [negb Z.eqb TEE_ERROR_NOT_SUPPORTED TEE_SUCCESS]. split; [done|]. by apply Hslot.
Qed.

Lemma cmd_get_public_key_public pt ps (m1 m2 : machine W) :
  same_public m1 m2 ->
  (cmd_get_public_key pt ps m1).1 = (cmd_get_public_key pt ps m2).1
  /\ same_public (cmd_get_public_key pt ps m1).2 (cmd_get_public_key pt ps m2).2.
Proof.
  intros [Hpv Hw]. pose proof Hpv as Hpv'.
  apply public_view_eq in Hpv' as (Hk & Hc & Hs & Ho & Ht & Hst).
  pose proof (find_key_index_public (memref_buffer (param ps 0)) _ _ Hc Hst) as Hf.
  unfold cmd_get_public_key. cbv beta iota zeta. rewrite Hf.
  destruct (negb (pt =? _)); [done|].
  destruct (negb (valid_key_id_len _)); [done|].
  destruct (_ <? sizeof_sr_public_key_result_t); [done|].
  destruct (_ <? 0); [done|].
  pose proof (entry_at_public _ _
                (find_key_index (memref_buffer (param ps 0)) (ta m2)) Hst) as He.
  assert (public_key (entry_at (ta m1) (find_key_index (memref_buffer (param ps 0)) (ta m2)))
          = public_key (entry_at (ta m2) (find_key_index (memref_buffer (param ps 0)) (ta m2))))
    as -> by exact (f_equal public_key He).
  assert (public_key_len (entry_at (ta m1) (find_key_index (memref_buffer (param ps 0)) (ta m2)))
          = public_key_len
              (entry_at (ta m2) (find_key_index (memref_buffer (param ps 0)) (ta m2))))
    as -> by exact (f_equal public_key_len He).
  assert (info (entry_at (ta m1) (find_key_index (memref_buffer (param ps 0)) (ta m2)))
          = info (entry_at (ta m2) (find_key_index (memref_buffer (param ps 0)) (ta m2))))
    as -> by exact (f_equal info He).
  split; [done|]. split; [|done]. apply public_view_eq. cbn.
  rewrite ?Hk, ?Hc, ?Hs, ?Ho, ?Ht, ?Hst. by repeat split.
Qed.

Lemma step_public ev (m1 m2 : machine W) :
  same_public m1 m2 -> is_sign ev = false ->
  (step prim ev m1).1 = (step prim ev m2).1
  /\ same_public (step prim ev m1).2 (step prim ev m2).2.
Proof.
  intros Hsame Hev. pose proof Hsame as [Hpv Hw]. pose proof Hpv as Hpv'.
  apply public_view_eq in Hpv' as (Hk & Hc & Hs & Ho & Ht & Hst).
  destruct ev as [| |cmd_id pt ps]; cbn [step].
  - unfold TA_OpenSessionEntryPoint. cbn [fst snd]. split; [done|]. split; [|done].
    apply public_view_eq. cbn. rewrite ?Hk, ?Hc, ?Hs, ?Ho, ?Ht, ?Hst. by repeat split.
  - unfold TA_CloseSessionEntryPoint. rewrite Hs. cbn [fst snd]. split; [done|].
    destruct (_ >? 0); [|done]. split; [|done].
    apply public_view_eq. cbn. rewrite ?Hk, ?Hc, ?Hs, ?Ho, ?Ht, ?Hst. by repeat split.
  - cbn [is_sign] in Hev. unfold TA_InvokeCommandEntryPoint. rewrite Hev.
    destruct (cmd_id =? TA_SUPER_RELAY_CMD_GENERATE_KEY);
      [by apply cmd_generate_key_public|].
    destruct (cmd_id =? TA_SUPER_RELAY_CMD_GET_PUBLIC_KEY);
      [by apply cmd_get_public_key_public|].
    destruct (cmd_id =? TA_SUPER_RELAY_CMD_LIST_KEYS).
    { unfold cmd_list_keys. cbv beta iota zeta. rewrite Hk, Hc.
      destruct (negb (pt =? _)); [done|].
      destruct (_ <? sizeof_sr_key_list_result_t); [done|].
      split; [done|]. split; [|done]. apply public_view_eq. cbn.
      rewrite ?Hk, ?Hc, ?Hs, ?Ho, ?Ht, ?Hst. by repeat split. }
    destruct (cmd_id =? TA_SUPER_RELAY_CMD_GET_VERSION).
    { unfold cmd_get_version. cbv beta iota zeta.
      destruct (negb (pt =? _)); [done|].
      by destruct (_ <? sizeof_sr_version_info_t). }
    destruct (cmd_id =? TA_SUPER_RELAY_CMD_HEALTH_CHECK).
    { unfold cmd_health_check, get_current_time. cbv beta iota zeta.
      destruct (negb (pt =? _)); [done|].
      destruct (_ <? sizeof_sr_health_result_t); [done|].
      pair_call. rewrite Hc, Hs, Ho, Ht. split; [done|]. split; [|done].
      cbn [fst snd]. congruence. }
    by destruct (_ || _).
Qed.

Lemma run_public evs : forall m1 m2 : machine W,
  same_public m1 m2 -> Forall (fun ev => is_sign ev = false) evs ->
  run_results prim evs m1 = run_results prim evs m2
  /\ same_public (run prim evs m1) (run prim evs m2).
Proof.
  induction evs as [|ev evs IH]; intros m1 m2 Hsame Hevs; [done|].
  inversion Hevs as [|? ? Hev Hrest]; subst.
  destruct (step_public ev m1 m2 Hsame Hev) as [Hres Hsame'].
  destruct (IH _ _ Hsame' Hrest) as [Hresults Hfinal].
  cbn [run_results run]. by rewrite Hres, Hresults.
Qed.

End Privacy.

Section Health.

Context {W : Type} (prim : prim_call -> W -> prim_ret * W).

(** *** The counters reported by a health check *)

Lemma cmd_health_check_ok ps (m : machine W) :
  sizeof_sr_health_result_t <= memref_size (param ps 0) ->
  cmd_health_check prim output_only_types ps m
  = (TEE_SUCCESS,
     OutHealth
       (mk_health_result SR_SUCCESS (g_session_count (ta m)) (g_operation_count (ta m))
          (wrap32 (g_key_count (ta m) * sizeof_sr_key_entry_t))
          (wrap64 (wrap32 (ret_time (call prim TEE_GetSystemTime m).1)
                   - g_start_time (ta m)))),
     (call prim TEE_GetSystemTime m).2).
Proof.
  intros Hsize. unfold cmd_health_check, get_current_time. fold output_only_types.
  rewrite Z.eqb_refl. cbn [negb].
  destruct (Z.ltb_spec (memref_size (param ps 0)) sizeof_sr_health_result_t); [lia|].
  by destruct (call prim TEE_GetSystemTime m).
Qed.

Lemma step_operation_count ev (m : machine W) :
  g_operation_count (ta (step prim ev m).2)
  = if counted_operation prim ev m then wrap32 (g_operation_count (ta m) + 1)
    else g_operation_count (ta m).
Proof.
  destruct ev as [| |cmd_id pt ps]; [done | |].
  { cbn [step counted_operation snd]. unfold TA_CloseSessionEntryPoint.
    by destruct (_ >? 0). }
  unfold counted_operation.
  destruct (Z.eqb_spec cmd_id TA_SUPER_RELAY_CMD_GENERATE_KEY) as [->|Hg].
  { rewrite step_generate. cbn [orb andb].
    destruct (cmd_generate_key prim pt ps m) as [[res out] m'] eqn:E. cbn [fst snd].
    destruct (Z.eqb_spec res TEE_SUCCESS) as [->|Hres].
    - apply cmd_generate_key_success in E. cbn zeta in E.
      destruct E as (_ & _ & _ & _ & _ & _ & r0 & r1 & r2 & r3 & rx & ry & rd & rf
                     & _ & _ & _ & _ & -> & _). done.
    - destruct (cmd_generate_key_failure prim _ _ _ _ _ _ E Hres) as [_ [->|(e & extra & -> & _)]];
        done. }
  destruct (Z.eqb_spec cmd_id TA_SUPER_RELAY_CMD_SIGN_MESSAGE) as [->|Hs].
  { rewrite step_sign. cbn [orb andb].
    destruct (cmd_sign_message prim pt ps m) as [[res out] m'] eqn:E. cbn [fst snd].
    destruct (Z.eqb_spec res TEE_SUCCESS) as [->|Hres].
    - apply cmd_sign_message_success in E. cbn zeta in E.
      destruct E as (_ & _ & _ & _ & _ & _ & extra & r0 & r5 & _ & _ & _ & _ & -> & _). done.
    - destruct (cmd_sign_message_failure prim _ _ _ _ _ _ E Hres) as [-> _]. done. }
  cbn [step]. unfold TA_InvokeCommandEntryPoint.
  destruct (Z.eqb_spec cmd_id TA_SUPER_RELAY_CMD_GENERATE_KEY); [done|].
  destruct (Z.eqb_spec cmd_id TA_SUPER_RELAY_CMD_SIGN_MESSAGE); [done|].
  destruct (Z.eqb_spec cmd_id TA_SUPER_RELAY_CMD_GET_PUBLIC_KEY) as [->|Hp].
  { cbn [orb andb]. unfold cmd_get_public_key. cbv beta iota zeta.
    destruct (negb (pt =? _)); [done|].
    destruct (negb (valid_key_id_len _)); [done|].
    destruct (_ <? sizeof_sr_public_key_result_t); [done|].
    by destruct (_ <? 0). }
  destruct (Z.eqb_spec cmd_id TA_SUPER_RELAY_CMD_LIST_KEYS) as [->|Hl].
  { cbn [orb andb]. unfold cmd_list_keys. cbv beta iota zeta.
    destruct (negb (pt =? _)); [done|].
    by destruct (_ <? sizeof_sr_key_list_result_t). }
  cbn [orb andb].
  destruct (Z.eqb_spec cmd_id TA_SUPER_RELAY_CMD_GET_VERSION) as [->|Hv].
  { unfold cmd_get_version. cbv beta iota zeta.
    destruct (negb (pt =? _)); [done|].
    by destruct (_ <? sizeof_sr_version_info_t). }
  destruct (Z.eqb_spec cmd_id TA_SUPER_RELAY_CMD_HEALTH_CHECK) as [->|Hh].
  { unfold cmd_health_check, get_current_time. cbv beta iota zeta.
    destruct (negb (pt =? _)); [done|].
    destruct (_ <? sizeof_sr_health_result_t); [done|].
    pose proof (call_ta prim TEE_GetSystemTime m) as Hta.
    destruct (call prim TEE_GetSystemTime m) as [r m1]. cbn [fst snd] in *.
    by rewrite Hta. }
  by destruct (_ || _).
Qed.

Lemma run_operation_count evs : forall m : machine W,
  0 <= g_operation_count (ta m) < 2 ^ 32 ->
  g_operation_count (ta (run prim evs m))
  = wrap32 (g_operation_count (ta m) + counted_operations prim evs m).
Proof.
  induction evs as [|ev evs IH]; intros m Hm; cbn [run counted_operations].
  - rewrite Z.add_0_r. symmetry. by apply wrap32_small.
  - pose proof (step_operation_count ev m) as Hstep.
    rewrite IH.
    + rewrite Hstep. destruct (counted_operation prim ev m).
      * unfold wrap32. rewrite Zplus_mod_idemp_l. f_equal; lia.
      * f_equal; lia.
    + rewrite Hstep. destruct (counted_operation prim ev m); [apply wrap32_range | done].
Qed.

(** The commands that neither create a key nor sign change no global but
    the operation counter. *)
Lemma query_frame cmd_id pt ps (m : machine W) :
  cmd_id <> TA_SUPER_RELAY_CMD_GENERATE_KEY ->
  cmd_id <> TA_SUPER_RELAY_CMD_SIGN_MESSAGE ->
  let m' := (TA_InvokeCommandEntryPoint prim cmd_id pt ps m).2 in
  (ta m' = ta m
   \/ ta m' = set_g_operation_count (ta m) (wrap32 (g_operation_count (ta m) + 1)))
  /\ (trace m' = trace m
      \/ cmd_id = TA_SUPER_RELAY_CMD_HEALTH_CHECK
         /\ trace m' = trace m ++ [(TEE_GetSystemTime, (call prim TEE_GetSystemTime m).1)]).
Proof.
  intros Hg Hs. unfold TA_InvokeCommandEntryPoint.
  destruct (Z.eqb_spec cmd_id TA_SUPER_RELAY_CMD_GENERATE_KEY); [done|].
  destruct (Z.eqb_spec cmd_id TA_SUPER_RELAY_CMD_SIGN_MESSAGE); [done|].
  destruct (Z.eqb_spec cmd_id TA_SUPER_RELAY_CMD_GET_PUBLIC_KEY) as [->|Hp].
  { unfold cmd_get_public_key. cbv beta iota zeta.
    destruct (negb (pt =? _)); [by split; left|].
    destruct (negb (valid_key_id_len _)); [by split; left|].
    destruct (_ <? sizeof_sr_public_key_result_t); [by split; left|].
    destruct (_ <? 0); [by split; left|]. split; [by right | by left]. }
  destruct (Z.eqb_spec cmd_id TA_SUPER_RELAY_CMD_LIST_KEYS) as [->|Hl].
  { unfold cmd_list_keys. cbv beta iota zeta.
    destruct (negb (pt =? _)); [by split; left|].
    destruct (_ <? sizeof_sr_key_list_result_t); [by split; left|].
    split; [by right | by left]. }
  destruct (Z.eqb_spec cmd_id TA_SUPER_RELAY_CMD_GET_VERSION) as [->|Hv].
  { unfold cmd_get_version. cbv beta iota zeta.
    destruct (negb (pt =? _)); [by split; left|].
    destruct (_ <? sizeof_sr_version_info_t); by split; left. }
  destruct (Z.eqb_spec cmd_id TA_SUPER_RELAY_CMD_HEALTH_CHECK) as [->|Hh].
  { unfold cmd_health_check, get_current_time. cbv beta iota zeta.
    destruct (negb (pt =? _)); [by split; left|].
    destruct (_ <? sizeof_sr_health_result_t); [by split; left|].
    pose proof (call_ta prim TEE_GetSystemTime m) as Hta.
    pose proof (call_trace prim TEE_GetSystemTime m) as Htr.
    destruct (call prim TEE_GetSystemTime m) as [r m1]. cbn [fst snd] in *.
    split; [by left | by right]. }
  destruct (_ || _); by split; left.
Qed.

Lemma step_start_time ev (m : machine W) :
  g_start_time (ta (step prim ev m).2) = g_start_time (ta m).
Proof.
  destruct ev as [| |cmd_id pt ps]; [done | |].
  { cbn [step snd]. unfold TA_CloseSessionEntryPoint. by destruct (_ >? 0). }
  destruct (Z.eq_dec cmd_id TA_SUPER_RELAY_CMD_GENERATE_KEY) as [->|Hg].
  { rewrite step_generate.
    destruct (cmd_generate_key prim pt ps m) as [[res out] m'] eqn:E. cbn [fst snd].
    destruct (Z.eq_dec res TEE_SUCCESS) as [->|Hres].
    - apply cmd_generate_key_success in E. cbn zeta in E.
      destruct E as (_ & _ & _ & _ & _ & _ & r0 & r1 & r2 & r3 & rx & ry & rd & rf
                     & _ & _ & _ & _ & -> & _). done.
    - destruct (cmd_generate_key_failure prim _ _ _ _ _ _ E Hres) as [_ [->|(e & extra & -> & _)]];
        done. }
  destruct (Z.eq_dec cmd_id TA_SUPER_RELAY_CMD_SIGN_MESSAGE) as [->|Hs].
  { rewrite step_sign.
    destruct (cmd_sign_message prim pt ps m) as [[res out] m'] eqn:E. cbn [fst snd].
    destruct (Z.eq_dec res TEE_SUCCESS) as [->|Hres].
    - apply cmd_sign_message_success in E. cbn zeta in E.
      destruct E as (_ & _ & _ & _ & _ & _ & extra & r0 & r5 & _ & _ & _ & _ & -> & _). done.
    - destruct (cmd_sign_message_failure prim _ _ _ _ _ _ E Hres) as [-> _]. done. }
  cbn [step]. by destruct (query_frame cmd_id pt ps m Hg Hs) as [[->| ->] _].
Qed.

Lemma run_start_time evs : forall m : machine W,
  g_start_time (ta (run prim evs m)) = g_start_time (ta m).
Proof.
  induction evs as [|ev evs IH]; intros m; [done|].
  cbn [run]. by rewrite IH, step_start_time.
Qed.

End Health.

Section Unique.

Context {W : Type} (prim : prim_call -> W -> prim_ret * W).

(** *** Uniqueness of key identifiers *)

Lemma live_ids_alt s :
  live_ids s = (fun id => c_str id 64) <$> (key_id <$> live_entries s).
Proof. unfold live_ids. by rewrite <- list_fmap_compose. Qed.

Lemma live_ids_step ev (m : machine W) :
  inv m ->
  live_ids (ta (step prim ev m).2)
  = live_ids (ta m) ++ ((fun id => c_str id 64) <$> created_ids prim [ev] m).
Proof.
  intros Hm. by rewrite !live_ids_alt, (step_created_ids prim ev m Hm), fmap_app.
Qed.

Lemma step_unique ev (m : machine W) :
  inv m -> NoDup (live_ids (ta m)) -> terminated_ids [ev] ->
  NoDup (live_ids (ta (step prim ev m).2)).
Proof.
  intros Hm Hnd Hev. rewrite live_ids_step by done.
  destruct ev as [| |cmd_id pt ps]; cbn [created_ids]; try (by rewrite app_nil_r).
  destruct (Z.eqb_spec cmd_id TA_SUPER_RELAY_CMD_GENERATE_KEY) as [->|];
    [|by rewrite app_nil_r].
  rewrite step_generate.
  destruct (cmd_generate_key prim pt ps m) as [[res out] m'] eqn:E. cbn [fst snd andb].
  destruct (Z.eqb_spec res TEE_SUCCESS) as [->|]; [|by rewrite app_nil_r].
  apply cmd_generate_key_success in E. cbn zeta in E.
  destruct E as (_ & _ & Hlen & _ & Hfind & _).
  apply valid_key_id_len_lt in Hlen.
  apply find_key_index_missing in Hfind.
  apply Forall_inv in Hev. specialize (Hev eq_refl). unfold terminated_id in Hev.
  change (Z.to_nat SR_MAX_KEY_ID_SIZE) with 64%nat in Hev.
  cbn [app fmap list_fmap]. rewrite stored_key_id_c_str by done.
  rewrite (c_str_shorter 64 _ (Z.to_nat (memref_size (param ps 0))));
    [|done|unfold SR_MAX_KEY_ID_SIZE in Hlen; lia].
  apply NoDup_app. split; [done|]. split; [|apply NoDup_singleton].
  intros id Hid Hin. apply list_elem_of_singleton in Hin as ->.
  apply Hfind. by rewrite <- live_ids_alt.
Qed.

Lemma run_unique evs : forall m : machine W,
  inv m -> NoDup (live_ids (ta m)) -> terminated_ids evs ->
  NoDup (live_ids (ta (run prim evs m))).
Proof.
  induction evs as [|ev evs IH]; intros m Hm Hnd Hevs; [done|].
  inversion Hevs as [|? ? Hev Hrest]; subst. cbn [run].
  apply IH; [by apply inv_step | | done].
  apply step_unique; [done | done | by constructor].
Qed.

End Unique.

Section Handles.

Context {W : Type} (prim : prim_call -> W -> prim_ret * W).

(** *** Handles are released *)

Lemma open_objects_app tr1 tr2 :
  open_objects (tr1 ++ tr2) = open_objects tr1 + open_objects tr2.
Proof.
  unfold open_objects. induction tr1 as [|cr tr1 IH]; cbn [app foldr]; [done|].
  rewrite IH. lia.
Qed.

Lemma open_operations_app tr1 tr2 :
  open_operations (tr1 ++ tr2) = open_operations tr1 + open_operations tr2.
Proof.
  unfold open_operations. induction tr1 as [|cr tr1 IH]; cbn [app foldr]; [done|].
  rewrite IH. lia.
Qed.

Ltac count_handles :=
  unfold balanced_with;
  rewrite ?open_objects_app, ?open_operations_app;
  unfold open_objects, open_operations;
  cbn [foldr object_delta operation_delta fst snd];
  repeat match goal with
         | R : (ret_code _ =? TEE_SUCCESS) = _ |- _ => rewrite !R; clear R
         end;
  lia.

Lemma sign_message_ecdsa_balance e h r (m : machine W) :
  balanced_with (trace m) (trace (sign_message_ecdsa prim e h r m).2).
Proof.
  unfold sign_message_ecdsa, free_sign, call.
  cbn [fst snd ta world trace].
  repeat lazymatch goal with
  | |- context [if negb (ret_code ?r =? TEE_SUCCESS) then _ else _] =>
      let R := fresh "R" in
      destruct (ret_code r =? TEE_SUCCESS) eqn:R; cbn [negb fst snd ta world trace]
  end; count_handles.
Qed.

Lemma generate_secp256k1_keypair_balance e (m : machine W) :
  balanced_with (trace m) (trace (generate_secp256k1_keypair prim e m).2).
Proof.
  unfold generate_secp256k1_keypair, free_keypair, derive_ethereum_address, call.
  cbn [fst snd ta world trace].
  repeat lazymatch goal with
  | |- context [if negb (ret_code ?r =? TEE_SUCCESS) then _ else _] =>
      let R := fresh "R" in
      destruct (ret_code r =? TEE_SUCCESS) eqn:R; cbn [negb fst snd ta world trace]
  end; count_handles.
Qed.

Lemma balanced_with_refl tr : balanced_with tr tr.
Proof. by split. Qed.

Lemma balanced_with_trans tr1 tr2 tr3 :
  balanced_with tr1 tr2 -> balanced_with tr2 tr3 -> balanced_with tr1 tr3.
Proof. intros [H1 H2] [H3 H4]. split; congruence. Qed.

Lemma balanced_with_clock tr r : balanced_with tr (tr ++ [(TEE_GetSystemTime, r)]).
Proof. count_handles. Qed.

Lemma get_current_time_balance (m : machine W) :
  balanced_with (trace m) (trace (get_current_time prim m).2).
Proof.
  unfold get_current_time. pose proof (call_trace prim TEE_GetSystemTime m) as Htr.
  destruct (call prim TEE_GetSystemTime m) as [r m1]. cbn [fst snd] in *.
  rewrite Htr. apply balanced_with_clock.
Qed.

Lemma cmd_generate_key_balance pt ps (m : machine W) :
  balanced_with (trace m) (trace (cmd_generate_key prim pt ps m).2).
Proof.
  unfold cmd_generate_key. cbv beta iota zeta.
  destruct (negb (pt =? _)); [apply balanced_with_refl|].
  destruct (_ >=? SR_MAX_KEYS); [apply balanced_with_refl|].
  destruct (negb (valid_key_id_len _)); [apply balanced_with_refl|].
  destruct (_ >=? SR_KEY_TYPE_MAX); [apply balanced_with_refl|].
  destruct (_ >=? 0); [apply balanced_with_refl|].
  pose proof (get_current_time_balance m) as Hclock.
  destruct (get_current_time prim m) as [now m1]. cbn [fst snd] in Hclock.
  destruct (value_a (param ps 1) =? SR_KEY_TYPE_ECDSA_SECP256K1).
  - match goal with
    | |- context [generate_secp256k1_keypair prim ?e m1] =>
        pose proof (generate_secp256k1_keypair_balance e m1) as Hgen;
        destruct (generate_secp256k1_keypair prim e m1) as [[res e3] m2]
    end.
    cbn [fst snd] in Hgen.
    assert (balanced_with (trace m) (trace m2)) as H by (by eapply balanced_with_trans).
    destruct (negb (res =? TEE_SUCCESS)); [exact H|].
    by destruct (_ <? SR_ETHEREUM_ADDRESS_SIZE).
  - by destruct (value_a (param ps 1) =? SR_KEY_TYPE_ED25519).
Qed.

Lemma cmd_sign_message_balance pt ps (m : machine W) :
  balanced_with (trace m) (trace (cmd_sign_message prim pt ps m).2).
Proof.
  unfold cmd_sign_message. cbv beta iota zeta.
  destruct (negb (pt =? _)); [apply balanced_with_refl|].
  destruct (negb (valid_key_id_len _)); [apply balanced_with_refl|].
  destruct (negb (_ =? SR_MESSAGE_HASH_SIZE)); [apply balanced_with_refl|].
  destruct (_ <? sizeof_sr_signature_result_t); [apply balanced_with_refl|].
  destruct (_ <? 0); [apply balanced_with_refl|].
  destruct (negb (_ =? SR_KEY_STATUS_ACTIVE)); [apply balanced_with_refl|].
  destruct (key_type _ =? SR_KEY_TYPE_ECDSA_SECP256K1).
  - match goal with
    | |- context [sign_message_ecdsa prim ?e ?h ?r m] =>
        pose proof (sign_message_ecdsa_balance e h r m) as Hsign;
        destruct (sign_message_ecdsa prim e h r m) as [[res r1] m1]
    end.
    cbn [fst snd] in Hsign.
    destruct (res =? TEE_SUCCESS); [|exact Hsign].
    pose proof (get_current_time_balance m1) as Hclock.
    destruct (get_current_time prim m1) as [now m2]. cbn [fst snd] in Hclock.
    by eapply balanced_with_trans.
  - destruct (key_type _ =? SR_KEY_TYPE_ED25519); apply balanced_with_refl.
Qed.

Lemma step_balance ev (m : machine W) :
  balanced_with (trace m) (trace (step prim ev m).2).
Proof.
  destruct ev as [| |cmd_id pt ps]; [apply balanced_with_refl | |].
  { cbn [step snd]. unfold TA_CloseSessionEntryPoint.
    destruct (_ >? 0); apply balanced_with_refl. }
  destruct (Z.eq_dec cmd_id TA_SUPER_RELAY_CMD_GENERATE_KEY) as [->|Hg].
  { rewrite step_generate. apply cmd_generate_key_balance. }
  destruct (Z.eq_dec cmd_id TA_SUPER_RELAY_CMD_SIGN_MESSAGE) as [->|Hs].
  { rewrite step_sign. apply cmd_sign_message_balance. }
  cbn [step]. destruct (query_frame prim cmd_id pt ps m Hg Hs) as [_ [->|[_ ->]]].
  - apply balanced_with_refl.
  - apply balanced_with_clock.
Qed.

Lemma run_balance evs : forall m : machine W,
  balanced_with (trace m) (trace (run prim evs m)).
Proof.
  induction evs as [|ev evs IH]; intros m; [apply balanced_with_refl|].
  cbn [run]. eapply balanced_with_trans; [apply step_balance | apply IH].
Qed.

End Handles.

Section SignCalls.

Context {W : Type} (prim : prim_call -> W -> prim_ret * W).

(** *** The provider calls of a signature *)

Lemma sign_message_ecdsa_calls e h r (m : machine W) r' m' :
  sign_message_ecdsa prim e h r m = (TEE_SUCCESS, r', m') ->
  exists r1 r2 r3 r4 r5 r6 r7,
    trace m' = trace m ++
      [(TEE_AllocateTransientObject TEE_TYPE_ECDSA_KEYPAIR 256, r1);
       (TEE_PopulateTransientObject TEE_ATTR_ECC_PRIVATE_VALUE
          (mem_read (private_key e) (Z.to_nat (private_key_len e))), r2);
       (TEE_AllocateOperation TEE_ALG_ECDSA_P256 TEE_MODE_SIGN 256, r3);
       (TEE_SetOperationKey, r4);
       (TEE_AsymmetricSignDigest (mem_read h 32) 64, r5);
       (TEE_FreeOperation, r6);
       (TEE_FreeTransientObject, r7)]
    /\ ret_code r5 = TEE_SUCCESS
    /\ ta m' = ta m
    /\ r' = mk_signature_result (memcpy_at (signature r) 0 (out_bytes 64 r5))
              (Z.of_nat (length (out_bytes 64 r5))) 0 (sig_reserved r).
Proof.
  unfold sign_message_ecdsa, free_sign, call.
  cbn [fst snd ta world trace].
  repeat lazymatch goal with
  | |- (if negb (ret_code ?r =? TEE_SUCCESS) then _ else _) = _ -> _ =>
      let R := fresh "R" in
      destruct (ret_code r =? TEE_SUCCESS) eqn:R; cbn [negb];
      [| intros [= H _ _]; rewrite H in R; discriminate R]
  end.
  intros [= Hr <- <-]. cbn [trace ta]. eexists _, _, _, _, _, _, _.
  split; [rewrite <- !app_assoc; cbn [app]; reflexivity|].
  split; [exact Hr|]. split; reflexivity.
Qed.

End SignCalls.

Section Status.

Context {W : Type} (prim : prim_call -> W -> prim_ret * W).

(** *** The result code of a signature comes from the provider *)

Lemma sign_message_ecdsa_code e h r (m : machine W) :
  exists c rr,
    (c, rr) ∈ drop (length (trace m)) (trace (sign_message_ecdsa prim e h r m).2)
    /\ ret_code rr = (sign_message_ecdsa prim e h r m).1.1.
Proof.
  unfold sign_message_ecdsa, free_sign, call.
  cbn [fst snd ta world trace].
  repeat lazymatch goal with
  | |- context [if negb (ret_code ?r =? TEE_SUCCESS) then _ else _] =>
      destruct (ret_code r =? TEE_SUCCESS); cbn [negb fst snd ta world trace]
  end;
    rewrite <- ?app_assoc, drop_app_length; cbn [app];
    eexists _, _; (split; [|reflexivity]);
    repeat first [apply list_elem_of_here | apply list_elem_of_further].
Qed.

End Status.

Section Retry.

Context {W : Type} (prim : prim_call -> W -> prim_ret * W).

(** *** When key generation succeeds *)

Lemma cmd_generate_key_succeeds ps (m : machine W) :
  keygen_succeeds prim ->
  g_key_count (ta m) < SR_MAX_KEYS ->
  valid_key_id_len (memref_size (param ps 0)) = true ->
  value_a (param ps 1) = SR_KEY_TYPE_ECDSA_SECP256K1 ->
  SR_ETHEREUM_ADDRESS_SIZE <= memref_size (param ps 2) ->
  find_key_index (memref_buffer (param ps 0)) (ta m) < 0 ->
  (cmd_generate_key prim generate_key_types ps m).1.1 = TEE_SUCCESS.
Proof.
  intros Hok Hfull Hlen Hty Hout Hfind.
  unfold cmd_generate_key. fold generate_key_types. rewrite Z.eqb_refl, Hlen, Hty. cbn [negb].
  destruct (Z.geb_spec (g_key_count (ta m)) SR_MAX_KEYS); [lia|].
  destruct (Z.geb_spec SR_KEY_TYPE_ECDSA_SECP256K1 SR_KEY_TYPE_MAX); [done|].
  destruct (Z.geb_spec (find_key_index (memref_buffer (param ps 0)) (ta m)) 0); [lia|].
  rewrite Z.eqb_refl. unfold get_current_time.
  destruct (call prim TEE_GetSystemTime m) as [r0 m1].
  match goal with |- context [generate_secp256k1_keypair prim ?e ?m] =>
    pose proof (generate_secp256k1_keypair_ok prim e m Hok) as Hg;
    destruct (generate_secp256k1_keypair prim e m) as [[res e3] m2] end.
  cbn [fst snd] in Hg. subst res. cbn [Z.eqb TEE_SUCCESS negb].
  by destruct (Z.ltb_spec (memref_size (param ps 2)) SR_ETHEREUM_ADDRESS_SIZE); [lia|].
Qed.

(** *** When key generation fails *)

Lemma failed_generate_facts pt ps (m : machine W) res out m' :
  cmd_generate_key prim pt ps m = (res, out, m') -> res <> TEE_SUCCESS ->
  out = OutNone
  /\ g_key_count (ta m') = g_key_count (ta m)
  /\ live_entries (ta m') = live_entries (ta m)
  /\ (forall kid, find_key_index kid (ta m') = find_key_index kid (ta m)).
Proof.
  intros E Hres.
  destruct (cmd_generate_key_failure prim _ _ _ _ _ _ E Hres) as [-> [->|(e & extra & Hta & _)]];
    [done|].
  assert (live_entries (ta m') = live_entries (ta m)) as Hlive.
  { rewrite Hta. unfold live_entries. cbn [set_g_key_storage g_key_count g_key_storage].
    by rewrite take_insert_ge. }
  split; [done|]. split; [by rewrite Hta|]. split; [done|].
  intros kid. unfold find_key_index. fold (live_entries (ta m)) (live_entries (ta m')).
  by rewrite Hlive.
Qed.

End Retry.

Section Bounds.

Context {W : Type} (prim : prim_call -> W -> prim_ret * W).

(** *** Array bounds *)

Lemma generated_entry_bounds kid len now r3 rx ry rd :
  len < SR_MAX_KEY_ID_SIZE ->
  entry_bounds (generated_entry kid len now r3 rx ry rd).
Proof.
  intros Hlen.
  pose proof (out_bytes_length 32 r3) as H3.
  pose proof (out_bytes_length 32 rx) as Hx.
  pose proof (out_bytes_length 32 ry) as Hy.
  split; cbn [generated_entry key_id private_key public_key private_key_len
              public_key_len info info_key_id ethereum_address].
  - by apply stored_key_id_length.
  - rewrite stored_key_id_c_str by done.
    pose proof (c_str_length (Z.to_nat len) kid). unfold SR_MAX_KEY_ID_SIZE in Hlen. lia.
  - rewrite memcpy_at_length; rewrite zeros_length; [done | lia].
  - by apply public_key_length.
  - lia.
  - rewrite wrap32_small; lia.
  - rewrite info_key_id_copy by done. by apply stored_key_id_length.
  - destruct (ret_code rd =? TEE_SUCCESS); [apply address_length | apply zeros_length].
Qed.

Lemma entry_bounds_set_usage e now n :
  entry_bounds e -> entry_bounds (set_info e (set_usage (info e) now n)).
Proof. intros [? ? ? ? ? ? ? ?]. by split. Qed.

Lemma step_bounds ev (m : machine W) :
  inv m -> Forall entry_bounds (live_entries (ta m)) ->
  Forall entry_bounds (live_entries (ta (step prim ev m).2)).
Proof.
  intros Hm Hb. destruct (step_cases prim m ev) as [pt ps -> Hres|pt ps -> Hres|Hun _ _].
  - rewrite step_generate in *.
    destruct (cmd_generate_key prim pt ps m) as [[res out] m'] eqn:E. cbn [fst snd] in *.
    subst res. apply cmd_generate_key_success in E. cbn zeta in E.
    destruct E as (_ & Hfull & Hlen & _ & _ & _ & r0 & r1 & r2 & r3 & rx & ry & rd & rf
                   & _ & _ & _ & _ & -> & _).
    destruct Hm as [Hc Hk Hs _ _].
    destruct (live_generated (ta m) (generated_entry (memref_buffer (param ps 0))
                (memref_size (param ps 0)) (wrap32 (ret_time r0)) r3 rx ry rd))
      as (_ & -> & _); [lia | done | done |].
    apply Forall_app. split; [done|]. constructor; [|done].
    apply generated_entry_bounds. by apply valid_key_id_len_lt.
  - rewrite step_sign in *.
    destruct (cmd_sign_message prim pt ps m) as [[res out] m'] eqn:E. cbn [fst snd] in *.
    subst res. apply cmd_sign_message_success in E. cbn zeta in E.
    destruct E as (_ & _ & _ & Hk & _ & _ & extra & r0 & r5 & _ & _ & _ & _ & -> & _).
    pose proof (find_key_index_bounds (memref_buffer (param ps 0)) (ta m)) as Hkb.
    destruct Hm as [Hc Hkl Hs Hl Hlive].
    destruct (live_signed (ta m) (find_key_index (memref_buffer (param ps 0)) (ta m))
                (wrap32 (ret_time r0))) as (_ & -> & _); [lia|].
    apply Forall_insert; [done|]. apply entry_bounds_set_usage.
    destruct (find_key_index_entry _ _ Hk) as [He _].
    rewrite Forall_lookup in Hb. by apply (Hb _ _ He).
  - by destruct (live_untouched _ _ Hun) as [-> _].
Qed.

Lemma run_bounds evs : forall m : machine W,
  inv m -> Forall entry_bounds (live_entries (ta m)) ->
  Forall entry_bounds (live_entries (ta (run prim evs m))).
Proof.
  induction evs as [|ev evs IH]; intros m Hm Hb; [done|].
  cbn [run]. apply IH; [by apply inv_step | by apply step_bounds].
Qed.

End Bounds.

Section SignFailure.

Context {W : Type} (prim : prim_call -> W -> prim_ret * W).

(** *** A signature that fails *)

Lemma sign_message_ecdsa_failure e h r (m : machine W) :
  (sign_message_ecdsa prim e h r m).1.1 <> TEE_SUCCESS ->
  (sign_message_ecdsa prim e h r m).1.2 = r.
Proof.
  unfold sign_message_ecdsa, free_sign, call.
  cbn [fst snd ta world trace].
  repeat lazymatch goal with
  | |- context [if negb (ret_code ?r =? TEE_SUCCESS) then _ else _] =>
      let R := fresh "R" in
      destruct (ret_code r =? TEE_SUCCESS) eqn:R; cbn [negb fst snd]
  end; try done.
  intros H. exfalso. apply H. by apply Z.eqb_eq.
Qed.

End SignFailure.

Section Lifecycle.

Context {W : Type} (prim : prim_call -> W -> prim_ret * W).

(** *** Tables that hold no key *)

Lemma find_from_zero_entries (n : nat) : forall i kid,
  c_str kid 64 <> [] ->
  find_from i (replicate n zero_key_entry) kid = -1.
Proof.
  induction n as [|n IH]; intros i kid Hkid; cbn [replicate find_from]; [done|].
  destruct (Z.eqb_spec (strncmp (key_id zero_key_entry) kid (Z.to_nat SR_MAX_KEY_ID_SIZE)) 0)
    as [Heq|]; [|by apply IH].
  apply strncmp_c_str in Heq. change (Z.to_nat SR_MAX_KEY_ID_SIZE) with 64%nat in Heq.
  exfalso. apply Hkid. rewrite <- Heq. reflexivity.
Qed.

End Lifecycle.

(** * Specification properties *)

(** ** C1: the address returned by generate_key *)

(** C1 (as amended). A successful [generate_key] asks the provider, in
    this order, for the clock, a key pair, its private value, its public
    coordinates X and Y, and the SHA-256 digest of the 64-byte [public_key]
    array holding X at offset 0 and Y at offset 32 (X followed by Y when
    both have 32 bytes). The address written to the output is 20 bytes
    long; it is bytes 12..31 of that digest when the digest call succeeds,
    and twenty zero bytes when the digest call fails. *)
Theorem generate_key_address {W} (prim : prim_call -> W -> prim_ret * W)
    (pt : Z) (ps : list TEE_Param) (m : machine W) (out : output) (m' : machine W) :
  cmd_generate_key prim pt ps m = (TEE_SUCCESS, out, m') ->
  exists address r0 r1 r2 r3 rx ry rd rf,
    let pub := memcpy_at (memcpy_at (zeros 64) 0 (out_bytes 32 rx)) 32 (out_bytes 32 ry) in
    out = OutAddress address
    /\ length address = Z.to_nat SR_ETHEREUM_ADDRESS_SIZE
    /\ trace m' = trace m ++
         [(TEE_GetSystemTime, r0);
          (TEE_AllocateTransientObject TEE_TYPE_ECDSA_KEYPAIR 256, r1);
          (TEE_GenerateKey 256, r2);
          (TEE_GetObjectBufferAttribute TEE_ATTR_ECC_PRIVATE_VALUE 32, r3);
          (TEE_GetObjectBufferAttribute TEE_ATTR_ECC_PUBLIC_VALUE_X 32, rx);
          (TEE_GetObjectBufferAttribute TEE_ATTR_ECC_PUBLIC_VALUE_Y 32, ry);
          (TEE_DigestDoFinal TEE_ALG_SHA256 pub 32, rd);
          (TEE_FreeTransientObject, rf)]
    /\ length pub = 64%nat
    /\ (length (ret_bytes rx) = 32%nat -> length (ret_bytes ry) = 32%nat ->
        pub = ret_bytes rx ++ ret_bytes ry)
    /\ (ret_code rd = TEE_SUCCESS -> length (ret_bytes rd) = 32%nat ->
        address = take 20 (drop 12 (ret_bytes rd)))
    /\ (ret_code rd <> TEE_SUCCESS -> address = zeros 20).
Proof.
  intros E. apply cmd_generate_key_success in E. cbn zeta in E.
  destruct E as (_ & _ & _ & _ & _ & _ & r0 & r1 & r2 & r3 & rx & ry & rd & rf
                 & Htr & _ & _ & _ & _ & Hout).
  cbn [generated_entry public_key info ethereum_address] in Htr, Hout.
  pose proof (public_key_length (out_bytes 32 rx) (out_bytes 32 ry)
                (out_bytes_length 32 rx) (out_bytes_length 32 ry)) as Hpub.
  rewrite (mem_read_exact _ 64 Hpub) in Htr.
  eexists _, r0, r1, r2, r3, rx, ry, rd, rf. cbn zeta.
  split; [exact Hout|]. split; [|split; [exact Htr|split; [exact Hpub|split; [|split]]]].
  - destruct (ret_code rd =? TEE_SUCCESS); [apply address_length | apply zeros_length].
  - intros Hx Hy. rewrite !out_bytes_full by done. by apply public_key_concat.
  - intros Hc Hl. apply Z.eqb_eq in Hc. rewrite Hc, out_bytes_full by done.
    rewrite memcpy_at_full; [done|]. by rewrite zeros_length.
  - intros Hc. apply Z.eqb_neq in Hc. by rewrite Hc.
Qed.

Lemma generate_key_address_witness :
  let r := cmd_generate_key toy_prim generate_key_types
             [Memref (bytes_of "alice") 5; Value 0 0; Memref [] 20]
             (boot toy_prim toy_machine) in
  exists address pub rd,
    r.1.2 = OutAddress address
    /\ length address = 20%nat
    /\ trace r.2 !! 7%nat = Some (TEE_DigestDoFinal TEE_ALG_SHA256 pub 32, rd)
    /\ (ret_code rd = TEE_SUCCESS -> length (ret_bytes rd) = 32%nat ->
        address = take 20 (drop 12 (ret_bytes rd))).
Proof.
  cbn zeta.
  set (r := cmd_generate_key _ _ _ _).
  assert (r = (TEE_SUCCESS, r.1.2, r.2)) as Hr by (vm_compute; reflexivity).
  destruct (generate_key_address toy_prim _ _ _ _ _ Hr)
    as (address & r0 & r1 & r2 & r3 & rx & ry & rd & rf & Hout & Hlen & Htr & _ & _ & Hok & _).
  eexists address, _, rd. split; [exact Hout|]. split; [exact Hlen|].
  split; [|exact Hok]. rewrite Htr. reflexivity.
Defined.

(** C1 (as stated) fails when the provider's digest operation reports an
    error: [derive_ethereum_address] then zeroes the address and returns
    nothing, and [generate_key] still succeeds. The address is twenty zero
    bytes, not bytes 12..31 of a digest. *)
Lemma generate_key_address_without_digest :
  let r := cmd_generate_key toy_prim_no_digest generate_key_types
             [Memref (bytes_of "alice") 5; Value 0 0; Memref [] 20]
             (boot toy_prim_no_digest toy_machine) in
  exists pub rd,
    r.1 = (TEE_SUCCESS, OutAddress (zeros 20))
    /\ trace r.2 !! 7%nat = Some (TEE_DigestDoFinal TEE_ALG_SHA256 pub 32, rd)
    /\ pub = public_key (entry_at (ta r.2) 0)
    /\ ret_code rd <> TEE_SUCCESS
    /\ zeros 20 <> take 20 (drop 12 (ret_bytes rd)).
Proof.
  cbn zeta. eexists _, _. split; [vm_compute; reflexivity|].
  split; [vm_compute; reflexivity|]. vm_compute. repeat split; discriminate.
Qed.

(** ** C2: what list_keys shows *)

(** C2. After any run started by [TA_CreateEntryPoint], a [list_keys]
    with a large enough output buffer succeeds; its count is the number of
    live records; its first entries are the public metadata of the live
    records, in table order, the rest of the sixteen being zero; the key
    identifiers it shows are those stored by the successful [generate_key]
    commands of the run, in the order of the commands. The answer is the
    same in any other state that differs from this one in stored secret
    material only. *)
Theorem list_keys_output {W} (prim : prim_call -> W -> prim_ret * W)
    (m0 : machine W) (evs : list event) (ps : list TEE_Param) :
  sizeof_sr_key_list_result_t <= memref_size (param ps 0) ->
  let m := run prim evs (boot prim m0) in
  exists r m',
    cmd_list_keys output_only_types ps m = (TEE_SUCCESS, OutKeyList r, m')
    /\ key_count r = Z.of_nat (length (live_entries (ta m)))
    /\ length (keys r) = Z.to_nat SR_MAX_KEYS
    /\ take (Z.to_nat (key_count r)) (keys r) = info <$> live_entries (ta m)
    /\ drop (Z.to_nat (key_count r)) (keys r)
       = replicate (Z.to_nat SR_MAX_KEYS - Z.to_nat (key_count r)) zero_key_info
    /\ info_key_id <$> take (Z.to_nat (key_count r)) (keys r)
       = created_ids prim evs (boot prim m0)
    /\ (forall W' (m2 : machine W'),
          public_view (ta m2) = public_view (ta m) ->
          (cmd_list_keys output_only_types ps m2).1
          = (cmd_list_keys output_only_types ps m).1).
Proof.
  intros Hsize. cbn zeta. set (m := run prim evs (boot prim m0)).
  assert (inv m) as Hm by apply inv_run, inv_boot.
  pose proof Hm as [Hc Hkl Hsl Hlock Hlive]. unfold SR_MAX_KEYS in *.
  pose proof (live_length m Hm) as Hll.
  unfold cmd_list_keys. fold output_only_types. rewrite Z.eqb_refl. cbn [negb].
  destruct (Z.ltb_spec (memref_size (param ps 0)) sizeof_sr_key_list_result_t); [lia|].
  eexists _, _. split; [reflexivity|]. cbn [key_count keys].
  fold (live_infos (ta m)). unfold SR_MAX_KEYS.
  assert (length (live_infos (ta m)) = Z.to_nat (g_key_count (ta m))) as Hli
    by (unfold live_infos; rewrite length_take; lia).
  split; [lia|]. split; [|split; [|split; [|split]]].
  - rewrite length_app, length_drop, length_replicate, Hli. lia.
  - rewrite <- Hli, take_app_length. exact Hlock.
  - rewrite <- Hli at 1. rewrite drop_app_length, drop_replicate. done.
  - rewrite <- Hli, take_app_length, info_key_ids by done.
    unfold m. rewrite (run_created_ids prim evs (boot prim m0)) by apply inv_boot.
    done.
  - intros W' m2 Hview.
    assert (g_keys (ta m2) = g_keys (ta m)) as -> by apply (f_equal g_keys Hview).
    assert (g_key_count (ta m2) = g_key_count (ta m)) as ->
      by apply (f_equal g_key_count Hview).
    destruct (Z.ltb_spec (memref_size (param ps 0)) sizeof_sr_key_list_result_t); [lia|].
    done.
Qed.

Lemma list_keys_output_witness :
  let evs := [generate_request "alice" 0; generate_request "eve" 1;
              generate_request "bob" 0; sign_request "bob" (replicate 32 Byte.x07)] in
  exists r m',
    cmd_list_keys output_only_types [Memref [] sizeof_sr_key_list_result_t]
      (run toy_prim evs (boot toy_prim toy_machine))
    = (TEE_SUCCESS, OutKeyList r, m')
    /\ key_count r = 2
    /\ (fun id => c_str id 64) <$> (info_key_id <$> take 2 (keys r))
       = [bytes_of "alice"; bytes_of "bob"].
Proof.
  cbn zeta.
  destruct (list_keys_output toy_prim toy_machine
              [generate_request "alice" 0; generate_request "eve" 1;
               generate_request "bob" 0; sign_request "bob" (replicate 32 Byte.x07)]
              [Memref [] sizeof_sr_key_list_result_t])
    as (r & m' & Hlist & Hcount & _ & _ & _ & Hids & _); [vm_compute; discriminate|].
  assert (key_count r = 2) as Hc2 by (rewrite Hcount; vm_compute; reflexivity).
  exists r, m'. split; [exact Hlist|]. split; [exact Hc2|].
  rewrite Hc2 in Hids. change (Z.to_nat 2) with 2%nat in Hids. rewrite Hids.
  vm_compute. reflexivity.
Defined.

(** ** C3: a key_id that is already present *)

(** C3 (as amended). Take a [generate_key] request of the right
    parameter types whose key_id buffer holds a NUL no later than right
    after its declared bytes, and whose key_id (the declared bytes, cut at
    their first NUL) is the key_id of a live record. When the store is not
    full, the declared length is valid and the key type is below
    [SR_KEY_TYPE_MAX], the request fails with [SR_ERROR_KEY_ALREADY_EXISTS];
    when the store is full it fails with [TEE_ERROR_STORAGE_NO_SPACE], the
    capacity check coming first. In every case the machine, and so the count
    and every record, is left as it was. *)
Theorem generate_key_duplicate {W} (prim : prim_call -> W -> prim_ret * W)
    (pt : Z) (ps : list TEE_Param) (m : machine W) (e : sr_key_entry_t) :
  pt = generate_key_types ->
  terminated_id (param ps 0) ->
  e ∈ live_entries (ta m) ->
  c_str (key_id e) 64 = named_id (param ps 0) ->
  (g_key_count (ta m) < SR_MAX_KEYS ->
   valid_key_id_len (memref_size (param ps 0)) = true ->
   value_a (param ps 1) < SR_KEY_TYPE_MAX ->
   cmd_generate_key prim pt ps m = (SR_ERROR_KEY_ALREADY_EXISTS, OutNone, m))
  /\ (SR_MAX_KEYS <= g_key_count (ta m) ->
      cmd_generate_key prim pt ps m = (TEE_ERROR_STORAGE_NO_SPACE, OutNone, m))
  /\ (cmd_generate_key prim pt ps m).2 = m.
Proof.
  intros -> Hterm He Hid.
  assert (valid_key_id_len (memref_size (param ps 0)) = true ->
          (find_key_index (memref_buffer (param ps 0)) (ta m) >=? 0) = true) as Hfind.
  { intros Hlen. apply valid_key_id_len_lt in Hlen. apply Z.geb_le.
    destruct (Z.lt_ge_cases (find_key_index (memref_buffer (param ps 0)) (ta m)) 0)
      as [Hneg|]; [|done].
    apply find_key_index_named in Hneg; [|done|done]. rewrite Forall_forall in Hneg.
    exfalso. by apply (Hneg e He). }
  unfold cmd_generate_key. fold generate_key_types. rewrite Z.eqb_refl. cbn [negb].
  split; [|split].
  - intros Hc Hl Ht. rewrite Hl, (Hfind Hl). cbn [negb].
    destruct (Z.geb_spec (g_key_count (ta m)) SR_MAX_KEYS); [lia|].
    destruct (Z.geb_spec (value_a (param ps 1)) SR_KEY_TYPE_MAX); [lia|]. done.
  - intros Hc. destruct (Z.geb_spec (g_key_count (ta m)) SR_MAX_KEYS); [done|lia].
  - destruct (_ >=? SR_MAX_KEYS); [done|].
    destruct (valid_key_id_len _) eqn:Hl; cbn [negb]; [|done].
    rewrite (Hfind eq_refl). by destruct (_ >=? SR_KEY_TYPE_MAX).
Qed.

Lemma generate_key_duplicate_witness :
  let m := run toy_prim [generate_request "alice" 0] (boot toy_prim toy_machine) in
  cmd_generate_key toy_prim generate_key_types
    [Memref (bytes_of "alice") 5; Value 0 0; Memref [] 20] m
  = (SR_ERROR_KEY_ALREADY_EXISTS, OutNone, m).
Proof.
  cbn zeta.
  eapply (generate_key_duplicate toy_prim generate_key_types _ _
            (entry_at (ta (run toy_prim [generate_request "alice" 0]
                             (boot toy_prim toy_machine))) 0)).
  - reflexivity.
  - vm_compute. lia.
  - vm_compute. apply list_elem_of_here.
  - vm_compute. reflexivity.
  - vm_compute. reflexivity.
  - vm_compute. reflexivity.
  - vm_compute. reflexivity.
Defined.

(** C3 (as stated) fails on a full store: the request names a key that
    is present, yet the answer is [TEE_ERROR_STORAGE_NO_SPACE]. *)
Lemma generate_key_duplicate_on_full_store :
  let kid := bytes_of "key03" in
  let ps := [Memref kid 5; Value 0 0; Memref [] 20] in
  entry_at (ta toy_full_machine) 3 ∈ live_entries (ta toy_full_machine)
  /\ c_str (key_id (entry_at (ta toy_full_machine) 3)) 64 = kid
  /\ (cmd_generate_key toy_prim generate_key_types ps toy_full_machine).1
     = (TEE_ERROR_STORAGE_NO_SPACE, OutNone)
  /\ TEE_ERROR_STORAGE_NO_SPACE <> SR_ERROR_KEY_ALREADY_EXISTS.
Proof.
  cbn zeta. split; [|split; [|split]].
  - apply list_elem_of_lookup. exists 3%nat. vm_compute. reflexivity.
  - vm_compute. reflexivity.
  - vm_compute. reflexivity.
  - discriminate.
Qed.

(** ** C4: the store holds sixteen keys *)

(** C4 (as amended). Starting from the empty store of a freshly created
    application, take sixteen successive [generate_key] requests for the
    ECDSA key type, each with room for the address and a key_id of valid
    length whose buffer holds a NUL no later than right after the declared
    bytes, the key_ids (declared bytes cut at their first NUL) being
    pairwise distinct. When the provider's key generation succeeds they
    all return [TEE_SUCCESS], and the store then holds exactly sixteen
    records: active ECDSA keys under the requested key_ids, in the order of
    the requests, with their metadata in [g_keys] and with the addresses
    that the sixteen calls returned. A seventeenth
    [generate_key] request, whatever its parameters, fails with
    [TEE_ERROR_STORAGE_NO_SPACE] and leaves the machine, hence the count
    and every record, as it was. *)
Theorem store_holds_sixteen_keys {W} (prim : prim_call -> W -> prim_ret * W)
    (m0 : machine W) (reqs : list (list TEE_Param)) (ps17 : list TEE_Param) :
  keygen_succeeds prim ->
  length reqs = 16%nat ->
  Forall generate_ok_request reqs ->
  NoDup ((fun ps => named_id (param ps 0)) <$> reqs) ->
  let evs := InvokeCommand TA_SUPER_RELAY_CMD_GENERATE_KEY generate_key_types <$> reqs in
  let m := run prim evs (boot prim m0) in
  run_codes prim evs (boot prim m0) = replicate 16 TEE_SUCCESS
  /\ g_key_count (ta m) = 16
  /\ length (live_entries (ta m)) = 16%nat
  /\ key_id <$> live_entries (ta m) = stored_id_of <$> reqs
  /\ (fun e => c_str (key_id e) 64) <$> live_entries (ta m)
     = (fun ps => named_id (param ps 0)) <$> reqs
  /\ Forall (fun e => key_type e = SR_KEY_TYPE_ECDSA_SECP256K1
                      /\ status (info e) = SR_KEY_STATUS_ACTIVE
                      /\ info_key_id (info e) = key_id e) (live_entries (ta m))
  /\ live_infos (ta m) = info <$> live_entries (ta m)
  /\ run_results prim evs (boot prim m0)
     = (fun e => (TEE_SUCCESS, OutAddress (ethereum_address (info e))))
         <$> live_entries (ta m)
  /\ step prim (InvokeCommand TA_SUPER_RELAY_CMD_GENERATE_KEY generate_key_types ps17) m
     = (TEE_ERROR_STORAGE_NO_SPACE, OutNone, m).
Proof.
  intros Hok Hlen Hreqs Hnd evs m.
  assert (g_key_count (ta (boot prim m0)) = 0) as Hzero by reflexivity.
  destruct (generate_all prim reqs (boot prim m0) [] Hok (inv_boot prim m0))
    as (Hcodes & Hcount & es & Hlive & Hids & Hout);
    [done | done | done | done | rewrite Hzero, Hlen; unfold SR_MAX_KEYS; lia |].
  fold evs in Hcodes, Hcount, Hlive, Hout. fold m in Hcount, Hlive.
  rewrite Hzero, Hlen in Hcount. rewrite Hlen in Hcodes.
  change (live_entries (ta (boot prim m0))) with (@nil sr_key_entry_t) in Hlive.
  cbn [app] in Hlive. subst es.
  assert (inv m) as Hm by apply inv_run, inv_boot.
  split; [done|]. split; [done|]. split.
  { rewrite live_length by done. rewrite Hcount. reflexivity. }
  split; [exact Hids|]. split.
  { rewrite (list_fmap_compose key_id (fun id => c_str id 64)), Hids.
    rewrite <- list_fmap_compose. apply Forall_fmap_ext_1.
    eapply Forall_impl; [exact Hreqs|]. intros ps (_ & Hl & _). cbn.
    apply stored_id_named. by apply valid_key_id_len_lt. }
  split.
  { eapply Forall_impl; [exact (inv_live m Hm)|]. intros e [? ? ? ? ? ?]. done. }
  split; [apply Hm|]. split; [exact Hout|].
  rewrite step_generate. unfold cmd_generate_key. rewrite Z.eqb_refl. cbn [negb].
  fold m. rewrite Hcount. reflexivity.
Qed.

Lemma store_holds_sixteen_keys_witness :
  let reqs := (fun id => [Memref (bytes_of id) 5; Value 0 0; Memref [] 20]) <$> toy_key_names in
  let evs := InvokeCommand TA_SUPER_RELAY_CMD_GENERATE_KEY generate_key_types <$> reqs in
  let m := run toy_prim evs (boot toy_prim toy_machine) in
  run_codes toy_prim evs (boot toy_prim toy_machine) = replicate 16 TEE_SUCCESS
  /\ g_key_count (ta m) = 16
  /\ (fun e => c_str (key_id e) 64) <$> live_entries (ta m) = bytes_of <$> toy_key_names
  /\ step toy_prim (InvokeCommand TA_SUPER_RELAY_CMD_GENERATE_KEY generate_key_types
                      [Memref (bytes_of "key16") 5; Value 0 0; Memref [] 20]) m
     = (TEE_ERROR_STORAGE_NO_SPACE, OutNone, m).
Proof.
  cbn zeta.
  destruct (store_holds_sixteen_keys toy_prim toy_machine
              ((fun id => [Memref (bytes_of id) 5; Value 0 0; Memref [] 20])
                 <$> toy_key_names)
              [Memref (bytes_of "key16") 5; Value 0 0; Memref [] 20])
    as (Hcodes & Hcount & _ & _ & Hnames & _ & _ & _ & Hfull).
  - intros c w Hc. destruct c; try discriminate Hc; reflexivity.
  - reflexivity.
  - unfold toy_key_names. cbn [fmap list_fmap].
    repeat (constructor; [repeat split; vm_compute; first [reflexivity | discriminate | lia]|]).
    constructor.
  - apply (bool_decide_unpack _). vm_compute. exact I.
  - split; [exact Hcodes|]. split; [exact Hcount|]. split; [|exact Hfull].
    rewrite Hnames. vm_compute. reflexivity.
Defined.

(** C4 (as stated) fails for key_ids that differ only after a NUL:
    the lookup compares C strings, so sixteen requests with pairwise
    distinct key_ids of valid length, the first two being 'a', NUL, 'b' and
    'a', NUL, 'c', do not all succeed. The second finds the record of the
    first and fails with [SR_ERROR_KEY_ALREADY_EXISTS], and the store ends
    with fifteen records. *)
Lemma distinct_key_ids_may_collide :
  let request id := [Memref id (Z.of_nat (length id)); Value 0 0; Memref [] 20] in
  let reqs := request [Byte.x61; NUL; Byte.x62] :: request [Byte.x61; NUL; Byte.x63]
              :: (request ∘ bytes_of <$> drop 2 toy_key_names) in
  let evs := InvokeCommand TA_SUPER_RELAY_CMD_GENERATE_KEY generate_key_types <$> reqs in
  length reqs = 16%nat
  /\ NoDup ((fun ps => declared_bytes (param ps 0)) <$> reqs)
  /\ Forall (fun ps => valid_key_id_len (memref_size (param ps 0)) = true
                       /\ value_a (param ps 1) = SR_KEY_TYPE_ECDSA_SECP256K1) reqs
  /\ run_codes toy_prim evs (boot toy_prim toy_machine)
     = TEE_SUCCESS :: SR_ERROR_KEY_ALREADY_EXISTS :: replicate 14 TEE_SUCCESS
  /\ g_key_count (ta (run toy_prim evs (boot toy_prim toy_machine))) = 15.
Proof.
  cbn zeta. split; [reflexivity|]. split.
  { apply (bool_decide_unpack _). vm_compute. exact I. }
  split.
  { unfold toy_key_names. cbn [fmap list_fmap drop compose].
    repeat (constructor; [split; vm_compute; reflexivity|]). constructor. }
  split; vm_compute; reflexivity.
Qed.

(** ** C5: the failure paths of sign_message *)

(** C5 (as amended). A [sign_message] request whose hash is not 32
    bytes long fails with [TEE_ERROR_BAD_PARAMETERS]. Take a request of the
    right shape (parameter types, valid key_id length, 32-byte hash, room
    for the result) whose key_id buffer holds a NUL no later than right
    after its declared bytes. It fails with [SR_ERROR_KEY_NOT_FOUND] when
    no live record has its key_id (the declared bytes, cut at their first
    NUL) as key_id, and with [TEE_ERROR_ACCESS_DENIED] when some live
    record has that key_id and none of those that have it is active. On
    each of these paths nothing is written to the output buffer and the
    machine is left as it was: no record changes (usage_count and
    last_used_time included) and no call is made to the provider. *)
Theorem sign_message_failure_paths {W} (prim : prim_call -> W -> prim_ret * W)
    (pt : Z) (ps : list TEE_Param) (m : machine W) :
  let id := named_id (param ps 0) in
  let well_formed :=
    pt = sign_message_types
    /\ valid_key_id_len (memref_size (param ps 0)) = true
    /\ memref_size (param ps 1) = SR_MESSAGE_HASH_SIZE
    /\ sizeof_sr_signature_result_t <= memref_size (param ps 2)
    /\ terminated_id (param ps 0) in
  (memref_size (param ps 1) <> SR_MESSAGE_HASH_SIZE ->
     cmd_sign_message prim pt ps m = (TEE_ERROR_BAD_PARAMETERS, OutNone, m))
  /\ (well_formed ->
      Forall (fun e => c_str (key_id e) 64 <> id) (live_entries (ta m)) ->
      cmd_sign_message prim pt ps m = (SR_ERROR_KEY_NOT_FOUND, OutNone, m))
  /\ (well_formed ->
      (exists e, e ∈ live_entries (ta m) /\ c_str (key_id e) 64 = id) ->
      (forall e, e ∈ live_entries (ta m) -> c_str (key_id e) 64 = id ->
                 status (info e) <> SR_KEY_STATUS_ACTIVE) ->
      cmd_sign_message prim pt ps m = (TEE_ERROR_ACCESS_DENIED, OutNone, m)).
Proof.
  cbn zeta. unfold cmd_sign_message. fold sign_message_types.
  split; [|split].
  - intros Hh. apply Z.eqb_neq in Hh. rewrite Hh. cbn [negb].
    destruct (negb (pt =? sign_message_types)); [done|].
    by destruct (negb (valid_key_id_len _)).
  - intros (-> & Hlen & -> & Hout & Hterm) Hnone. rewrite Hlen, !Z.eqb_refl. cbn [negb].
    apply Z.ltb_ge in Hout. rewrite Hout.
    apply find_key_index_named in Hnone; [|by apply valid_key_id_len_lt|done].
    apply Z.ltb_lt in Hnone. by rewrite Hnone.
  - intros (-> & Hlen & -> & Hout & Hterm) (e0 & He0 & Hid0) Hst.
    rewrite Hlen, !Z.eqb_refl. cbn [negb].
    apply Z.ltb_ge in Hout. rewrite Hout.
    pose proof (valid_key_id_len_lt _ Hlen) as Hlt.
    destruct (Z.ltb_spec (find_key_index (memref_buffer (param ps 0)) (ta m)) 0) as [Hneg|Hk].
    { apply find_key_index_named in Hneg; [|done|done]. rewrite Forall_forall in Hneg.
      by destruct (Hneg e0 He0). }
    destruct (find_key_index_entry _ _ Hk) as [He Hm].
    apply matches_named_id in Hm; [|done|done].
    apply list_elem_of_lookup_2 in He.
    specialize (Hst _ He Hm). apply Z.eqb_neq in Hst. by rewrite Hst.
Qed.

Lemma sign_message_failure_paths_witness :
  let m := run toy_prim [generate_request "alice" 0] (boot toy_prim toy_machine) in
  let sign id hash :=
    [Memref (bytes_of id) (Z.of_nat (length (bytes_of id)));
     Memref hash (Z.of_nat (length hash));
     Memref [] sizeof_sr_signature_result_t] in
  cmd_sign_message toy_prim sign_message_types (sign "alice" (replicate 31 Byte.x07)) m
    = (TEE_ERROR_BAD_PARAMETERS, OutNone, m)
  /\ cmd_sign_message toy_prim sign_message_types (sign "bob" (replicate 32 Byte.x07)) m
    = (SR_ERROR_KEY_NOT_FOUND, OutNone, m)
  /\ cmd_sign_message toy_prim sign_message_types (sign "alice" (replicate 32 Byte.x07))
       toy_inactive_machine
    = (TEE_ERROR_ACCESS_DENIED, OutNone, toy_inactive_machine).
Proof.
  cbn zeta. split; [|split].
  - apply (sign_message_failure_paths toy_prim). vm_compute. discriminate.
  - apply (sign_message_failure_paths toy_prim).
    + vm_compute. repeat split; first [discriminate | lia].
    + vm_compute. repeat constructor. discriminate.
  - apply (sign_message_failure_paths toy_prim).
    + vm_compute. repeat split; first [discriminate | lia].
    + exists (entry_at (ta toy_inactive_machine) 0). split.
      * vm_compute. apply list_elem_of_here.
      * vm_compute. reflexivity.
    + intros e He _. vm_compute in He. apply list_elem_of_singleton in He as ->.
      vm_compute. discriminate.
Defined.

(** C5 (as stated) fails for a key_id with a NUL among its declared
    bytes: no live record has the three bytes 'a', NUL, 'b' as key_id, yet
    the lookup, which compares C strings, finds the record of 'a'; the
    request is signed and the usage count of that record goes up. *)
Lemma sign_message_finds_another_key :
  let m := run toy_prim [generate_request "a" 0] (boot toy_prim toy_machine) in
  let p := Memref [Byte.x61; NUL; Byte.x62] 3 in
  let r := cmd_sign_message toy_prim sign_message_types
             [p; Memref (replicate 32 Byte.x07) 32; Memref [] sizeof_sr_signature_result_t] m in
  Forall (fun e => c_str (key_id e) 64 <> declared_bytes p
                   /\ take 3 (key_id e) <> declared_bytes p) (live_entries (ta m))
  /\ r.1.1 = TEE_SUCCESS
  /\ r.1.1 <> SR_ERROR_KEY_NOT_FOUND
  /\ usage_of 0 m = 0
  /\ usage_of 0 r.2 = 1.
Proof.
  cbn zeta. split.
  { vm_compute. repeat constructor; discriminate. }
  split; [vm_compute; reflexivity|]. split; [vm_compute; discriminate|].
  split; vm_compute; reflexivity.
Qed.

(** ** C6: usage_count and last_used_time *)

(** C6 (as amended). A record is created with usage_count 0; after any
    further run its usage_count is the number of successful [sign_message]
    operations on it modulo 2^32, the counter being a [uint32_t]. If the
    readings of the system clock are non-decreasing, so is its
    last_used_time from one step of the run to the next. *)
Theorem usage_count_and_last_used {W} (prim : prim_call -> W -> prim_ret * W)
    (m0 : machine W) (evs1 evs2 : list event) (pt : Z) (ps : list TEE_Param)
    (out : output) (m1 : machine W) :
  let m := run prim evs1 (boot prim m0) in
  let k := g_key_count (ta m) in
  cmd_generate_key prim pt ps m = (TEE_SUCCESS, out, m1) ->
  usage_of k m1 = 0
  /\ usage_of k (run prim evs2 m1) = successful_signs prim k evs2 m1 mod 2 ^ 32
  /\ (Sorted Z.le (clock_readings (trace (run prim evs2 m1))) ->
      Sorted Z.le (last_used_of k <$> states prim evs2 m1)).
Proof.
  cbn zeta. intros Hgen. set (m := run prim evs1 (boot prim m0)) in *.
  assert (inv m) as Hm by apply inv_run, inv_boot.
  pose proof (inv_step prim (InvokeCommand TA_SUPER_RELAY_CMD_GENERATE_KEY pt ps) m Hm) as Hm1.
  rewrite step_generate, Hgen in Hm1. cbn [snd] in Hm1.
  apply cmd_generate_key_success in Hgen. cbn zeta in Hgen.
  destruct Hgen as (_ & Hfull & _ & _ & _ & _ & r0 & r1 & r2 & r3 & rx & ry & rd & rf
                    & _ & _ & _ & _ & Hta & _).
  pose proof Hm as [Hc _ Hsl _ _]. unfold SR_MAX_KEYS in *.
  assert (0 <= g_key_count (ta m) < g_key_count (ta m1)) as Hk.
  { rewrite Hta. cbn [generated_state g_key_count]. rewrite wrap32_small; lia. }
  assert (usage_of (g_key_count (ta m)) m1 = 0) as Hzero.
  { unfold usage_of, entry_at. rewrite Hta. cbn [generated_state g_key_storage].
    rewrite list_lookup_insert_eq by lia. reflexivity. }
  split; [exact Hzero|]. split.
  - rewrite run_usage, Hzero by done. reflexivity.
  - intros Hsorted. apply run_last_used; [done | done |].
    by apply Sorted_StronglySorted; [intros ? ? ?; lia|].
Qed.

Lemma usage_count_and_last_used_witness :
  let g := cmd_generate_key toy_prim generate_key_types
             [Memref (bytes_of "alice") 5; Value 0 0; Memref [] 20]
             (boot toy_prim toy_machine) in
  let sign := sign_request "alice" (replicate 32 Byte.x07) in
  let evs := [sign; sign; generate_request "bob" 0; sign] in
  usage_of 0 (run toy_prim evs g.2) = 3
  /\ Sorted Z.le (last_used_of 0 <$> states toy_prim evs g.2).
Proof.
  cbn zeta.
  set (g := cmd_generate_key toy_prim generate_key_types _ _).
  set (evs := [_; _; _; _]).
  assert (cmd_generate_key toy_prim generate_key_types
            [Memref (bytes_of "alice") 5; Value 0 0; Memref [] 20]
            (run toy_prim [] (boot toy_prim toy_machine))
          = (TEE_SUCCESS, g.1.2, g.2)) as Hg by (vm_compute; reflexivity).
  destruct (usage_count_and_last_used toy_prim toy_machine [] evs _ _ _ _ Hg)
    as (_ & Husage & Hlast).
  split.
  - etrans; [exact Husage | vm_compute; reflexivity].
  - refine (Hlast _). vm_compute.
    repeat first [apply Sorted_nil | apply Sorted_cons | apply HdRel_nil
                 | apply HdRel_cons | discriminate].
Defined.

(** C6 (as stated) fails at N = 2^32: the counter is 32 bits wide, so
    after 2^32 successful signatures with a key its usage_count is 0. *)
Lemma usage_count_wraps_around :
  exists n : nat,
    let g := cmd_generate_key toy_prim generate_key_types
               [Memref (bytes_of "alice") 5; Value 0 0; Memref [] 20]
               (boot toy_prim toy_machine) in
    let evs := replicate n (sign_request "alice" (replicate 32 Byte.x07)) in
    Z.of_nat n = 2 ^ 32
    /\ g.1.1 = TEE_SUCCESS
    /\ usage_of 0 g.2 = 0
    /\ successful_signs toy_prim 0 evs g.2 = Z.of_nat n
    /\ usage_of 0 (run toy_prim evs g.2) = 0.
Proof.
  assert (exists n : nat, Z.of_nat n = 2 ^ 32) as [n Hn].
  { exists (N.to_nat (2 ^ 32)). apply N_nat_Z. }
  exists n. cbn zeta.
  set (g := cmd_generate_key toy_prim generate_key_types _ _).
  assert (g = (TEE_SUCCESS, g.1.2, g.2)) as Hg by (vm_compute; reflexivity).
  assert (always_succeeds toy_prim) as Hok by (intros [] w; reflexivity).
  assert (inv g.2) as Hinv.
  { pose proof (inv_step toy_prim
                  (InvokeCommand TA_SUPER_RELAY_CMD_GENERATE_KEY generate_key_types
                     [Memref (bytes_of "alice") 5; Value 0 0; Memref [] 20])
                  (boot toy_prim toy_machine) (inv_boot toy_prim toy_machine)) as H.
    rewrite step_generate in H. exact H. }
  assert (successful_signs toy_prim 0
            (replicate n (sign_request "alice" (replicate 32 Byte.x07))) g.2 = Z.of_nat n)
    as Hsigns.
  { apply (repeated_signs toy_prim sign_message_types _ 0 n g.2 Hok Hinv eq_refl);
      vm_compute; first [reflexivity | discriminate]. }
  split; [exact Hn|]. split; [by rewrite Hg|]. split; [vm_compute; reflexivity|].
  split; [exact Hsigns|].
  rewrite run_usage, Hsigns, Hn; [| exact Hinv | vm_compute; split; [discriminate | reflexivity]].
  vm_compute. reflexivity.
Qed.

(** ** C7: generate_key, then get_public_key *)




(** ** C8: what the lookup compares *)

(** C8 (as amended). Let a caller-supplied key_id have a valid declared
    length and a NUL no later than right after its declared bytes. Then the
    lookup matches a stored record if and only if the declared bytes of the
    key_id, cut at their first NUL, are byte for byte the key_id stored in
    the record; [find_key_index] returns the first live record that
    matches, and a negative number exactly when no live record does. When
    the declared bytes hold no NUL they are compared as they are, so a
    key_id whose declared bytes differ from a stored key_id does not match
    it. *)
Theorem lookup_compares_c_strings (s : ta_state) (p : TEE_Param) :
  valid_key_id_len (memref_size p) = true ->
  (length (c_str (memref_buffer p) 64) <= Z.to_nat (memref_size p))%nat ->
  let kid := memref_buffer p in
  let id := c_str (declared_bytes p) (Z.to_nat (memref_size p)) in
  (forall e, matches kid e <-> c_str (key_id e) 64 = id)
  /\ (find_key_index kid s < 0 <->
      Forall (fun e => c_str (key_id e) 64 <> id) (live_entries s))
  /\ (0 <= find_key_index kid s ->
      exists e,
        live_entries s !! Z.to_nat (find_key_index kid s) = Some e
        /\ c_str (key_id e) 64 = id
        /\ Forall (fun e' => c_str (key_id e') 64 <> id)
             (take (Z.to_nat (find_key_index kid s)) (live_entries s)))
  /\ (c_string_id p -> id = declared_bytes p).
Proof.
  intros Hlen Hterm. cbn zeta.
  assert (memref_size p < SR_MAX_KEY_ID_SIZE) as Hlt.
  { unfold valid_key_id_len in Hlen. apply negb_true_iff, orb_false_iff in Hlen.
    destruct Hlen as [_ Hl2].
    destruct (Z.geb_spec (memref_size p) SR_MAX_KEY_ID_SIZE); [done | lia]. }
  assert (c_str (declared_bytes p) (Z.to_nat (memref_size p)) = c_str (memref_buffer p) 64)
    as Hid.
  { unfold declared_bytes. rewrite c_str_mem_read.
    apply c_str_shorter; unfold SR_MAX_KEY_ID_SIZE in *; lia. }
  rewrite Hid.
  assert (forall e, matches (memref_buffer p) e <->
                    c_str (key_id e) 64 = c_str (memref_buffer p) 64) as Hm
    by (intros e; apply strncmp_c_str).
  split; [exact Hm|]. split; [|split].
  - rewrite (find_from_none (live_entries s) 0 (memref_buffer p)) by done.
    apply Forall_iff. intros e. apply not_iff_compat, Hm.
  - intros Hk. unfold find_key_index in *. fold (live_entries s) in *.
    destruct (find_from_spec (live_entries s) 0 (memref_buffer p))
      as [[H1 H2] | (j & e & H1 & H2 & H3 & H4)]; [lia|].
    rewrite H1. replace (Z.to_nat (0 + Z.of_nat j)) with j by lia.
    exists e. split; [done|]. split; [by apply Hm|].
    eapply Forall_impl; [exact H4|]. intros e' Hn Hc. by apply Hn, Hm.
  - intros Hs. by apply c_string_id_declared.
Qed.

Lemma lookup_compares_c_strings_witness :
  let m := run toy_prim [generate_request "alice" 0; generate_request "bob" 0]
             (boot toy_prim toy_machine) in
  find_key_index (bytes_of "carol") (ta m) < 0 <->
  Forall (fun e => c_str (key_id e) 64 <> bytes_of "carol") (live_entries (ta m)).
Proof.
  cbn zeta.
  destruct (lookup_compares_c_strings
              (ta (run toy_prim [generate_request "alice" 0; generate_request "bob" 0]
                     (boot toy_prim toy_machine)))
              (Memref (bytes_of "carol") 5))
    as (_ & Hnone & _ & _).
  - vm_compute. reflexivity.
  - vm_compute. lia.
  - exact Hnone.
Defined.

(** C8 (as stated) fails for a key_id with a NUL among its declared
    bytes: the three bytes 'a', NUL, 'b' are found under the stored key_id
    'a', from which they differ, and [get_public_key] succeeds for them. *)
Lemma lookup_ignores_bytes_after_NUL :
  let m := run toy_prim [generate_request "a" 0] (boot toy_prim toy_machine) in
  let p := Memref [Byte.x61; NUL; Byte.x62] 3 in
  find_key_index (memref_buffer p) (ta m) = 0
  /\ c_str (key_id (entry_at (ta m) 0)) 64 = [Byte.x61]
  /\ declared_bytes p <> c_str (key_id (entry_at (ta m) 0)) 64
  /\ declared_bytes p <> take 3 (key_id (entry_at (ta m) 0))
  /\ (cmd_get_public_key get_public_key_types
        [p; Memref [] sizeof_sr_public_key_result_t] m).1.1 = TEE_SUCCESS.
Proof.
  cbn zeta. vm_compute. repeat split; try reflexivity; discriminate.
Qed.

(** ** C9: the session counter *)

(** C9 (as amended). After any run started by [TA_CreateEntryPoint], the
    [active_sessions] field of a health check is the session counter the
    entry points maintain: an open adds one modulo 2^32, a close subtracts
    one unless the counter is zero. It lies in [0, 2^32); it is the number
    of opens minus the number of closes when no prefix of the run closes
    more sessions than it opened and fewer than 2^32 sessions were opened;
    and a close at zero leaves it at zero. *)
Theorem active_sessions_counter {W} (prim : prim_call -> W -> prim_ret * W)
    (m0 : machine W) (evs : list event) (ps : list TEE_Param) :
  sizeof_sr_health_result_t <= memref_size (param ps 0) ->
  exists r m',
    cmd_health_check prim output_only_types ps (run prim evs (boot prim m0))
      = (TEE_SUCCESS, OutHealth r, m')
    /\ active_sessions r = fold_left session_step evs 0
    /\ 0 <= active_sessions r < 2 ^ 32
    /\ (balanced_from 0 evs -> count_opens evs < 2 ^ 32 ->
        active_sessions r = count_opens evs - count_closes evs)
    /\ (active_sessions r = 0 ->
        g_session_count
          (ta (TA_CloseSessionEntryPoint (run prim evs (boot prim m0)))) = 0).
Proof.
  intros Hsize. unfold cmd_health_check. fold output_only_types.
  rewrite Z.eqb_refl. cbn [negb].
  destruct (memref_size (param ps 0) <? sizeof_sr_health_result_t) eqn:E; [lia|].
  unfold get_current_time, call. cbn [fst snd].
  eexists _, _. split; [reflexivity|]. cbn [active_sessions].
  rewrite run_session.
  assert (g_session_count (ta (boot prim m0)) = 0) as -> by done.
  split; [done|]. split; [by apply session_fold_range|]. split.
  - intros Hb Hlt. rewrite session_fold_balanced; [lia | lia | done | lia].
  - intros H0. unfold TA_CloseSessionEntryPoint.
    assert (g_session_count (ta (run prim evs (boot prim m0))) = 0) as Hz
      by (by rewrite run_session).
    rewrite Hz. done.
Qed.

Lemma active_sessions_counter_witness :
  exists r m',
    cmd_health_check toy_prim output_only_types [Memref [] sizeof_sr_health_result_t]
      (run toy_prim [OpenSession; OpenSession; CloseSession] (boot toy_prim toy_machine))
      = (TEE_SUCCESS, OutHealth r, m')
    /\ active_sessions r = 1.
Proof.
  destruct (active_sessions_counter toy_prim toy_machine
              [OpenSession; OpenSession; CloseSession]
              [Memref [] sizeof_sr_health_result_t])
    as (r & m' & H1 & H2 & _); [vm_compute; discriminate|].
  exists r, m'. split; [exact H1 | exact H2].
Defined.

(** C9 (as stated) fails: a close that arrives while the counter is zero
    is not remembered, so after a close and an open the counter is 1 although
    the opens minus the closes, floored at zero, is 0. *)
Lemma active_sessions_not_floored_difference :
  let evs := [CloseSession; OpenSession] in
  exists r,
    (step toy_prim health_check_request (run toy_prim evs (boot toy_prim toy_machine))).1
      = (TEE_SUCCESS, OutHealth r)
    /\ active_sessions r = 1
    /\ Z.max 0 (count_opens evs - count_closes evs) = 0.
Proof. eexists. vm_compute. repeat split; reflexivity. Qed.

(** ** C10: every live record is an ECDSA key *)



(** * Further properties of the code *)

(** ** The command dispatcher *)

(** X1. [TA_InvokeCommandEntryPoint] rejects, without touching the
    machine and without calling the provider, every request whose command
    is not implemented or whose parameter types are not the ones the
    command expects: [TEE_ERROR_NOT_IMPLEMENTED] for import_key and
    delete_key, [TEE_ERROR_BAD_PARAMETERS] for an unknown command and for
    wrong parameter types. *)
Theorem invoke_command_rejects {W} (prim : prim_call -> W -> prim_ret * W)
    (cmd_id pt : Z) (ps : list TEE_Param) (m : machine W) :
  expected_param_types cmd_id <> Some pt ->
  TA_InvokeCommandEntryPoint prim cmd_id pt ps m
  = (if (cmd_id =? TA_SUPER_RELAY_CMD_IMPORT_KEY) || (cmd_id =? TA_SUPER_RELAY_CMD_DELETE_KEY)
     then TEE_ERROR_NOT_IMPLEMENTED else TEE_ERROR_BAD_PARAMETERS, OutNone, m).
Proof.
  unfold expected_param_types, TA_InvokeCommandEntryPoint. intros Hpt.
  assert (forall exp, Some exp <> Some pt -> negb (pt =? exp) = true) as Hne.
  { intros exp H. apply negb_true_iff, Z.eqb_neq. congruence. }
  destruct (Z.eqb_spec cmd_id TA_SUPER_RELAY_CMD_GENERATE_KEY) as [->|].
  { unfold cmd_generate_key. fold generate_key_types. by rewrite (Hne _ Hpt). }
  destruct (Z.eqb_spec cmd_id TA_SUPER_RELAY_CMD_SIGN_MESSAGE) as [->|].
  { unfold cmd_sign_message. fold sign_message_types. by rewrite (Hne _ Hpt). }
  destruct (Z.eqb_spec cmd_id TA_SUPER_RELAY_CMD_GET_PUBLIC_KEY) as [->|].
  { unfold cmd_get_public_key. fold get_public_key_types. by rewrite (Hne _ Hpt). }
  destruct (Z.eqb_spec cmd_id TA_SUPER_RELAY_CMD_LIST_KEYS) as [->|].
  { unfold cmd_list_keys. fold output_only_types. by rewrite (Hne _ Hpt). }
  destruct (Z.eqb_spec cmd_id TA_SUPER_RELAY_CMD_GET_VERSION) as [->|].
  { unfold cmd_get_version. fold output_only_types. by rewrite (Hne _ Hpt). }
  destruct (Z.eqb_spec cmd_id TA_SUPER_RELAY_CMD_HEALTH_CHECK) as [->|].
  { unfold cmd_health_check. fold output_only_types. by rewrite (Hne _ Hpt). }
  destruct (Z.eqb_spec cmd_id TA_SUPER_RELAY_CMD_IMPORT_KEY);
    destruct (Z.eqb_spec cmd_id TA_SUPER_RELAY_CMD_DELETE_KEY); reflexivity.
Qed.

Lemma invoke_command_rejects_witness :
  let m := run toy_prim [generate_request "alice" 0] (boot toy_prim toy_machine) in
  TA_InvokeCommandEntryPoint toy_prim TA_SUPER_RELAY_CMD_DELETE_KEY get_public_key_types
    [Memref (bytes_of "alice") 5] m
  = (TEE_ERROR_NOT_IMPLEMENTED, OutNone, m)
  /\ TA_InvokeCommandEntryPoint toy_prim TA_SUPER_RELAY_CMD_SIGN_MESSAGE generate_key_types
       [Memref (bytes_of "alice") 5; Value 0 0; Memref [] 72] m
     = (TEE_ERROR_BAD_PARAMETERS, OutNone, m).
Proof.
  cbn zeta. split.
  - apply (invoke_command_rejects toy_prim TA_SUPER_RELAY_CMD_DELETE_KEY).
    vm_compute. discriminate.
  - apply (invoke_command_rejects toy_prim TA_SUPER_RELAY_CMD_SIGN_MESSAGE).
    vm_compute. discriminate.
Defined.

(** ** Looking a key up *)

(** X2. After any run started by [TA_CreateEntryPoint], a well-formed
    [get_public_key] request fails with [SR_ERROR_KEY_NOT_FOUND], leaving
    the machine as it was, exactly when its key_id, read as a C string, is
    the identifier of no key created by a successful [generate_key] of the
    run; otherwise it succeeds, answers with the public key length and the
    address of a live record of that identifier, makes no call to the
    provider and changes nothing but the operation counter. *)
Theorem get_public_key_of_created_keys {W} (prim : prim_call -> W -> prim_ret * W)
    (m0 : machine W) (evs : list event) (ps : list TEE_Param) :
  let m := run prim evs (boot prim m0) in
  let id := c_str (memref_buffer (param ps 0)) 64 in
  let created := (fun id => c_str id 64) <$> created_ids prim evs (boot prim m0) in
  valid_key_id_len (memref_size (param ps 0)) = true ->
  sizeof_sr_public_key_result_t <= memref_size (param ps 1) ->
  (id ∉ created ->
   cmd_get_public_key get_public_key_types ps m = (SR_ERROR_KEY_NOT_FOUND, OutNone, m))
  /\ (id ∈ created ->
      exists e r,
        e ∈ live_entries (ta m)
        /\ c_str (key_id e) 64 = id
        /\ cmd_get_public_key get_public_key_types ps m
           = (TEE_SUCCESS, OutPublicKey r,
              with_ta m (set_g_operation_count (ta m)
                           (wrap32 (g_operation_count (ta m) + 1))))
        /\ pk_public_key_len r = public_key_len e
        /\ pk_ethereum_address r = mem_read (ethereum_address (info e)) 20).
Proof.
  intros m id created Hlen Hsize.
  pose proof (find_key_index_missing (memref_buffer (param ps 0)) (ta m)) as Hfind.
  unfold m in Hfind at 2. rewrite live_ids_created in Hfind. fold created id in Hfind.
  unfold cmd_get_public_key. fold get_public_key_types.
  rewrite Z.eqb_refl, Hlen. cbn [negb].
  destruct (Z.ltb_spec (memref_size (param ps 1)) sizeof_sr_public_key_result_t); [lia|].
  split.
  - intros Hnot. apply Hfind in Hnot.
    by destruct (Z.ltb_spec (find_key_index (memref_buffer (param ps 0)) (ta m)) 0); [|lia].
  - intros Hin.
    destruct (Z.ltb_spec (find_key_index (memref_buffer (param ps 0)) (ta m)) 0) as [Hneg|Hpos].
    { by apply Hfind in Hneg. }
    destruct (find_key_index_entry _ _ Hpos) as [He Hm].
    eexists _, _. split; [by eapply list_elem_of_lookup_2|].
    split; [by apply strncmp_c_str|]. split; [reflexivity|]. split; reflexivity.
Qed.

Lemma get_public_key_of_created_keys_witness :
  let evs := [generate_request "alice" 0; generate_request "bob" 0] in
  let m := run toy_prim evs (boot toy_prim toy_machine) in
  cmd_get_public_key get_public_key_types
    [Memref (bytes_of "carol") 5; Memref [] sizeof_sr_public_key_result_t] m
  = (SR_ERROR_KEY_NOT_FOUND, OutNone, m).
Proof.
  cbn zeta.
  apply (get_public_key_of_created_keys toy_prim toy_machine
           [generate_request "alice" 0; generate_request "bob" 0]
           [Memref (bytes_of "carol") 5; Memref [] sizeof_sr_public_key_result_t]).
  - reflexivity.
  - reflexivity.
  - vm_compute. intros H. repeat (apply elem_of_cons in H as [H|H]; [discriminate H|]).
    by apply elem_of_nil in H.
Defined.

(** ** Private keys and what the caller sees *)

(** X3. Private keys do not flow to the caller except through
    signatures: two machines that hold the same public data and the same
    provider world, whatever the private keys in their tables, answer every
    run without [sign_message] commands with the same result codes and the
    same outputs (addresses, public keys, key lists, versions, health
    reports), and still hold the same public data afterwards. *)
Theorem private_keys_do_not_flow {W} (prim : prim_call -> W -> prim_ret * W)
    (evs : list event) (m1 m2 : machine W) :
  public_view (ta m1) = public_view (ta m2) ->
  world m1 = world m2 ->
  Forall (fun ev => is_sign ev = false) evs ->
  run_results prim evs m1 = run_results prim evs m2
  /\ public_view (ta (run prim evs m1)) = public_view (ta (run prim evs m2))
  /\ world (run prim evs m1) = world (run prim evs m2).
Proof.
  intros Hpv Hw Hevs.
  destruct (run_public prim evs m1 m2 (conj Hpv Hw) Hevs) as [Hres [Hpv' Hw']].
  done.
Qed.

Lemma private_keys_do_not_flow_witness :
  let m1 := run toy_prim [generate_request "alice" 0] (boot toy_prim toy_machine) in
  let m2 :=
    with_ta m1
      (set_g_key_storage (ta m1)
         (<[0%nat := set_private_key (entry_at (ta m1) 0) (zeros 32) 32]>
            (g_key_storage (ta m1)))) in
  let evs := [get_public_key_request "alice"; list_keys_request; health_check_request;
              generate_request "bob" 0] in
  private_key (entry_at (ta m1) 0) <> private_key (entry_at (ta m2) 0)
  /\ run_results toy_prim evs m1 = run_results toy_prim evs m2.
Proof.
  cbn zeta. split; [vm_compute; discriminate|].
  eapply proj1. apply (private_keys_do_not_flow toy_prim).
  - vm_compute. reflexivity.
  - vm_compute. reflexivity.
  - repeat constructor.
Defined.

(** ** What a health check reports *)

(** X4. After any run started by [TA_CreateEntryPoint], the
    [total_operations] field of a health check is the number, modulo 2^32,
    of [generate_key], [sign_message], [get_public_key] and [list_keys]
    commands of the run that succeeded: failed commands, [get_version],
    earlier health checks and session events are not counted, and the
    health check itself leaves the globals as they were. *)
Theorem total_operations_counts_successes {W} (prim : prim_call -> W -> prim_ret * W)
    (m0 : machine W) (evs : list event) (ps : list TEE_Param) :
  sizeof_sr_health_result_t <= memref_size (param ps 0) ->
  let m := run prim evs (boot prim m0) in
  let n := counted_operations prim evs (boot prim m0) in
  exists r m',
    cmd_health_check prim output_only_types ps m = (TEE_SUCCESS, OutHealth r, m')
    /\ total_operations r = n mod 2 ^ 32
    /\ (n < 2 ^ 32 -> total_operations r = n)
    /\ ta m' = ta m.
Proof.
  intros Hsize m n. eexists _, _. split; [by apply cmd_health_check_ok|].
  cbn [total_operations].
  assert (0 <= n) as Hn.
  { unfold n. generalize (boot prim m0). induction evs as [|ev evs IH]; intros m1; [done|].
    cbn [counted_operations]. specialize (IH (step prim ev m1).2).
    destruct (counted_operation prim ev m1); lia. }
  assert (g_operation_count (ta m) = n mod 2 ^ 32) as Hop.
  { unfold m. rewrite run_operation_count by done. reflexivity. }
  split; [done|]. split; [|apply call_ta].
  intros Hsmall. rewrite Hop. apply Z.mod_small. lia.
Qed.

Lemma total_operations_counts_successes_witness :
  let evs := [generate_request "alice" 0; OpenSession; get_public_key_request "bob";
              list_keys_request; health_check_request;
              sign_request "alice" (replicate 32 Byte.x07)] in
  exists r m',
    cmd_health_check toy_prim output_only_types [Memref [] sizeof_sr_health_result_t]
      (run toy_prim evs (boot toy_prim toy_machine))
    = (TEE_SUCCESS, OutHealth r, m')
    /\ total_operations r = 3.
Proof.
  cbn zeta.
  destruct (total_operations_counts_successes toy_prim toy_machine
              [generate_request "alice" 0; OpenSession; get_public_key_request "bob";
               list_keys_request; health_check_request;
               sign_request "alice" (replicate 32 Byte.x07)]
              [Memref [] sizeof_sr_health_result_t]) as (r & m' & Hr & _ & Hn & _).
  - vm_compute. discriminate.
  - exists r, m'. split; [exact Hr|]. rewrite Hn; vm_compute; reflexivity.
Defined.

(** X5. After any run started by [TA_CreateEntryPoint], the
    [storage_usage] field of a health check is 288 bytes, the size of one
    table entry, for each [generate_key] command of the run that succeeded;
    it never exceeds 4608, the size of the sixteen-entry table. *)
Theorem storage_usage_counts_keys {W} (prim : prim_call -> W -> prim_ret * W)
    (m0 : machine W) (evs : list event) (ps : list TEE_Param) :
  sizeof_sr_health_result_t <= memref_size (param ps 0) ->
  let m := run prim evs (boot prim m0) in
  exists r m',
    cmd_health_check prim output_only_types ps m = (TEE_SUCCESS, OutHealth r, m')
    /\ storage_usage r = 288 * Z.of_nat (length (created_ids prim evs (boot prim m0)))
    /\ storage_usage r = 288 * Z.of_nat (length (live_entries (ta m)))
    /\ 0 <= storage_usage r <= 4608.
Proof.
  intros Hsize m. eexists _, _. split; [by apply cmd_health_check_ok|].
  cbn [storage_usage].
  assert (inv m) as Hm by apply inv_run, inv_boot.
  pose proof (live_length m Hm) as Hlen.
  destruct Hm as [Hc _ _ _ _]. unfold SR_MAX_KEYS in Hc.
  rewrite <- (live_ids_created prim evs m0), length_fmap. fold m. rewrite Hlen.
  unfold sizeof_sr_key_entry_t. rewrite wrap32_small by lia. lia.
Qed.

Lemma storage_usage_counts_keys_witness :
  let evs := [generate_request "alice" 0; generate_request "alice" 0;
              generate_request "bob" 0] in
  exists r m',
    cmd_health_check toy_prim output_only_types [Memref [] sizeof_sr_health_result_t]
      (run toy_prim evs (boot toy_prim toy_machine))
    = (TEE_SUCCESS, OutHealth r, m')
    /\ storage_usage r = 576.
Proof.
  cbn zeta.
  destruct (storage_usage_counts_keys toy_prim toy_machine
              [generate_request "alice" 0; generate_request "alice" 0;
               generate_request "bob" 0]
              [Memref [] sizeof_sr_health_result_t]) as (r & m' & Hr & Hn & _).
  - vm_compute. discriminate.
  - exists r, m'. split; [exact Hr|]. rewrite Hn. vm_compute. reflexivity.
Defined.

(** X6. [TA_CreateEntryPoint] records the clock as the start time and
    no later step changes it. A health check reads the clock once and
    reports as [uptime] the seconds elapsed since the start: the reading
    minus the start time when the clock has not gone back, and that
    difference plus 2^64 (the subtraction is unsigned) when it has. *)
Theorem uptime_since_create {W} (prim : prim_call -> W -> prim_ret * W)
    (m0 : machine W) (evs : list event) (ps : list TEE_Param) :
  sizeof_sr_health_result_t <= memref_size (param ps 0) ->
  let m := run prim evs (boot prim m0) in
  let start := wrap32 (ret_time (prim TEE_GetSystemTime (world m0)).1) in
  let now := wrap32 (ret_time (prim TEE_GetSystemTime (world m)).1) in
  exists r m',
    cmd_health_check prim output_only_types ps m = (TEE_SUCCESS, OutHealth r, m')
    /\ g_start_time (ta m) = start
    /\ clock_readings (trace m') = clock_readings (trace m) ++ [now]
    /\ health_status r = SR_SUCCESS
    /\ (start <= now -> uptime r = now - start)
    /\ (now < start -> uptime r = 2 ^ 64 + now - start).
Proof.
  intros Hsize m start now. eexists _, _. split; [by apply cmd_health_check_ok|].
  cbn [uptime health_status].
  assert (g_start_time (ta m) = start) as Hstart.
  { unfold m. rewrite run_start_time. reflexivity. }
  pose proof (wrap32_range (ret_time (prim TEE_GetSystemTime (world m0)).1)) as Hs.
  pose proof (wrap32_range (ret_time (prim TEE_GetSystemTime (world m)).1)) as Hn.
  fold start in Hs. fold now in Hn.
  split; [done|]. split.
  { rewrite call_trace, clock_readings_app. reflexivity. }
  split; [done|]. rewrite Hstart.
  change (wrap32 (ret_time (call prim TEE_GetSystemTime m).1)) with now.
  unfold wrap64. split; intros Hle.
  - apply Z.mod_small. lia.
  - replace (now - start) with (2 ^ 64 + now - start + (-1) * 2 ^ 64) by lia.
    rewrite Z_mod_plus_full. apply Z.mod_small. lia.
Qed.

Lemma uptime_since_create_witness :
  let evs := [generate_request "alice" 0; OpenSession] in
  exists r m',
    cmd_health_check toy_prim output_only_types [Memref [] sizeof_sr_health_result_t]
      (run toy_prim evs (boot toy_prim toy_machine))
    = (TEE_SUCCESS, OutHealth r, m')
    /\ uptime r = 9.
Proof.
  cbn zeta.
  destruct (uptime_since_create toy_prim toy_machine
              [generate_request "alice" 0; OpenSession]
              [Memref [] sizeof_sr_health_result_t]) as (r & m' & Hr & _ & _ & _ & Hn & _).
  - vm_compute. discriminate.
  - exists r, m'. split; [exact Hr|]. rewrite Hn; vm_compute; [reflexivity | discriminate].
Defined.

(** ** Uniqueness of key identifiers *)

(** X7. After any run started by [TA_CreateEntryPoint] whose
    [generate_key] commands pass key_ids with a NUL no later than right
    after their declared bytes, the key_ids of the live records, read as C
    strings, are pairwise distinct: a lookup matches at most one record. *)
Theorem key_ids_are_unique {W} (prim : prim_call -> W -> prim_ret * W)
    (m0 : machine W) (evs : list event) :
  terminated_ids evs ->
  NoDup (live_ids (ta (run prim evs (boot prim m0)))).
Proof.
  intros Hevs. apply run_unique; [apply inv_boot | | done].
  unfold live_ids. rewrite live_boot. constructor.
Qed.

Lemma key_ids_are_unique_witness :
  let evs := [generate_request "alice" 0; generate_request "bob" 0;
              generate_request "alice" 0] in
  NoDup (live_ids (ta (run toy_prim evs (boot toy_prim toy_machine)))).
Proof.
  cbn zeta. apply (key_ids_are_unique toy_prim toy_machine).
  repeat constructor; intros _; vm_compute; lia.
Defined.

(** Without the terminator the guarantee is lost: the lookup reads the
    caller's buffer past its declared length while the copy stops there, so
    two requests of declared length 1 for the buffers "ab" and "ac" both
    pass the duplicate check and both store the identifier "a". *)
Lemma unterminated_ids_can_collide :
  let evs := [InvokeCommand TA_SUPER_RELAY_CMD_GENERATE_KEY generate_key_types
                [Memref (bytes_of "ab") 1; Value 0 0; Memref [] 20];
              InvokeCommand TA_SUPER_RELAY_CMD_GENERATE_KEY generate_key_types
                [Memref (bytes_of "ac") 1; Value 0 0; Memref [] 20]] in
  run_codes toy_prim evs (boot toy_prim toy_machine) = [TEE_SUCCESS; TEE_SUCCESS]
  /\ live_ids (ta (run toy_prim evs (boot toy_prim toy_machine)))
     = [bytes_of "a"; bytes_of "a"].
Proof. vm_compute. done. Qed.

(** ** Status of the live records *)

(** X8. In every state reached from [TA_CreateEntryPoint] every live
    record is active and its public metadata repeats its key_id and key
    type, and [g_keys] holds that metadata: no command changes a status.
    So the inactive-key refusal of [sign_message] is never taken: when a
    [sign_message] answers [TEE_ERROR_ACCESS_DENIED], that code is the
    answer of a provider call the command has just made. *)
Theorem live_records_are_active {W} (prim : prim_call -> W -> prim_ret * W)
    (m0 : machine W) (evs : list event) :
  let m := run prim evs (boot prim m0) in
  Forall (fun e => status (info e) = SR_KEY_STATUS_ACTIVE
                   /\ info_key_id (info e) = key_id e
                   /\ info_key_type (info e) = key_type e) (live_entries (ta m))
  /\ live_infos (ta m) = info <$> live_entries (ta m)
  /\ (forall pt ps,
        (cmd_sign_message prim pt ps m).1.1 = TEE_ERROR_ACCESS_DENIED ->
        exists c r,
          (c, r) ∈ drop (length (trace m)) (trace (cmd_sign_message prim pt ps m).2)
          /\ ret_code r = TEE_ERROR_ACCESS_DENIED).
Proof.
  intros m. assert (inv m) as Hm by apply inv_run, inv_boot.
  pose proof (inv_live m Hm) as Hlive. split; [|split].
  - eapply Forall_impl; [exact Hlive|]. intros e [? ? ? ? ? ?]. done.
  - apply Hm.
  - intros pt ps. unfold cmd_sign_message. cbv beta iota zeta.
    destruct (negb (pt =? _)); [done|].
    destruct (negb (valid_key_id_len _)); [done|].
    destruct (negb (_ =? SR_MESSAGE_HASH_SIZE)); [done|].
    destruct (_ <? sizeof_sr_signature_result_t); [done|].
    destruct (Z.ltb_spec (find_key_index (memref_buffer (param ps 0)) (ta m)) 0) as [|Hk];
      [done|].
    destruct (find_key_index_entry _ _ Hk) as [He _].
    rewrite Forall_lookup in Hlive. destruct (Hlive _ _ He) as [Hty Hst _ _ _ _].
    rewrite Hst, Hty, !Z.eqb_refl. cbn [negb].
    match goal with
    | |- context [sign_message_ecdsa prim ?e ?h ?r m] =>
        destruct (sign_message_ecdsa_code prim e h r m) as (c & rr & Hin & Hcode);
        destruct (sign_message_ecdsa prim e h r m) as [[res r1] m1]
    end.
    cbn [fst snd] in Hin, Hcode.
    destruct (Z.eqb_spec res TEE_SUCCESS) as [->|Hres].
    + by destruct (get_current_time prim m1).
    + cbn [fst snd]. intros ->. by exists c, rr.
Qed.

(** ** Provider handles *)

(** X9. No command leaks a provider handle: along any run started by
    [TA_CreateEntryPoint], whatever the provider answers, every transient
    object and every operation that was successfully allocated has been
    freed by the end of the command that allocated it, so the numbers of
    handles left allocated are those of before the run. *)
Theorem handles_are_released {W} (prim : prim_call -> W -> prim_ret * W)
    (m0 : machine W) (evs : list event) :
  let m := run prim evs (boot prim m0) in
  open_objects (trace m) = open_objects (trace m0)
  /\ open_operations (trace m) = open_operations (trace m0)
  /\ (forall ev,
        open_objects (trace (step prim ev m).2) = open_objects (trace m)
        /\ open_operations (trace (step prim ev m).2) = open_operations (trace m)).
Proof.
  intros m.
  assert (balanced_with (trace m0) (trace (boot prim m0))) as Hboot.
  { unfold boot, TA_CreateEntryPoint.
    pose proof (get_current_time_balance prim m0) as H.
    by destruct (get_current_time prim m0). }
  destruct (balanced_with_trans _ _ _ Hboot (run_balance prim evs (boot prim m0))) as [Ho Hp].
  split; [exact Ho|]. split; [exact Hp|]. intros ev. apply step_balance.
Qed.

(** ** A signature *)

(** X10. A successful [sign_message] makes exactly these provider
    calls, in this order: it allocates a key pair object, populates it with
    the stored private key of the record that the key_id finds, allocates
    an ECDSA signing operation, sets its key, signs the first 32 bytes of
    the caller's hash, frees the operation and the object, and reads the
    clock. The result holds the provider's signature at the start of a
    64-byte zeroed field, its length (at most 64) and recovery id 0. *)
Theorem sign_message_calls {W} (prim : prim_call -> W -> prim_ret * W)
    (pt : Z) (ps : list TEE_Param) (m : machine W) (out : output) (m' : machine W) :
  cmd_sign_message prim pt ps m = (TEE_SUCCESS, out, m') ->
  let e := entry_at (ta m) (find_key_index (memref_buffer (param ps 0)) (ta m)) in
  exists r1 r2 r3 r4 r5 r6 r7 r0 sig,
    trace m' = trace m ++
      [(TEE_AllocateTransientObject TEE_TYPE_ECDSA_KEYPAIR 256, r1);
       (TEE_PopulateTransientObject TEE_ATTR_ECC_PRIVATE_VALUE
          (mem_read (private_key e) (Z.to_nat (private_key_len e))), r2);
       (TEE_AllocateOperation TEE_ALG_ECDSA_P256 TEE_MODE_SIGN 256, r3);
       (TEE_SetOperationKey, r4);
       (TEE_AsymmetricSignDigest (mem_read (memref_buffer (param ps 1)) 32) 64, r5);
       (TEE_FreeOperation, r6);
       (TEE_FreeTransientObject, r7);
       (TEE_GetSystemTime, r0)]
    /\ ret_code r5 = TEE_SUCCESS
    /\ out = OutSignature sig
    /\ signature sig = take 64 (ret_bytes r5) ++ zeros (64 - length (take 64 (ret_bytes r5)))
    /\ length (signature sig) = 64%nat
    /\ signature_len sig = Z.of_nat (length (take 64 (ret_bytes r5)))
    /\ 0 <= signature_len sig <= 64
    /\ recovery_id sig = 0
    /\ sig_reserved sig = zeros 3.
Proof.
  unfold cmd_sign_message. cbv beta iota zeta.
  destruct (negb (pt =? _)); [done|].
  destruct (negb (valid_key_id_len _)); [done|].
  destruct (negb (_ =? SR_MESSAGE_HASH_SIZE)); [done|].
  destruct (_ <? sizeof_sr_signature_result_t); [done|].
  destruct (_ <? 0); [done|].
  set (e := entry_at _ _).
  destruct (negb (_ =? SR_KEY_STATUS_ACTIVE)); [done|].
  destruct (key_type e =? SR_KEY_TYPE_ECDSA_SECP256K1).
  2:{ by destruct (key_type e =? SR_KEY_TYPE_ED25519). }
  destruct (sign_message_ecdsa prim e _ zero_signature_result m) as [[res1 sig] m1] eqn:S.
  destruct (Z.eqb_spec res1 TEE_SUCCESS) as [->|]; [|by intros [= -> _ _]].
  apply sign_message_ecdsa_calls in S
    as (r1 & r2 & r3 & r4 & r5 & r6 & r7 & Htr & Hr5 & Hta & ->).
  unfold get_current_time, call. cbn [fst snd].
  intros [= <- <-]. eexists r1, r2, r3, r4, r5, r6, r7, _, _.
  cbn [with_ta trace].
  split; [rewrite Htr, <- app_assoc; reflexivity|].
  split; [done|]. split; [reflexivity|].
  cbn [signature signature_len recovery_id sig_reserved zero_signature_result].
  unfold out_bytes.
  assert (length (take 64 (ret_bytes r5)) <= 64)%nat as Hlen by (rewrite length_take; lia).
  assert (memcpy_at (zeros 64) 0 (take 64 (ret_bytes r5))
          = take 64 (ret_bytes r5) ++ zeros (64 - length (take 64 (ret_bytes r5)))) as ->.
  { unfold memcpy_at. cbn [take drop app Nat.add]. unfold zeros.
    by rewrite drop_replicate. }
  split; [done|]. split.
  { rewrite length_app, zeros_length. lia. }
  split; [done|]. split; [lia|]. done.
Qed.

Lemma sign_message_calls_witness :
  let m := run toy_prim [generate_request "alice" 0] (boot toy_prim toy_machine) in
  let r := cmd_sign_message toy_prim sign_message_types
             [Memref (bytes_of "alice") 5; Memref (replicate 32 Byte.x07) 32;
              Memref [] sizeof_sr_signature_result_t] m in
  exists sig,
    r.1.2 = OutSignature sig
    /\ length (signature sig) = 64%nat
    /\ recovery_id sig = 0
    /\ length (trace r.2) = (length (trace m) + 8)%nat.
Proof.
  cbn zeta.
  set (r := cmd_sign_message toy_prim _ _ _).
  assert (r = (TEE_SUCCESS, r.1.2, r.2)) as Hr by (vm_compute; reflexivity).
  destruct (sign_message_calls toy_prim _ _ _ _ _ Hr)
    as (r1 & r2 & r3 & r4 & r5 & r6 & r7 & r0 & sig & Htr & _ & Hout & _ & Hlen & _ & _ & Hrec & _).
  exists sig. split; [exact Hout|]. split; [exact Hlen|]. split; [exact Hrec|].
  rewrite Htr, length_app. reflexivity.
Defined.

(** ** A failed key generation *)

(** X11. A [generate_key] that fails, for whatever reason (wrong
    parameters, full store, duplicate, unsupported type, provider error,
    short address buffer), creates nothing: it writes no output, and the
    key count, the live records, the metadata table, every counter and the
    result of every lookup are as before. At most the unused table entry
    [g_key_storage[g_key_count]] has been written. *)
Theorem failed_generate_key_creates_nothing {W} (prim : prim_call -> W -> prim_ret * W)
    (pt : Z) (ps : list TEE_Param) (m : machine W)
    (res : TEE_Result) (out : output) (m' : machine W) :
  cmd_generate_key prim pt ps m = (res, out, m') ->
  res <> TEE_SUCCESS ->
  out = OutNone
  /\ g_key_count (ta m') = g_key_count (ta m)
  /\ g_keys (ta m') = g_keys (ta m)
  /\ g_session_count (ta m') = g_session_count (ta m)
  /\ g_operation_count (ta m') = g_operation_count (ta m)
  /\ g_start_time (ta m') = g_start_time (ta m)
  /\ live_entries (ta m') = live_entries (ta m)
  /\ (forall kid, find_key_index kid (ta m') = find_key_index kid (ta m))
  /\ (forall i, i <> Z.to_nat (g_key_count (ta m)) ->
                g_key_storage (ta m') !! i = g_key_storage (ta m) !! i).
Proof.
  intros E Hres.
  destruct (cmd_generate_key_failure prim _ _ _ _ _ _ E Hres) as [-> [->|(e & extra & Hta & _)]];
    [done|].
  rewrite Hta. cbn [set_g_key_storage g_key_count g_keys g_session_count
                    g_operation_count g_start_time].
  assert (live_entries (set_g_key_storage (ta m)
            (<[Z.to_nat (g_key_count (ta m)) := e]> (g_key_storage (ta m))))
          = live_entries (ta m)) as Hlive.
  { unfold live_entries. cbn [set_g_key_storage g_key_count g_key_storage].
    by rewrite take_insert_ge. }
  repeat (split; [done|]). split.
  - intros kid. unfold find_key_index. fold (live_entries (ta m)). rewrite <- Hlive. done.
  - intros i Hi. cbn [set_g_key_storage g_key_storage]. by rewrite list_lookup_insert_ne.
Qed.

Lemma failed_generate_key_creates_nothing_witness :
  let m := run toy_prim [generate_request "alice" 0] (boot toy_prim toy_machine) in
  let r := cmd_generate_key toy_prim generate_key_types
             [Memref (bytes_of "bob") 3; Value 0 0; Memref [] 19] m in
  r.1 = (TEE_ERROR_SHORT_BUFFER, OutNone)
  /\ live_entries (ta r.2) = live_entries (ta m)
  /\ g_operation_count (ta r.2) = g_operation_count (ta m).
Proof.
  cbn zeta.
  set (r := cmd_generate_key toy_prim _ _ _).
  assert (r = (TEE_ERROR_SHORT_BUFFER, r.1.2, r.2)) as Hr by (vm_compute; reflexivity).
  destruct (failed_generate_key_creates_nothing toy_prim _ _ _ _ _ _ Hr)
    as (Hout & _ & _ & _ & Hop & _ & Hlive & _); [discriminate|].
  split; [|split; [exact Hlive | exact Hop]].
  rewrite Hr. cbn [fst]. by rewrite Hout.
Defined.

(** ** Creation and destruction *)

(** X12. [TA_CreateEntryPoint] succeeds and starts from nothing,
    whatever the globals held before: the tables are zeroed, the three
    counters are zero and the start time is the clock reading. On the
    machine it leaves, no key_id is found, so every well-formed
    [get_public_key] and [sign_message] fails with
    [SR_ERROR_KEY_NOT_FOUND] and [list_keys] reports no key. *)
Theorem create_starts_from_nothing {W} (prim : prim_call -> W -> prim_ret * W)
    (m0 : machine W) :
  let m := boot prim m0 in
  (TA_CreateEntryPoint prim m0).1 = TEE_SUCCESS
  /\ ta m = mk_ta_state (replicate 16 zero_key_info) 0 0 0
              (wrap32 (ret_time (prim TEE_GetSystemTime (world m0)).1))
              (replicate 16 zero_key_entry)
  /\ (forall kid, find_key_index kid (ta m) = -1)
  /\ (forall ps,
        valid_key_id_len (memref_size (param ps 0)) = true ->
        sizeof_sr_public_key_result_t <= memref_size (param ps 1) ->
        cmd_get_public_key get_public_key_types ps m = (SR_ERROR_KEY_NOT_FOUND, OutNone, m))
  /\ (forall ps,
        valid_key_id_len (memref_size (param ps 0)) = true ->
        memref_size (param ps 1) = SR_MESSAGE_HASH_SIZE ->
        sizeof_sr_signature_result_t <= memref_size (param ps 2) ->
        cmd_sign_message prim sign_message_types ps m = (SR_ERROR_KEY_NOT_FOUND, OutNone, m))
  /\ (forall ps,
        sizeof_sr_key_list_result_t <= memref_size (param ps 0) ->
        (cmd_list_keys output_only_types ps m).1
        = (TEE_SUCCESS, OutKeyList (mk_key_list_result 0 (replicate 16 zero_key_info)))).
Proof.
  intros m.
  assert (forall kid, find_key_index kid (ta m) = -1) as Hfind by done.
  split; [done|]. split; [done|]. split; [exact Hfind|]. split; [|split].
  - intros ps Hlen Hsize. unfold cmd_get_public_key. fold get_public_key_types.
    rewrite Z.eqb_refl, Hlen, Hfind. cbn [negb].
    by destruct (Z.ltb_spec (memref_size (param ps 1)) sizeof_sr_public_key_result_t); [lia|].
  - intros ps Hlen Hhash Hsize. unfold cmd_sign_message. fold sign_message_types.
    rewrite Z.eqb_refl, Hlen, Hhash, Hfind. cbn [negb].
    by destruct (Z.ltb_spec (memref_size (param ps 2)) sizeof_sr_signature_result_t); [lia|].
  - intros ps Hsize. unfold cmd_list_keys. fold output_only_types.
    rewrite Z.eqb_refl. cbn [negb].
    by destruct (Z.ltb_spec (memref_size (param ps 0)) sizeof_sr_key_list_result_t); [lia|].
Qed.

(** X13. [TA_DestroyEntryPoint] clears the key material: after it,
    whatever was generated before (the entry a failed generation may have
    left behind included), every entry of both tables is zero, so no private
    key byte remains in the globals. The counters keep their values, and
    no key_id with a non-empty C string is found any more. *)
Theorem destroy_clears_the_keys {W} (prim : prim_call -> W -> prim_ret * W)
    (m0 : machine W) (evs : list event) :
  let m := run prim evs (boot prim m0) in
  let m' := TA_DestroyEntryPoint m in
  Forall (fun e => e = zero_key_entry) (g_key_storage (ta m'))
  /\ Forall (fun e => private_key e = zeros 32 /\ private_key_len e = 0) (g_key_storage (ta m'))
  /\ Forall (fun i => i = zero_key_info) (g_keys (ta m'))
  /\ g_key_count (ta m') = g_key_count (ta m)
  /\ g_session_count (ta m') = g_session_count (ta m)
  /\ g_operation_count (ta m') = g_operation_count (ta m)
  /\ trace m' = trace m
  /\ (forall kid, c_str kid 64 <> [] -> find_key_index kid (ta m') = -1).
Proof.
  intros m m'. unfold m', TA_DestroyEntryPoint.
  cbn [with_ta ta trace set_g_keys set_g_key_storage g_key_storage g_keys g_key_count
       g_session_count g_operation_count].
  split; [by apply Forall_replicate|]. split; [by apply Forall_replicate|].
  split; [by apply Forall_replicate|]. repeat (split; [done|]).
  intros kid Hkid. unfold find_key_index.
  cbn [set_g_keys set_g_key_storage g_key_storage g_key_count].
  rewrite take_replicate. by apply find_from_zero_entries.
Qed.

(** ** What a step may change *)

(** X14. Only [generate_key] and [sign_message] touch the keys: every
    other step (a session opening or closing, [get_public_key], [list_keys],
    [get_version], [health_check], an unimplemented or unknown command)
    leaves both tables, the key count and the start time as they were, and
    asks the provider for nothing but, in a health check, the time. *)
Theorem only_generate_and_sign_touch_keys {W} (prim : prim_call -> W -> prim_ret * W)
    (ev : event) (m : machine W) :
  (forall pt ps, ev <> InvokeCommand TA_SUPER_RELAY_CMD_GENERATE_KEY pt ps) ->
  (forall pt ps, ev <> InvokeCommand TA_SUPER_RELAY_CMD_SIGN_MESSAGE pt ps) ->
  let m' := (step prim ev m).2 in
  g_key_storage (ta m') = g_key_storage (ta m)
  /\ g_keys (ta m') = g_keys (ta m)
  /\ g_key_count (ta m') = g_key_count (ta m)
  /\ g_start_time (ta m') = g_start_time (ta m)
  /\ (trace m' = trace m
      \/ exists pt ps r,
           ev = InvokeCommand TA_SUPER_RELAY_CMD_HEALTH_CHECK pt ps
           /\ trace m' = trace m ++ [(TEE_GetSystemTime, r)]).
Proof.
  intros Hg Hs. destruct ev as [| |cmd_id pt ps]; cbn zeta.
  - cbn. repeat (split; [done|]). by left.
  - cbn [step snd]. unfold TA_CloseSessionEntryPoint.
    destruct (_ >? 0); cbn; (repeat (split; [done|])); by left.
  - assert (cmd_id <> TA_SUPER_RELAY_CMD_GENERATE_KEY) as Hg' by (intros ->; by eapply Hg).
    assert (cmd_id <> TA_SUPER_RELAY_CMD_SIGN_MESSAGE) as Hs' by (intros ->; by eapply Hs).
    cbn [step].
    destruct (query_frame prim cmd_id pt ps m Hg' Hs') as [Hta Htr].
    assert (g_key_storage (ta (TA_InvokeCommandEntryPoint prim cmd_id pt ps m).2)
              = g_key_storage (ta m)
            /\ g_keys (ta (TA_InvokeCommandEntryPoint prim cmd_id pt ps m).2) = g_keys (ta m)
            /\ g_key_count (ta (TA_InvokeCommandEntryPoint prim cmd_id pt ps m).2)
               = g_key_count (ta m)
            /\ g_start_time (ta (TA_InvokeCommandEntryPoint prim cmd_id pt ps m).2)
               = g_start_time (ta m)) as (H1 & H2 & H3 & H4)
      by (destruct Hta as [-> | ->]; done).
    repeat (split; [done|]).
    destruct Htr as [->|[-> ->]]; [by left|]. right. by eexists _, _, _.
Qed.

Lemma only_generate_and_sign_touch_keys_witness :
  let m := run toy_prim [generate_request "alice" 0] (boot toy_prim toy_machine) in
  g_key_storage (ta (step toy_prim (get_public_key_request "alice") m).2)
  = g_key_storage (ta m).
Proof.
  cbn zeta.
  apply (only_generate_and_sign_touch_keys toy_prim (get_public_key_request "alice")).
  - intros pt ps. discriminate.
  - intros pt ps. discriminate.
Defined.

(** ** Array bounds *)

(** X15. In every state reached from [TA_CreateEntryPoint] both
    tables have their sixteen entries, the key count is at most 16 and a
    lookup returns -1 or the index of a live record. Every live record
    fills its arrays exactly (64-byte key_id with a NUL in it, 32-byte
    private key, 64-byte public key, 20-byte address) and the key lengths
    it records do not exceed them (at most 32 and 64). So the copy of
    [public_key_len] bytes that [get_public_key] makes stays within the
    64-byte field of its result, whose address is 20 bytes long. *)
Theorem stored_lengths_stay_in_bounds {W} (prim : prim_call -> W -> prim_ret * W)
    (m0 : machine W) (evs : list event) :
  let m := run prim evs (boot prim m0) in
  length (g_key_storage (ta m)) = 16%nat
  /\ length (g_keys (ta m)) = 16%nat
  /\ 0 <= g_key_count (ta m) <= SR_MAX_KEYS
  /\ (forall kid, -1 <= find_key_index kid (ta m) < g_key_count (ta m))
  /\ Forall entry_bounds (live_entries (ta m))
  /\ (forall pt ps r m',
        cmd_get_public_key pt ps m = (TEE_SUCCESS, OutPublicKey r, m') ->
        length (pk_public_key r) = 64%nat
        /\ 0 <= pk_public_key_len r <= 64
        /\ length (pk_ethereum_address r) = 20%nat).
Proof.
  intros m.
  assert (inv m) as Hm by apply inv_run, inv_boot.
  assert (Forall entry_bounds (live_entries (ta m))) as Hb.
  { apply run_bounds; [apply inv_boot|]. rewrite live_boot. constructor. }
  destruct Hm as [Hc Hkl Hsl _ _].
  split; [exact Hsl|]. split; [exact Hkl|]. split; [exact Hc|].
  split; [intros kid; apply find_key_index_bounds; [lia | done | lia]|].
  split; [exact Hb|]. intros pt ps r m'.
  unfold cmd_get_public_key. cbv beta iota zeta.
  destruct (negb (pt =? _)); [done|].
  destruct (negb (valid_key_id_len _)); [done|].
  destruct (_ <? sizeof_sr_public_key_result_t); [done|].
  destruct (Z.ltb_spec (find_key_index (memref_buffer (param ps 0)) (ta m)) 0) as [|Hk];
    [done|].
  destruct (find_key_index_entry _ _ Hk) as [He _].
  rewrite Forall_lookup in Hb. destruct (Hb _ _ He) as [_ _ _ Hpub _ Hlen _ Haddr].
  intros [= <- _].
  cbn [pk_public_key pk_public_key_len pk_ethereum_address zero_public_key_result].
  split; [|split; [done|apply mem_read_length]].
  rewrite memcpy_at_length; rewrite zeros_length; [done|].
  rewrite mem_read_length. lia.
Qed.

(** ** Records stay *)

(** X16. A record, once created, stays where it is and keeps what
    creation gave it: after any further run the live record of the same
    index has the same key_id, key type, private and public key (bytes and
    recorded lengths), address, creation time, status and metadata
    identifier; only its usage count and last-used time may differ. No
    command deletes, moves or overwrites a live record. *)
Theorem records_are_permanent {W} (prim : prim_call -> W -> prim_ret * W)
    (m0 : machine W) (evs1 evs2 : list event) (k : nat) (e : sr_key_entry_t) :
  let m := run prim evs1 (boot prim m0) in
  live_entries (ta m) !! k = Some e ->
  exists e',
    live_entries (ta (run prim evs2 m)) !! k = Some e'
    /\ key_id e' = key_id e
    /\ key_type e' = key_type e
    /\ private_key e' = private_key e
    /\ private_key_len e' = private_key_len e
    /\ public_key e' = public_key e
    /\ public_key_len e' = public_key_len e
    /\ info_key_id (info e') = info_key_id (info e)
    /\ info_key_type (info e') = info_key_type (info e)
    /\ status (info e') = status (info e)
    /\ created_time (info e') = created_time (info e)
    /\ ethereum_address (info e') = ethereum_address (info e).
Proof.
  intros m He.
  assert (inv m) as Hm by apply inv_run, inv_boot.
  pose proof (run_frozen prim evs2 m Hm) as Hfrozen.
  destruct (frozen_prefix_lookup _ _ _ _ Hfrozen He) as (e' & He' & Hfr).
  exists e'. split; [exact He'|].
  split; [exact (f_equal key_id Hfr)|].
  split; [exact (f_equal key_type Hfr)|].
  split; [exact (f_equal private_key Hfr)|].
  split; [exact (f_equal private_key_len Hfr)|].
  split; [exact (f_equal public_key Hfr)|].
  split; [exact (f_equal public_key_len Hfr)|].
  split; [exact (f_equal (fun x => info_key_id (info x)) Hfr)|].
  split; [exact (f_equal (fun x => info_key_type (info x)) Hfr)|].
  split; [exact (f_equal (fun x => status (info x)) Hfr)|].
  split; [exact (f_equal (fun x => created_time (info x)) Hfr)|].
  exact (f_equal (fun x => ethereum_address (info x)) Hfr).
Qed.

Lemma records_are_permanent_witness :
  let m := run toy_prim [generate_request "alice" 0] (boot toy_prim toy_machine) in
  let evs := [sign_request "alice" (replicate 32 Byte.x07); generate_request "bob" 0;
              generate_request "alice" 0; CloseSession] in
  exists e',
    live_entries (ta (run toy_prim evs m)) !! 0%nat = Some e'
    /\ private_key e' = private_key (entry_at (ta m) 0)
    /\ created_time (info e') = created_time (info (entry_at (ta m) 0)).
Proof.
  cbn zeta.
  destruct (records_are_permanent toy_prim toy_machine [generate_request "alice" 0]
              [sign_request "alice" (replicate 32 Byte.x07); generate_request "bob" 0;
               generate_request "alice" 0; CloseSession]
              0%nat
              (entry_at (ta (run toy_prim [generate_request "alice" 0]
                               (boot toy_prim toy_machine))) 0))
    as (e' & He' & _ & _ & Hp & _ & _ & _ & _ & _ & _ & Hc & _).
  - vm_compute. reflexivity.
  - exists e'. split; [exact He'|]. split; [exact Hp | exact Hc].
Defined.

(** ** A short address buffer *)

(** X17. [generate_key] looks at the size of the address buffer only
    after the key pair has been generated. In a state reached from
    [TA_CreateEntryPoint], with a provider whose key generation succeeds, an
    otherwise acceptable request whose address buffer is shorter than 20
    bytes fails with [TEE_ERROR_SHORT_BUFFER] after the provider has been
    asked for a key pair; no key is created and the same request with a
    large enough buffer then succeeds, but the private key obtained from
    the provider is left in the unused table entry. *)
Theorem short_address_buffer_is_detected_late {W} (prim : prim_call -> W -> prim_ret * W)
    (m0 : machine W) (evs : list event) (ps : list TEE_Param) :
  let m := run prim evs (boot prim m0) in
  keygen_succeeds prim ->
  g_key_count (ta m) < SR_MAX_KEYS ->
  valid_key_id_len (memref_size (param ps 0)) = true ->
  value_a (param ps 1) = SR_KEY_TYPE_ECDSA_SECP256K1 ->
  find_key_index (memref_buffer (param ps 0)) (ta m) < 0 ->
  memref_size (param ps 2) < SR_ETHEREUM_ADDRESS_SIZE ->
  exists m' r3,
    cmd_generate_key prim generate_key_types ps m = (TEE_ERROR_SHORT_BUFFER, OutNone, m')
    /\ (TEE_GetObjectBufferAttribute TEE_ATTR_ECC_PRIVATE_VALUE 32, r3)
         ∈ drop (length (trace m)) (trace m')
    /\ private_key (entry_at (ta m') (g_key_count (ta m)))
       = memcpy_at (zeros 32) 0 (take 32 (ret_bytes r3))
    /\ live_entries (ta m') = live_entries (ta m)
    /\ (forall ps',
          param ps' 0 = param ps 0 ->
          value_a (param ps' 1) = SR_KEY_TYPE_ECDSA_SECP256K1 ->
          SR_ETHEREUM_ADDRESS_SIZE <= memref_size (param ps' 2) ->
          (cmd_generate_key prim generate_key_types ps' m').1.1 = TEE_SUCCESS).
Proof.
  intros m Hok Hfull Hlen Hty Hfind Hshort.
  assert (inv m) as Hm by apply inv_run, inv_boot.
  destruct (cmd_generate_key prim generate_key_types ps m) as [[res out] m'] eqn:E.
  assert (res = TEE_ERROR_SHORT_BUFFER
          /\ exists r3,
               (TEE_GetObjectBufferAttribute TEE_ATTR_ECC_PRIVATE_VALUE 32, r3)
                 ∈ drop (length (trace m)) (trace m')
               /\ private_key (entry_at (ta m') (g_key_count (ta m)))
                  = memcpy_at (zeros 32) 0 (take 32 (ret_bytes r3))) as [-> (r3 & Hin & Hpriv)].
  { revert E. unfold cmd_generate_key. fold generate_key_types.
    rewrite Z.eqb_refl, Hlen, Hty. cbn [negb].
    destruct (Z.geb_spec (g_key_count (ta m)) SR_MAX_KEYS); [lia|].
    destruct (Z.geb_spec SR_KEY_TYPE_ECDSA_SECP256K1 SR_KEY_TYPE_MAX); [done|].
    destruct (Z.geb_spec (find_key_index (memref_buffer (param ps 0)) (ta m)) 0); [lia|].
    rewrite Z.eqb_refl. unfold get_current_time.
    pose proof (call_trace prim TEE_GetSystemTime m) as Htr0.
    pose proof (call_ta prim TEE_GetSystemTime m) as Hta0.
    destruct (call prim TEE_GetSystemTime m) as [r0 m1]. cbn [fst snd] in Htr0, Hta0.
    match goal with |- context [generate_secp256k1_keypair prim ?e ?m] =>
      pose proof (generate_secp256k1_keypair_ok prim e m Hok) as Hg;
      destruct (generate_secp256k1_keypair prim e m) as [[res1 e3] m2] eqn:G end.
    cbn [fst snd] in Hg. subst res1. cbn [Z.eqb TEE_SUCCESS negb].
    destruct (Z.ltb_spec (memref_size (param ps 2)) SR_ETHEREUM_ADDRESS_SIZE); [|lia].
    apply generate_secp256k1_keypair_success in G
      as (r1 & r2 & r3 & rx & ry & rd & rf & Htr & _ & _ & _ & Hta & ->).
    intros [= <- _ <-]. split; [done|]. exists r3. split.
    - cbn [with_ta trace]. rewrite Htr, Htr0, <- app_assoc, drop_app_length.
      cbn [app]. do 3 apply list_elem_of_further. apply list_elem_of_here.
    - cbn [with_ta ta set_g_key_storage g_key_storage]. rewrite Hta, Hta0.
      unfold entry_at. cbn [set_g_key_storage g_key_storage].
      rewrite list_lookup_insert_eq.
      + reflexivity.
      + destruct Hm as [Hc _ Hl _ _]. rewrite Hl. unfold SR_MAX_KEYS in *. lia. }
  assert (TEE_ERROR_SHORT_BUFFER <> TEE_SUCCESS) as Hne by discriminate.
  destruct (failed_generate_facts prim _ _ _ _ _ _ E Hne) as (-> & Hc & Hlive & Hf).
  exists m', r3. split; [done|]. split; [done|]. split; [done|]. split; [done|].
  intros ps' Hsame Hty' Hout'. apply cmd_generate_key_succeeds; try done.
  - by rewrite Hc.
  - by rewrite Hsame.
  - by rewrite Hsame, Hf.
Qed.

Lemma short_address_buffer_is_detected_late_witness :
  exists m',
    cmd_generate_key toy_prim generate_key_types
      [Memref (bytes_of "bob") 3; Value 0 0; Memref [] 19] (boot toy_prim toy_machine)
    = (TEE_ERROR_SHORT_BUFFER, OutNone, m')
    /\ live_entries (ta m') = []
    /\ (cmd_generate_key toy_prim generate_key_types
          [Memref (bytes_of "bob") 3; Value 0 0; Memref [] 20] m').1.1 = TEE_SUCCESS.
Proof.
  destruct (short_address_buffer_is_detected_late toy_prim toy_machine []
              [Memref (bytes_of "bob") 3; Value 0 0; Memref [] 19])
    as (m' & r3 & Hres & _ & _ & Hlive & Hretry).
  - intros c w Hc. destruct c; try discriminate Hc; reflexivity.
  - vm_compute. reflexivity.
  - reflexivity.
  - reflexivity.
  - vm_compute. reflexivity.
  - vm_compute. reflexivity.
  - exists m'. split; [exact Hres|]. split; [exact Hlive|].
    apply Hretry; [reflexivity | reflexivity | vm_compute; discriminate].
Defined.

(** ** A failed signature *)

(** X18. A [sign_message] that fails, at a check of its own or because
    a provider operation reports an error, leaves every global as it was:
    no usage count, last-used time or operation counter changes, and the
    clock is not read. Either nothing was written and the machine is
    untouched, or the caller's result buffer has been zeroed and holds no
    signature. *)
Theorem failed_sign_message_changes_nothing {W} (prim : prim_call -> W -> prim_ret * W)
    (pt : Z) (ps : list TEE_Param) (m : machine W)
    (res : TEE_Result) (out : output) (m' : machine W) :
  cmd_sign_message prim pt ps m = (res, out, m') ->
  res <> TEE_SUCCESS ->
  ta m' = ta m
  /\ (exists extra, trace m' = trace m ++ extra /\ clock_readings extra = [])
  /\ (out = OutNone /\ m' = m \/ out = OutSignature zero_signature_result).
Proof.
  unfold cmd_sign_message. cbv beta iota zeta.
  assert (ta m = ta m /\ (exists extra, trace m = trace m ++ extra /\ clock_readings extra = []))
    as Hsame by (split; [done|]; exists []; by rewrite app_nil_r).
  destruct (negb (pt =? _)); [intros [= <- <- <-] _; split_and!; try apply Hsame; by left|].
  destruct (negb (valid_key_id_len _));
    [intros [= <- <- <-] _; split_and!; try apply Hsame; by left|].
  destruct (negb (_ =? SR_MESSAGE_HASH_SIZE));
    [intros [= <- <- <-] _; split_and!; try apply Hsame; by left|].
  destruct (_ <? sizeof_sr_signature_result_t);
    [intros [= <- <- <-] _; split_and!; try apply Hsame; by left|].
  destruct (_ <? 0); [intros [= <- <- <-] _; split_and!; try apply Hsame; by left|].
  destruct (negb (_ =? SR_KEY_STATUS_ACTIVE));
    [intros [= <- <- <-] _; split_and!; try apply Hsame; by left|].
  destruct (key_type _ =? SR_KEY_TYPE_ECDSA_SECP256K1).
  2:{ destruct (key_type _ =? SR_KEY_TYPE_ED25519);
        intros [= <- <- <-] _; split_and!; try apply Hsame; by right. }
  match goal with
  | |- context [sign_message_ecdsa prim ?e ?h ?r m] =>
      pose proof (sign_message_ecdsa_frame prim e h r m) as [Hta Htr];
      pose proof (sign_message_ecdsa_failure prim e h r m) as Hout;
      destruct (sign_message_ecdsa prim e h r m) as [[res1 r1] m1]
  end.
  cbn [fst snd] in Hta, Htr, Hout.
  destruct (Z.eqb_spec res1 TEE_SUCCESS) as [->|Hres].
  { destruct (get_current_time prim m1). by intros [= <- _ _] ?. }
  intros [= <- <- <-] _. split; [done|]. split; [done|]. right. by rewrite Hout.
Qed.

Lemma failed_sign_message_changes_nothing_witness :
  let m := run toy_prim_no_sign [generate_request "alice" 0]
             (boot toy_prim_no_sign toy_machine) in
  let r := cmd_sign_message toy_prim_no_sign sign_message_types
             [Memref (bytes_of "alice") 5; Memref (replicate 32 Byte.x07) 32;
              Memref [] sizeof_sr_signature_result_t] m in
  r.1 = (TEE_ERROR_NOT_SUPPORTED, OutSignature zero_signature_result)
  /\ ta r.2 = ta m.
Proof.
  cbn zeta.
  set (r := cmd_sign_message toy_prim_no_sign _ _ _).
  assert (r = (TEE_ERROR_NOT_SUPPORTED, r.1.2, r.2)) as Hr by (vm_compute; reflexivity).
  split; [vm_compute; reflexivity|].
  apply (failed_sign_message_changes_nothing toy_prim_no_sign _ _ _ _ _ _ Hr). discriminate.
Defined.

(** ** Generating a key, then signing with it *)

(** X19. With a provider none of whose operations fails, a key that
    [generate_key] has created under a key_id passed as a C string can be
    used from then on: after any further run, a well-formed [sign_message]
    for the same key_id finds the record at the index it was created at,
    succeeds, and adds one (modulo 2^32) to the usage count of that
    record. *)
Theorem generate_then_sign {W} (prim : prim_call -> W -> prim_ret * W)
    (m0 : machine W) (evs1 evs2 : list event) (pt : Z) (ps ps' : list TEE_Param)
    (out : output) (m1 : machine W) :
  always_succeeds prim ->
  cmd_generate_key prim pt ps (run prim evs1 (boot prim m0)) = (TEE_SUCCESS, out, m1) ->
  c_string_id (param ps 0) ->
  param ps' 0 = param ps 0 ->
  memref_size (param ps' 1) = SR_MESSAGE_HASH_SIZE ->
  sizeof_sr_signature_result_t <= memref_size (param ps' 2) ->
  let k := g_key_count (ta (run prim evs1 (boot prim m0))) in
  let m2 := run prim evs2 m1 in
  find_key_index (memref_buffer (param ps' 0)) (ta m2) = k
  /\ (cmd_sign_message prim sign_message_types ps' m2).1.1 = TEE_SUCCESS
  /\ usage_of k (cmd_sign_message prim sign_message_types ps' m2).2
     = wrap32 (usage_of k m2 + 1).
Proof.
  intros Hok Hgen Hstr Hsame Hhash Hout k m2.
  set (m := run prim evs1 (boot prim m0)) in *.
  assert (inv m) as Hm by apply inv_run, inv_boot.
  assert (inv m1) as Hm1.
  { pose proof (inv_step prim (InvokeCommand TA_SUPER_RELAY_CMD_GENERATE_KEY pt ps) m Hm) as H.
    rewrite step_generate, Hgen in H. exact H. }
  assert (inv m2) as Hm2 by (by apply inv_run).
  apply cmd_generate_key_success in Hgen. cbn zeta in Hgen.
  destruct Hgen as (_ & Hfull & Hlen & _ & Hfind & _ & r0 & r1 & r2 & r3 & rx & ry & rd & rf
                    & _ & _ & _ & _ & Hta & _).
  set (e := generated_entry _ _ _ _ _ _ _) in *.
  pose proof (valid_key_id_len_lt _ Hlen) as Hlt.
  destruct (find_generated ps m e Hm) as [Hk He]; try done.
  rewrite <- Hta in Hk, He.
  pose proof (run_frozen prim evs2 m1 Hm1) as Hfrozen. fold m2 in Hfrozen.
  assert (0 <= g_key_count (ta m)) as Hcount by (destruct Hm; lia).
  pose proof (find_key_index_stable _ _ (memref_buffer (param ps 0)) Hfrozen) as Hk2.
  rewrite Hk in Hk2. specialize (Hk2 Hcount).
  assert (find_key_index (memref_buffer (param ps' 0)) (ta m2) = k) as Hfound
    by (by rewrite Hsame).
  assert ((cmd_sign_message prim sign_message_types ps' m2).1.1 = TEE_SUCCESS) as Hsign.
  { apply sign_succeeds; try done; [by rewrite Hsame | rewrite Hfound; exact Hcount]. }
  split; [exact Hfound|]. split; [exact Hsign|].
  assert (0 <= k < g_key_count (ta m2)) as Hrange.
  { pose proof (find_key_index_bounds (memref_buffer (param ps' 0)) (ta m2)) as Hb.
    destruct Hm2 as [Hc _ Hs _ _]. rewrite Hfound in Hb. lia. }
  pose proof (step_usage prim k (InvokeCommand TA_SUPER_RELAY_CMD_SIGN_MESSAGE
                                   sign_message_types ps') m2 Hm2 Hrange) as Hu.
  unfold signs_key in Hu. rewrite step_sign in Hu.
  rewrite Hsign, Hfound, !Z.eqb_refl in Hu. exact Hu.
Qed.

Lemma generate_then_sign_witness :
  let g := cmd_generate_key toy_prim generate_key_types
             [Memref (bytes_of "alice") 5; Value 0 0; Memref [] 20]
             (run toy_prim [generate_request "bob" 0] (boot toy_prim toy_machine)) in
  let m2 := run toy_prim [generate_request "carol" 0; list_keys_request] g.2 in
  (cmd_sign_message toy_prim sign_message_types
     [Memref (bytes_of "alice") 5; Memref (replicate 32 Byte.x07) 32;
      Memref [] sizeof_sr_signature_result_t] m2).1.1 = TEE_SUCCESS.
Proof.
  cbn zeta.
  set (g := cmd_generate_key toy_prim _ _ _).
  assert (g = (TEE_SUCCESS, g.1.2, g.2)) as Hg by (vm_compute; reflexivity).
  eapply proj1, proj2.
  apply (generate_then_sign toy_prim toy_machine [generate_request "bob" 0]
           [generate_request "carol" 0; list_keys_request] generate_key_types
           [Memref (bytes_of "alice") 5; Value 0 0; Memref [] 20]
           [Memref (bytes_of "alice") 5; Memref (replicate 32 Byte.x07) 32;
            Memref [] sizeof_sr_signature_result_t] g.1.2 g.2).
  - intros c w. destruct c; reflexivity.
  - exact Hg.
  - vm_compute. reflexivity.
  - reflexivity.
  - reflexivity.
  - vm_compute. discriminate.
Defined.

(** ** The record a key generation creates *)

(** X20. In a state reached from [TA_CreateEntryPoint] a successful
    [generate_key] appends exactly one record to the live records and its
    metadata to the metadata table, leaving the earlier ones as they were.
    The new record is an active ECDSA key with usage count 0 whose creation
    and last-used times are the clock reading the command took; its key_id,
    repeated in its metadata, reads back as the caller's key_id cut at its
    first NUL or at its declared length: for a key_id passed as a C string,
    exactly the declared bytes. *)
Theorem generate_key_appends_a_record {W} (prim : prim_call -> W -> prim_ret * W)
    (m0 : machine W) (evs : list event) (pt : Z) (ps : list TEE_Param)
    (out : output) (m1 : machine W) :
  let m := run prim evs (boot prim m0) in
  cmd_generate_key prim pt ps m = (TEE_SUCCESS, out, m1) ->
  exists e r0,
    live_entries (ta m1) = live_entries (ta m) ++ [e]
    /\ live_infos (ta m1) = live_infos (ta m) ++ [info e]
    /\ g_key_count (ta m1) = g_key_count (ta m) + 1
    /\ c_str (key_id e) 64
       = c_str (memref_buffer (param ps 0)) (Z.to_nat (memref_size (param ps 0)))
    /\ (c_string_id (param ps 0) -> c_str (key_id e) 64 = declared_bytes (param ps 0))
    /\ info_key_id (info e) = key_id e
    /\ key_type e = SR_KEY_TYPE_ECDSA_SECP256K1
    /\ info_key_type (info e) = SR_KEY_TYPE_ECDSA_SECP256K1
    /\ status (info e) = SR_KEY_STATUS_ACTIVE
    /\ usage_count (info e) = 0
    /\ trace m1 !! length (trace m) = Some (TEE_GetSystemTime, r0)
    /\ created_time (info e) = wrap32 (ret_time r0)
    /\ last_used_time (info e) = wrap32 (ret_time r0).
Proof.
  intros m Hgen. assert (inv m) as Hm by apply inv_run, inv_boot.
  apply cmd_generate_key_success in Hgen. cbn zeta in Hgen.
  destruct Hgen as (_ & Hfull & Hlen & _ & _ & _ & r0 & r1 & r2 & r3 & rx & ry & rd & rf
                    & Htr & _ & _ & _ & Hta & _).
  set (e := generated_entry _ _ _ _ _ _ _) in *.
  pose proof (valid_key_id_len_lt _ Hlen) as Hlt.
  destruct Hm as [Hc Hkl Hsl _ _].
  destruct (live_generated (ta m) e) as (Hcount & Hlive & Hinfos); [lia | done | done |].
  exists e, r0. rewrite Hta.
  split; [exact Hlive|]. split; [exact Hinfos|]. split; [exact Hcount|].
  assert (c_str (key_id e) 64
          = c_str (memref_buffer (param ps 0)) (Z.to_nat (memref_size (param ps 0)))) as Hid
    by (by apply stored_key_id_c_str).
  split; [exact Hid|]. split.
  { intros Hstr. rewrite Hid, <- (c_string_id_declared _ Hlt Hstr).
    unfold c_string_id in Hstr. change (Z.to_nat SR_MAX_KEY_ID_SIZE) with 64%nat in Hstr.
    apply c_str_shorter; [lia | unfold SR_MAX_KEY_ID_SIZE in Hlt; lia]. }
  split; [by apply info_key_id_copy|].
  repeat (split; [reflexivity|]).
  split; [|split; reflexivity].
  rewrite Htr. by apply list_lookup_middle.
Qed.

Lemma generate_key_appends_a_record_witness :
  let m := run toy_prim [generate_request "alice" 0] (boot toy_prim toy_machine) in
  let g := cmd_generate_key toy_prim generate_key_types
             [Memref (bytes_of "bob") 3; Value 0 0; Memref [] 20] m in
  exists e,
    live_entries (ta g.2) = live_entries (ta m) ++ [e]
    /\ c_str (key_id e) 64 = bytes_of "bob"
    /\ usage_count (info e) = 0.
Proof.
  cbn zeta.
  set (g := cmd_generate_key toy_prim _ _ _).
  assert (g = (TEE_SUCCESS, g.1.2, g.2)) as Hg by (vm_compute; reflexivity).
  destruct (generate_key_appends_a_record toy_prim toy_machine
              [generate_request "alice" 0] _ _ _ _ Hg)
    as (e & r0 & Hlive & _ & _ & _ & Hid & _ & _ & _ & _ & Hu & _).
  exists e. split; [exact Hlive|]. split; [|exact Hu].
  rewrite Hid; [reflexivity | vm_compute; reflexivity].
Defined.
